(** * Incremental, content-fingerprinted string extraction

    A shallow embedding of the scan pipeline of
    [skills/i18n-translation/scripts/extract-strings-incremental.py] and of
    the collection loop of [extract-strings-fast.py], with the properties
    stated for it.

    Python dictionaries are [gmap]s, Python sets are [gset]s, file contents
    are byte lists, and the filesystem is an explicit store threaded through
    the run.

    Scope of the model: during a run the files change only through the
    run's own [save_cache]; the cache directory can be created and written;
    a cache file either does not parse or parses to a dictionary of entries
    of the shape the scan writes; listings return canonical POSIX path
    strings; the parallel scan is given a valid pool size, a positive
    number. *)

From Stdlib Require Import Strings.Byte Strings.Ascii Strings.String.
From stdpp Require Import gmap strings list fin_maps sets countable pretty.

Local Open Scope string_scope.
Local Open Scope list_scope.

(** ** Paths

    A [pathlib] path is identified with its canonical string; [parts],
    [name] and [suffix] are computed from it the way [PurePosixPath] does. *)

Module Paths.

Abbreviation Path := string.

Definition slash : ascii := "/"%char.
Definition dot : ascii := "."%char.

(** The components between separators, empty ones included. *)
Fixpoint split_slash (s : string) : list string :=
  match s with
  | EmptyString => [EmptyString]
  | String c rest =>
      if Ascii.eqb c slash then EmptyString :: split_slash rest
      else match split_slash rest with
           | seg :: segs => String c seg :: segs
           | [] => [String c EmptyString]
           end
  end.

Definition is_segment (seg : string) : bool :=
  negb (String.eqb seg "") && negb (String.eqb seg ".").

(** Named components: empty and "." components are dropped by [pathlib]. *)
Definition segments (p : Path) : list string :=
  List.filter is_segment (split_slash p).

Definition is_absolute (p : Path) : bool :=
  match p with
  | String c _ => Ascii.eqb c slash
  | EmptyString => false
  end.

(** [filepath.root]: "/" for an absolute path, except that exactly two
    leading separators are kept as "//"; empty for a relative path. *)
Definition root (p : Path) : string :=
  match p with
  | String c1 rest =>
      if Ascii.eqb c1 slash then
        match rest with
        | String c2 rest' =>
            if Ascii.eqb c2 slash then
              match rest' with
              | String c3 _ => if Ascii.eqb c3 slash then "/" else "//"
              | EmptyString => "//"
              end
            else "/"
        | EmptyString => "/"
        end
      else ""
  | EmptyString => ""
  end.

(** [filepath.parts] *)
Definition parts (p : Path) : list string :=
  (if is_absolute p then [root p] else []) ++ segments p.

(** [str(Path(p) / file)], for a [file] that is a plain name: the root, then
    the named components joined by single separators. *)
Definition joinpath (p : Path) (file : string) : Path :=
  root p +:+ String.concat "/" (segments p ++ [file]).

(** [filepath.name] *)
Definition name (p : Path) : string := List.last (segments p) "".

(** Index of the last "." of a string ([str.rfind]). *)
Fixpoint rfind_dot (s : string) : option nat :=
  match s with
  | EmptyString => None
  | String c rest =>
      match rfind_dot rest with
      | Some i => Some (S i)
      | None => if Ascii.eqb c dot then Some 0 else None
      end
  end.

(** [filepath.suffix]: the last dot and what follows it, unless the dot
    starts or ends the name. *)
Definition suffix (p : Path) : string :=
  let n := name p in
  match rfind_dot n with
  | Some i =>
      if ((0 <? i) && (i <? String.length n - 1))%nat
      then String.substring i (String.length n - i) n
      else ""
  | None => ""
  end.

(** [s.lstrip('.')] *)
Fixpoint lstrip_dot (s : string) : string :=
  match s with
  | String c rest => if Ascii.eqb c dot then lstrip_dot rest else s
  | EmptyString => EmptyString
  end.

End Paths.

Import Paths.

(** ** Discovery filter

    [any(exclude_dir in filepath.parts for exclude_dir in exclude_dirs)] *)

Definition is_excluded (filepath : Path) (exclude_dirs : list string) : bool :=
  existsb (fun exclude_dir => bool_decide (exclude_dir ∈ parts filepath))
          exclude_dirs.

(** ** Data model *)

(** A cache entry as written by the scan and read back by [json.load]:
    [{'hash': ..., 'timestamp': ..., 'results': {category: [strings]}}]. *)
Record CacheEntry := {
  e_hash : string;
  e_timestamp : string;
  e_results : gmap string (list string)
}.

(** The cache: a dictionary from [str(filepath)] to its entry. *)
Abbreviation Cache := (gmap string CacheEntry).

(** The files of the machine, by path string.  A path without an entry
    cannot be opened (missing, a directory, or not permitted). *)
Abbreviation Files := (gmap string (list byte)).

(** [all_strings]: a [defaultdict(set)] *)
Abbreviation Strings := (gmap string (gset string)).

(** [file_counts]: a [defaultdict(int)] *)
Abbreviation Counts := (gmap string nat).

(** The result dictionary of one file: category to set of strings. *)
Abbreviation Results := (gmap string (gset string)).

(** What the scan uses from Python's library: [hashlib], the UTF-8 codec,
    [json], [datetime], [multiprocessing] and [pathlib].  [json_dump] gives
    the chunks [json.dump] writes, encoded; [json_load] is [None] where
    [json.load] raises; [cpu_count] is at least one;
    [rglob_created path rglob] is what [rglob] lists once the file [path],
    with the directories above it, has been created on a machine where it
    listed [rglob]. *)
Record PyLib := {
  md5_hexdigest : list byte -> string;
  utf8_decode : list byte -> option string;
  str_exception : Path -> string;
  json_dump : Cache -> list (list byte);
  json_load : list byte -> option Cache;
  isoformat : nat -> string;
  cpu_count : positive;
  rglob_created : Path -> (Path -> string -> list Path)
                  -> Path -> string -> list Path
}.

(** The rule set plugged into the scan: eight extractors, each a function
    from a file's text to a set of strings.  The scan is stated for any rule
    set; the one of the scripts is [Rules.rules] below. *)
Record RuleSet := {
  extract_jsx_strings : string -> gset string;
  extract_button_text : string -> gset string;
  extract_label_text : string -> gset string;
  extract_placeholders : string -> gset string;
  extract_attribute_strings : string -> gset string;
  extract_toast_alert_strings : string -> gset string;
  extract_validation_strings : string -> gset string;
  extract_string_literals : string -> gset string
}.

(** *** The rule set of the scripts *)

Module Rules.

(** Python's [re] and [str] as the extractors use them.  [findall key text]
    is [REGEX_PATTERNS[key].findall(text)], with the key [validation] for
    the pattern that [extract_validation_strings] compiles itself. *)
Record Regex := {
  findall : string -> string -> list string;
  strip : string -> string;
  lower : string -> string
}.

Definition VALIDATION_KEYWORDS : list string :=
  ["error"; "success"; "warning"; "info"; "confirm";
   "saved"; "deleted"; "updated"; "login"; "logout"].

(** [needle in text] *)
Fixpoint contains (needle text : string) : bool :=
  String.prefix needle text
  || match text with
     | EmptyString => false
     | String _ rest => contains needle rest
     end.

Section Extractors.

Context (RE : Regex).

(** [{m.strip() for m in matches if m.strip()}] *)
Definition stripped_set (matches : list string) : gset string :=
  list_to_set
    (strip RE <$> List.filter (fun m => negb (String.eqb (strip RE m) ""))
                              matches).

Definition extract_jsx_strings (content : string) : gset string :=
  stripped_set (findall RE "jsx_content" content).

Definition extract_button_text (content : string) : gset string :=
  stripped_set (findall RE "buttons" content).

Definition extract_label_text (content : string) : gset string :=
  stripped_set (findall RE "labels" content).

Definition extract_placeholders (content : string) : gset string :=
  list_to_set (findall RE "placeholders" content).

Definition extract_attribute_strings (content : string) : gset string :=
  let strings : gset string := ∅ in
  let strings := strings ∪ list_to_set (findall RE "title" content) in
  let strings := strings ∪ list_to_set (findall RE "alt" content) in
  strings ∪ list_to_set (findall RE "aria_label" content).

Definition extract_toast_alert_strings (content : string) : gset string :=
  let messages := findall RE "message" content in
  let titles := findall RE "toast_title" content in
  let texts := findall RE "text" content in
  let all_matches := messages ++ titles ++ texts in
  let filtered :=
    List.filter (fun m => existsb (fun keyword => contains keyword (lower RE m))
                                  VALIDATION_KEYWORDS)
                all_matches in
  list_to_set filtered.

Definition extract_validation_strings (content : string) : gset string :=
  list_to_set (findall RE "validation" content).

Definition extract_string_literals (content : string) : gset string :=
  list_to_set (findall RE "ui_literals" content).

Definition rules : RuleSet :=
  Build_RuleSet extract_jsx_strings extract_button_text extract_label_text
                extract_placeholders extract_attribute_strings
                extract_toast_alert_strings extract_validation_strings
                extract_string_literals.

End Extractors.

End Rules.

(** The machine a run starts in: what [source_dir.rglob(pattern)] lists,
    the files, and the clock read by [datetime.now()].  A run that creates
    the cache file leaves a machine that lists it (see
    [listing_after_save]). *)
Record World := {
  w_rglob : Path -> string -> list Path;
  w_fs : Files;
  w_clock : nat
}.

Definition CACHE_DIR : string := ".i18n-cache".
Definition CACHE_FILE : string := "extraction_cache.json".

(** [Path(cache_dir) / CACHE_FILE] *)
Definition cache_path (cache_dir : string) : Path :=
  joinpath cache_dir CACHE_FILE.

(** ** The aggregator *)

(** [all_strings[category].update(strings)] *)
Definition update_strings (all_strings : Strings) (category : string)
    (strings : gset string) : Strings :=
  <[category := default ∅ (all_strings !! category) ∪ strings]> all_strings.

(** [file_counts[category] += n] *)
Definition add_count (file_counts : Counts) (category : string) (n : nat)
    : Counts :=
  <[category := default 0 (file_counts !! category) + n]> file_counts.

(** The loop over [cached_data.items()] of a cache hit. *)
Definition merge_cached (cached_data : gmap string (list string))
    (acc : Strings * Counts) : Strings * Counts :=
  map_fold (fun category strings acc =>
              (update_strings acc.1 category (list_to_set strings),
               add_count acc.2 category (length strings)))
           acc cached_data.

(** The loop over [results.items()] of a freshly extracted file. *)
Definition merge_results (results : Results) (acc : Strings * Counts)
    : Strings * Counts :=
  map_fold (fun category strings acc =>
              (update_strings acc.1 category strings,
               add_count acc.2 category (size strings)))
           acc results.

(** [{k: list(v) for k, v in results.items()}] *)
Definition results_to_lists (results : Results) : gmap string (list string) :=
  elements <$> results.

(** ** The incremental scan *)

Section Pipeline.

Context (L : PyLib) (R : RuleSet).

(** [calculate_file_hash]: the MD5 hex digest of the bytes, [""] when the
    file cannot be opened or read. *)
Definition calculate_file_hash (fs : Files) (filepath : Path) : string :=
  match fs !! filepath with
  | Some data => md5_hexdigest L data
  | None => ""
  end.

(** [load_cache]: an absent or unparsable cache file gives the empty cache. *)
Definition load_cache (fs : Files) (cache_dir : string) : Cache :=
  match fs !! cache_path cache_dir with
  | None => ∅
  | Some raw =>
      match json_load L raw with
      | Some cache => cache
      | None => ∅
      end
  end.

(** [save_cache] as the filesystem operations it performs, in order. *)
Inductive fs_op :=
  | Makedirs (dir : string)
  | OpenTruncate (path : Path)
  | WriteChunk (path : Path) (chunk : list byte)
  | CloseFile (path : Path).

Definition apply_op (fs : Files) (op : fs_op) : Files :=
  match op with
  | Makedirs _ => fs
  | OpenTruncate path => <[path := []]> fs
  | WriteChunk path chunk => <[path := default [] (fs !! path) ++ chunk]> fs
  | CloseFile _ => fs
  end.

Definition run_ops (ops : list fs_op) (fs : Files) : Files :=
  foldl apply_op fs ops.

Definition save_cache_ops (cache : Cache) (cache_dir : string) : list fs_op :=
  let cache_path := cache_path cache_dir in
  [Makedirs cache_dir; OpenTruncate cache_path]
  ++ (WriteChunk cache_path <$> json_dump L cache)
  ++ [CloseFile cache_path].

Definition save_cache (cache : Cache) (cache_dir : string) (fs : Files)
    : Files :=
  run_ops (save_cache_ops cache cache_dir) fs.

(** The state of the disk when the process stops after [k] operations of
    [save_cache]. *)
Definition save_cache_interrupted (k : nat) (cache : Cache)
    (cache_dir : string) (fs : Files) : Files :=
  run_ops (take k (save_cache_ops cache cache_dir)) fs.

(** What [rglob] lists after [save_cache]: the cache file is a new
    directory entry when it did not exist, and is listed from then on where
    the pattern matches it. *)
Definition listing_after_save (rglob : Path -> string -> list Path)
    (fs : Files) (cache_dir : string) : Path -> string -> list Path :=
  match fs !! cache_path cache_dir with
  | Some _ => rglob
  | None => rglob_created L (cache_path cache_dir) rglob
  end.

(** [extract_from_file]: [{'error': {str(e)}}] when the file cannot be
    opened, read or decoded, else the categories of its file type. *)
Definition extract_from_file (fs : Files) (filepath : Path)
    (file_type : string) : Results :=
  match fs !! filepath ≫= utf8_decode L with
  | None => {[ "error" := {[ str_exception L filepath ]} ]}
  | Some content =>
      let results : Results := ∅ in
      let results :=
        if bool_decide (file_type ∈ ["jsx"; "tsx"; "vue"; "html"]) then
          let results := <["jsx_content" := extract_jsx_strings R content]> results in
          let results := <["buttons" := extract_button_text R content]> results in
          let results := <["labels" := extract_label_text R content]> results in
          let results := <["placeholders" := extract_placeholders R content]> results in
          let results := <["attributes" := extract_attribute_strings R content]> results in
          <["toasts_alerts" := extract_toast_alert_strings R content]> results
        else results in
      if bool_decide (file_type ∈ ["js"; "jsx"; "ts"; "tsx"; "vue"]) then
        let results := <["validation" := extract_validation_strings R content]> results in
        <["ui_literals" := extract_string_literals R content]> results
      else results
  end.

(** The file collection loop shared by the scans. *)
Definition collect_files (w : World) (source_dir : Path)
    (file_types exclude_dirs : list string) : list Path :=
  file_type ← file_types;
  filter (fun filepath => is_excluded filepath exclude_dirs = false)
         (w_rglob w source_dir ("**/*." +:+ file_type)).

(** State of the loop that splits the files into cache hits and files to
    process. *)
Record Classified := {
  c_strings : Strings;
  c_counts : Counts;
  c_files_to_process : list Path;
  c_cached_files : nat
}.

Definition classify_file (cache : Cache) (fs : Files) (st : Classified)
    (filepath : Path) : Classified :=
  let file_str := filepath in
  let current_hash := calculate_file_hash fs filepath in
  match cache !! file_str with
  | Some entry =>
      if String.eqb (e_hash entry) current_hash then
        let acc := merge_cached (e_results entry) (c_strings st, c_counts st) in
        {| c_strings := acc.1; c_counts := acc.2;
           c_files_to_process := c_files_to_process st;
           c_cached_files := c_cached_files st + 1 |}
      else
        {| c_strings := c_strings st; c_counts := c_counts st;
           c_files_to_process := c_files_to_process st ++ [filepath];
           c_cached_files := c_cached_files st |}
  | None =>
      {| c_strings := c_strings st; c_counts := c_counts st;
         c_files_to_process := c_files_to_process st ++ [filepath];
         c_cached_files := c_cached_files st |}
  end.

(** State of the loop over the files to process. *)
Record Processed := {
  p_cache : Cache;
  p_strings : Strings;
  p_counts : Counts;
  p_clock : nat;
  p_log : list string
}.

(** The body of the loop over [enumerate(files_to_process, 1)]. *)
Definition process_step (fs : Files) (verbose : bool) (new_files : nat)
    (i : nat) (filepath : Path) (st : Processed) : Processed :=
  let file_type := lstrip_dot (suffix filepath) in
  let log :=
    if verbose
    then p_log st ++ ["  [" +:+ pretty i +:+ "/" +:+ pretty new_files +:+ "] " +:+ filepath]
    else p_log st in
  let results := extract_from_file fs filepath file_type in
  if bool_decide (results !! "error" = None) then
    let file_str := filepath in
    let file_hash := calculate_file_hash fs filepath in
    let entry := {| e_hash := file_hash;
                    e_timestamp := isoformat L (p_clock st);
                    e_results := results_to_lists results |} in
    let acc := merge_results results (p_strings st, p_counts st) in
    {| p_cache := <[file_str := entry]> (p_cache st);
       p_strings := acc.1; p_counts := acc.2;
       p_clock := S (p_clock st); p_log := log |}
  else
    {| p_cache := p_cache st; p_strings := p_strings st;
       p_counts := p_counts st; p_clock := p_clock st; p_log := log |}.

(** [for i, filepath in enumerate(files_to_process, 1)] *)
Fixpoint process_files (fs : Files) (verbose : bool) (new_files : nat)
    (i : nat) (files : list Path) (st : Processed) : Processed :=
  match files with
  | [] => st
  | filepath :: rest =>
      process_files fs verbose new_files (S i) rest
                    (process_step fs verbose new_files i filepath st)
  end.

(** What a run returns ([r_strings], [r_counts]), prints ([r_log]), and the
    locals the properties speak about. *)
Record Report := {
  r_strings : Strings;
  r_counts : Counts;
  r_files_to_process : list Path;
  r_cached_files : nat;
  r_cache : Cache;
  r_log : list string
}.

Definition statistics_lines (total_files cached_files new_files : nat)
    : list string :=
  ["[*] Cache Statistics:";
   "  Total files: " +:+ pretty total_files;
   "  Cached files: " +:+ pretty cached_files +:+ " ("
     +:+ pretty (if decide (total_files = 0) then 0
                 else (cached_files * 100) `div` total_files) +:+ "%)";
   "  New/changed files: " +:+ pretty new_files]
  ++ (if decide (0 < cached_files)
      then ["[FAST] Using cached results for " +:+ pretty cached_files +:+ " files"]
      else []).

(** [cache_dir or CACHE_DIR] *)
Definition cache_dir_or_default (cache_dir : option string) : string :=
  match cache_dir with
  | Some d => if String.eqb d "" then CACHE_DIR else d
  | None => CACHE_DIR
  end.

(** [scan_directory_incremental] *)
Definition scan_directory_incremental (source_dir : Path)
    (file_types exclude_dirs : list string) (cache_dir : option string)
    (force_rescan verbose : bool) (w : World) : Report * World :=
  let cache_dir := cache_dir_or_default cache_dir in
  let cache := load_cache (w_fs w) cache_dir in
  let all_files := collect_files w source_dir file_types exclude_dirs in
  match all_files with
  | [] =>
      ({| r_strings := ∅; r_counts := ∅; r_files_to_process := [];
          r_cached_files := 0; r_cache := cache; r_log := [] |}, w)
  | _ :: _ =>
      let st0 := {| c_strings := ∅; c_counts := ∅;
                    c_files_to_process := []; c_cached_files := 0 |} in
      let '(st, log) :=
        if force_rescan
        then ({| c_strings := ∅; c_counts := ∅;
                 c_files_to_process := all_files; c_cached_files := 0 |},
              ["[!] Forced full re-scan (cache ignored)"])
        else (foldl (classify_file cache (w_fs w)) st0 all_files, []) in
      let files_to_process := c_files_to_process st in
      let cached_files := c_cached_files st in
      let total_files := length all_files in
      let new_files := length files_to_process in
      let log := log ++ statistics_lines total_files cached_files new_files in
      if decide (0 < new_files) then
        let log := log ++ ["[>] Processing " +:+ pretty new_files +:+ " files..."] in
        let done :=
          process_files (w_fs w) verbose new_files 1 files_to_process
            {| p_cache := cache; p_strings := c_strings st;
               p_counts := c_counts st; p_clock := w_clock w;
               p_log := log |} in
        let fs := save_cache (p_cache done) cache_dir (w_fs w) in
        ({| r_strings := p_strings done; r_counts := p_counts done;
            r_files_to_process := files_to_process;
            r_cached_files := cached_files; r_cache := p_cache done;
            r_log := p_log done ++ ["[OK] Cache updated"] |},
         {| w_rglob := listing_after_save (w_rglob w) (w_fs w) cache_dir;
            w_fs := fs; w_clock := p_clock done |})
      else
        ({| r_strings := c_strings st; r_counts := c_counts st;
            r_files_to_process := files_to_process;
            r_cached_files := cached_files; r_cache := cache;
            r_log := log |}, w)
  end.

(** ** The parallel scan ([extract-strings-fast.py]) *)

(** [process_file]: the unit of work run by a pool worker. *)
Definition process_file (fs : Files) (args : Path * string)
    : string * Results :=
  let '(filepath, file_type) := args in
  (filepath, extract_from_file fs filepath file_type).

(** The work items: one per listed file and file type. *)
Definition collect_work (w : World) (source_dir : Path)
    (file_types exclude_dirs : list string) : list (Path * string) :=
  file_type ← file_types;
  (fun filepath => (filepath, file_type))
    <$> filter (fun filepath => is_excluded filepath exclude_dirs = false)
               (w_rglob w source_dir ("**/*." +:+ file_type)).

(** State of the loop over [as_completed(futures)]. *)
Record Collected := {
  k_strings : Strings;
  k_counts : Counts;
  k_completed : nat;
  k_log : list string
}.

Definition collect_result (verbose : bool) (total : nat) (st : Collected)
    (result : string * Results) : Collected :=
  let '(filepath, results) := result in
  if bool_decide (results !! "error" = None) then
    let acc := merge_results results (k_strings st, k_counts st) in
    let completed := k_completed st + 1 in
    {| k_strings := acc.1; k_counts := acc.2; k_completed := completed;
       k_log :=
         if verbose && bool_decide (completed `mod` 10 = 0)
         then k_log st ++ ["  Progress: " +:+ pretty completed +:+ "/"
                           +:+ pretty total +:+ " files processed"]
         else k_log st |}
  else
    {| k_strings := k_strings st; k_counts := k_counts st;
       k_completed := k_completed st;
       k_log := if verbose
                then k_log st ++ ["Error processing " +:+ filepath]
                else k_log st |}.

(** [scan_directory_parallel].  [workers] is a valid pool size, that is a
    positive number: [ProcessPoolExecutor] raises [ValueError] for any
    other, and the scan returns nothing.  [schedule] is the order in which
    the pool of that size completes the submitted work items. *)
Definition scan_directory_parallel (source_dir : Path)
    (file_types exclude_dirs : list string) (workers : option positive)
    (verbose : bool)
    (schedule : list (Path * string) -> list (Path * string)) (w : World)
    : Strings * Counts * list string :=
  let all_files := collect_work w source_dir file_types exclude_dirs in
  match all_files with
  | [] => (∅, ∅, [])
  | _ :: _ =>
      let workers :=
        match workers with
        | Some n => Pos.to_nat n
        | None => Pos.to_nat (cpu_count L) `min` length all_files
        end in
      let log := ["Processing " +:+ pretty (length all_files) +:+ " files with "
                  +:+ pretty workers +:+ " workers..."] in
      let st :=
        foldl (collect_result verbose (length all_files))
              {| k_strings := ∅; k_counts := ∅; k_completed := 0;
                 k_log := log |}
              (process_file (w_fs w) <$> schedule all_files) in
      (k_strings st, k_counts st, k_log st)
  end.

End Pipeline.

(** ** A small concrete library and rule set

    Stand-ins for the Python library and the rule set, used to run the scan
    on concrete machines. *)

Module Toy.

Definition hex_char (n : N) : ascii :=
  match n with
  | 0 => "0" | 1 => "1" | 2 => "2" | 3 => "3" | 4 => "4" | 5 => "5"
  | 6 => "6" | 7 => "7" | 8 => "8" | 9 => "9" | 10 => "a" | 11 => "b"
  | 12 => "c" | 13 => "d" | 14 => "e" | _ => "f"
  end%char%N.

(** [k] hexadecimal digits of [n], least significant first. *)
Fixpoint hex_digits (k : nat) (n : N) : string :=
  match k with
  | 0 => ""
  | S k' => String (hex_char (n `mod` 16)%N) (hex_digits k' (n `div` 16)%N)
  end.

(** A 32-digit checksum standing in for MD5. *)
Definition digest (data : list byte) : string :=
  hex_digits 32 (foldl (fun h b => (h * 257 + Byte.to_N b + 1)%N) 0%N data).

(** ASCII only: a byte above 127 does not decode. *)
Definition decode_text (data : list byte) : option string :=
  if forallb (fun b => (Byte.to_N b <? 128)%N) data
  then Some (string_of_list_byte data)
  else None.

Fixpoint pos_bits (p : positive) : list byte :=
  match p with
  | xH => []
  | xO q => "0"%byte :: pos_bits q
  | xI q => "1"%byte :: pos_bits q
  end.

Fixpoint bits_pos (bits : list byte) : positive :=
  match bits with
  | [] => xH
  | b :: rest =>
      if Byte.eqb b "0"%byte then xO (bits_pos rest) else xI (bits_pos rest)
  end.

#[global] Instance entry_eq_dec : EqDecision CacheEntry.
Proof. solve_decision. Defined.

#[global] Instance entry_countable : Countable CacheEntry :=
  inj_countable'
    (fun e => (e_hash e, e_timestamp e, e_results e))
    (fun t => {| e_hash := t.1.1; e_timestamp := t.1.2; e_results := t.2 |})
    (fun e => match e with Build_CacheEntry _ _ _ => eq_refl end).

(** A serialisation in two chunks: an opening brace, then the digits. *)
Definition dump (cache : Cache) : list (list byte) :=
  [["{"%byte]; pos_bits (encode cache)].

Definition load (raw : list byte) : option Cache :=
  match raw with
  | b :: bits => if Byte.eqb b "{"%byte then decode (bits_pos bits) else None
  | [] => None
  end.

(** A created file is listed under a directory that contains it, for the
    pattern of its extension. *)
Definition created (path : Path) (rglob : Path -> string -> list Path)
    (source_dir : Path) (pattern : string) : list Path :=
  if String.prefix (source_dir +:+ "/") path
     && String.eqb ("**/*" +:+ suffix path) pattern
  then rglob source_dir pattern ++ [path]
  else rglob source_dir pattern.

Definition lib : PyLib := {|
  md5_hexdigest := digest;
  utf8_decode := decode_text;
  str_exception := fun filepath => "cannot read " +:+ filepath;
  json_dump := dump;
  json_load := load;
  isoformat := fun t => "T" +:+ pretty t;
  cpu_count := 4;
  rglob_created := created
|}.

(** Button and validation rules return the whole text as one fragment. *)
Definition rules : RuleSet := {|
  extract_jsx_strings := fun _ => ∅;
  extract_button_text := fun content => {[ content ]};
  extract_label_text := fun _ => ∅;
  extract_placeholders := fun _ => ∅;
  extract_attribute_strings := fun _ => ∅;
  extract_toast_alert_strings := fun _ => ∅;
  extract_validation_strings := fun content => {[ content ]};
  extract_string_literals := fun _ => ∅
|}.

Definition bytes (s : string) : list byte := list_byte_of_string s.

(** A tree listing [files] for every pattern whose extension they carry. *)
Definition listing (files : list Path) (source_dir : Path) (pattern : string)
    : list Path :=
  filter (fun filepath =>
            "**/*" +:+ suffix filepath = pattern) files.

(** Two pages with the same button text, and a third under an excluded
    directory. *)
Definition two_pages : World := {|
  w_rglob := listing ["src/a.html"; "src/b.html"; "src/node_modules/c.html"];
  w_fs := {[ "src/a.html" := bytes "Save"; "src/b.html" := bytes "Save";
             "src/node_modules/c.html" := bytes "Skip" ]};
  w_clock := 0
|}.

(** A readable page and a listed page that cannot be opened. *)
Definition locked_page : World := {|
  w_rglob := listing ["src/a.html"; "src/locked.html"];
  w_fs := {[ "src/a.html" := bytes "Save" ]};
  w_clock := 0
|}.

(** One listed text file that cannot be opened, and the same file
    readable. *)
Definition locked_notes : World := {|
  w_rglob := listing ["docs/notes.txt"];
  w_fs := ∅;
  w_clock := 0
|}.

Definition plain_notes : World := {|
  w_rglob := listing ["docs/notes.txt"];
  w_fs := {[ "docs/notes.txt" := bytes "hello" ]};
  w_clock := 0
|}.

(** The machine with one file rewritten. *)
Definition rewrite_file (filepath : Path) (data : list byte) (w : World)
    : World :=
  {| w_rglob := w_rglob w;
     w_fs := <[filepath := data]> (w_fs w);
     w_clock := w_clock w |}.

(** One page. *)
Definition one_page : World := {|
  w_rglob := listing ["src/a.html"];
  w_fs := {[ "src/a.html" := bytes "Save" ]};
  w_clock := 0
|}.

(** A cache with one entry, and the same with a second entry. *)
Definition cache_one : Cache :=
  {[ "src/a.html" := {| e_hash := digest (bytes "Save");
                        e_timestamp := "T0";
                        e_results := {[ "buttons" := ["Save"] ]} |} ]}.

Definition cache_two : Cache :=
  <["src/b.html" := {| e_hash := digest (bytes "Cancel");
                       e_timestamp := "T1";
                       e_results := {[ "buttons" := ["Cancel"] ]} |}]>
    cache_one.

(** [two_pages] with a cache file that does not parse. *)
Definition two_pages_corrupt : World := {|
  w_rglob := w_rglob two_pages;
  w_fs := <[cache_path CACHE_DIR := bytes "garbage"]> (w_fs two_pages);
  w_clock := 7
|}.

(** The machine a first incremental scan of [locked_page] leaves. *)
Definition locked_page_cached : World :=
  (scan_directory_incremental lib rules "src" ["html"] ["node_modules"]
     None false false locked_page).2.

(** A rule set that finds nothing. *)
Definition no_rules : RuleSet := {|
  extract_jsx_strings := fun _ => ∅;
  extract_button_text := fun _ => ∅;
  extract_label_text := fun _ => ∅;
  extract_placeholders := fun _ => ∅;
  extract_attribute_strings := fun _ => ∅;
  extract_toast_alert_strings := fun _ => ∅;
  extract_validation_strings := fun _ => ∅;
  extract_string_literals := fun _ => ∅
|}.


(** The machine a first incremental scan of [two_pages] leaves. *)
Definition two_pages_cached : World :=
  (scan_directory_incremental lib rules "src" ["html"; "js"] ["node_modules"]
     None false false two_pages).2.

(** [two_pages_cached] with one more entry in its cache file, for a page
    that is not listed. *)
Definition two_pages_stale : World :=
  rewrite_file (cache_path CACHE_DIR)
    (concat (dump (<["src/gone.html" :=
                       {| e_hash := digest (bytes "Gone");
                          e_timestamp := "T9";
                          e_results := {[ "buttons" := ["Gone"] ]} |}]>
                     (load_cache lib (w_fs two_pages_cached) CACHE_DIR))))
    two_pages_cached.

End Toy.

(** ** Contributions

    What one document adds to the aggregate, whichever loop merges it: per
    category, the set of fragments and the number of entries counted. *)

Abbreviation Contribution := (gmap string (gset string * nat)).

(** The contribution of the cached data of a hit. *)
Definition of_cached (cached_data : gmap string (list string)) : Contribution :=
  (fun strings : list string =>
     (list_to_set strings : gset string, length strings)) <$> cached_data.

(** The contribution of a fresh result dictionary. *)
Definition of_results (results : Results) : Contribution :=
  (fun strings : gset string => (strings, size strings)) <$> results.

(** Pointwise merge: union of the sets, sum of the counts; a category is
    created as soon as a contribution names it. *)
Definition absorb (c : Contribution) (acc : Strings * Counts)
    : Strings * Counts :=
  (merge (fun (old : option (gset string)) (new : option (gset string * nat)) =>
            match new with
            | Some sn => Some (default ∅ old ∪ sn.1)
            | None => old
            end) acc.1 c,
   merge (fun (old : option nat) (new : option (gset string * nat)) =>
            match new with
            | Some sn => Some (default 0 old + sn.2)
            | None => old
            end) acc.2 c).

(** Merging a sequence of contributions in the order given. *)
Definition absorb_all (cs : list Contribution) (acc : Strings * Counts)
    : Strings * Counts :=
  foldl (fun acc c => absorb c acc) acc cs.

(** Entries counted for a category over a sequence of contributions. *)
Definition occurrences (cs : list Contribution) (category : string) : nat :=
  sum_list ((fun c : Contribution => from_option snd 0 (c !! category)) <$> cs).

(** Fragments of a category over a sequence of contributions. *)
Definition fragments (cs : list Contribution) (category : string)
    : gset string :=
  ⋃ ((fun c : Contribution => from_option fst ∅ (c !! category)) <$> cs).

(** A contribution never names more fragments than it counts. *)
Definition counted (c : Contribution) : Prop :=
  forall (k : string) (sn : gset string * nat),
    c !! k = Some sn -> size sn.1 <= sn.2.

(** ** Notions used to state the properties of a run *)

Section RunNotions.

Context (L : PyLib) (R : RuleSet).

(** [filepath.suffix.lstrip('.')] *)
Definition file_type_of (filepath : Path) : string :=
  lstrip_dot (suffix filepath).

(** The test of the classification loop:
    [file_str in cache and cache[file_str].get('hash') == current_hash]. *)
Definition is_hit (cache : Cache) (fs : Files) (filepath : Path) : bool :=
  match cache !! filepath with
  | Some entry => String.eqb (e_hash entry) (calculate_file_hash L fs filepath)
  | None => false
  end.

(** The test of the processing loop: ['error' not in results]. *)
Definition extracts (fs : Files) (filepath : Path) : bool :=
  bool_decide
    (extract_from_file L R fs filepath (file_type_of filepath) !! "error"
     = None).

(** What a hit contributes: the cached data of its entry. *)
Definition cached_contribution (cache : Cache) (filepath : Path)
    : Contribution :=
  match cache !! filepath with
  | Some entry => of_cached (e_results entry)
  | None => ∅
  end.

(** What a processed file contributes: its results, or nothing when its
    extraction failed. *)
Definition fresh_contribution (fs : Files) (filepath : Path) : Contribution :=
  if extracts fs filepath
  then of_results (extract_from_file L R fs filepath (file_type_of filepath))
  else ∅.

(** What a discovered file contributes to a run. *)
Definition run_contribution (cache : Cache) (fs : Files) (force_rescan : bool)
    (filepath : Path) : Contribution :=
  if force_rescan then fresh_contribution fs filepath
  else if is_hit cache fs filepath then cached_contribution cache filepath
  else fresh_contribution fs filepath.

(** One document merged the way the scan merges it (a hit from its cached
    data, any other file from its extraction), at any point of the run. *)
Definition merge_document (cache : Cache) (fs : Files) (force_rescan : bool)
    (acc : Strings * Counts) (filepath : Path) : Strings * Counts :=
  if negb force_rescan && is_hit cache fs filepath then
    match cache !! filepath with
    | Some entry => merge_cached (e_results entry) acc
    | None => acc
    end
  else
    let results := extract_from_file L R fs filepath (file_type_of filepath) in
    if bool_decide (results !! "error" = None)
    then merge_results results acc
    else acc.

(** What a work item of the parallel scan contributes. *)
Definition work_contribution (fs : Files) (args : Path * string)
    : Contribution :=
  let results := (process_file L R fs args).2 in
  if bool_decide (results !! "error" = None) then of_results results else ∅.

(** The work items in completion order; the pool is not started when there
    is nothing to submit. *)
Definition completed (schedule : list (Path * string) -> list (Path * string))
    (all_files : list (Path * string)) : list (Path * string) :=
  match all_files with
  | [] => []
  | _ :: _ => schedule all_files
  end.

(** The machine with one path taken out of every listing. *)
Definition without_file (filepath : Path) (w : World) : World :=
  {| w_rglob := fun source_dir pattern =>
                  filter (fun p => p <> filepath) (w_rglob w source_dir pattern);
     w_fs := w_fs w;
     w_clock := w_clock w |}.

(** The entry the processing loop writes for a file at clock [t]. *)
Definition entry_of (fs : Files) (filepath : Path) (t : nat) : CacheEntry :=
  {| e_hash := calculate_file_hash L fs filepath;
     e_timestamp := isoformat L t;
     e_results :=
       results_to_lists
         (extract_from_file L R fs filepath (file_type_of filepath)) |}.

(** Every stored fingerprint is a 32-character digest. *)
Definition digests_only (cache : Cache) : Prop :=
  forall (file_str : string) (entry : CacheEntry),
    cache !! file_str = Some entry -> String.length (e_hash entry) = 32.

End RunNotions.

(** The progress lines of a verbose run, one for each file to process,
    numbered from [i]. *)
Fixpoint progress_lines (new_files i : nat) (files : list Path)
    : list string :=
  match files with
  | [] => []
  | filepath :: rest =>
      ("  [" +:+ pretty i +:+ "/" +:+ pretty new_files +:+ "] " +:+ filepath)
      :: progress_lines new_files (S i) rest
  end.

(** The lines of a run that discovered [total_files] files, served
    [cached_files] of them from the cache and processed
    [files_to_process]. *)
Definition run_lines (force_rescan verbose : bool)
    (total_files cached_files : nat) (files_to_process : list Path)
    : list string :=
  let new_files := length files_to_process in
  (if force_rescan then ["[!] Forced full re-scan (cache ignored)"] else [])
  ++ statistics_lines total_files cached_files new_files
  ++ match files_to_process with
     | [] => []
     | _ :: _ =>
         ["[>] Processing " +:+ pretty new_files +:+ " files..."]
         ++ (if verbose then progress_lines new_files 1 files_to_process
             else [])
         ++ ["[OK] Cache updated"]
     end.

(** ** The command line *)

Definition comma : ascii := ","%char.

(** [s.split(sep)] for a one-character separator: the pieces between the
    separators, empty ones included; one empty piece for the empty
    string. *)
Fixpoint str_split (sep : ascii) (s : string) : list string :=
  match s with
  | EmptyString => [EmptyString]
  | String c rest =>
      if Ascii.eqb c sep then EmptyString :: str_split sep rest
      else match str_split sep rest with
           | piece :: pieces => String c piece :: pieces
           | [] => [String c EmptyString]
           end
  end.

(** The arguments [main] passes on to the scan. *)
Record Args := {
  a_source_dir : string;
  a_file_types : string;
  a_exclude : string;
  a_cache_dir : string;
  a_force : bool;
  a_verbose : bool
}.

(** The scan as [main] of the incremental script calls it:
    [file_types = args.file_types.split(',')],
    [exclude_dirs = args.exclude.split(',')], then
    [scan_directory_incremental(source_dir, file_types, exclude_dirs,
    args.cache_dir, args.force, args.verbose)]. *)
Definition scan_from_args (L : PyLib) (R : RuleSet) (args : Args) (w : World)
    : Report * World :=
  let file_types := str_split comma (a_file_types args) in
  let exclude_dirs := str_split comma (a_exclude args) in
  scan_directory_incremental L R (a_source_dir args) file_types exclude_dirs
    (Some (a_cache_dir args)) (a_force args) (a_verbose args) w.



(** [c in name] for a character. *)
Fixpoint has_char (c : ascii) (name : string) : bool :=
  match name with
  | EmptyString => false
  | String c' rest => Ascii.eqb c' c || has_char c rest
  end.

(** * Properties *)

(** ** Paths *)

Example parts_relative :
  parts "src/my_node_modules_backup/a.test.js"
  = ["src"; "my_node_modules_backup"; "a.test.js"].
Proof. reflexivity. Qed.

Example parts_absolute : parts "/srv/./app//x.vue" = ["/"; "srv"; "app"; "x.vue"].
Proof. reflexivity. Qed.

Example parts_two_slash_root :
  parts "//srv/app/x.vue" = ["//"; "srv"; "app"; "x.vue"]
  /\ parts "///srv/app/x.vue" = ["/"; "srv"; "app"; "x.vue"]
  /\ is_excluded "//srv/app/x.vue" ["//"] = true
  /\ is_excluded "/srv/app/x.vue" ["/"] = true.
Proof. repeat split; reflexivity. Qed.

Example cache_path_normalised :
  cache_path "c" = "c/extraction_cache.json"
  /\ cache_path "c/" = "c/extraction_cache.json"
  /\ cache_path "." = "extraction_cache.json"
  /\ cache_path "/var//cache/." = "/var/cache/extraction_cache.json"
  /\ cache_path (cache_dir_or_default None)
     = ".i18n-cache/extraction_cache.json".
Proof. repeat split; reflexivity. Qed.

Example suffix_examples :
  suffix "src/a.test.js" = ".js" /\ suffix "src/.bashrc" = ""
  /\ suffix "src/README" = "" /\ suffix "a.b/c." = ""
  /\ lstrip_dot (suffix "x/y.tsx") = "tsx".
Proof. repeat split; reflexivity. Qed.

(** ** Discovery *)

Lemma is_excluded_true (filepath : Path) (exclude_dirs : list string) :
  is_excluded filepath exclude_dirs = true
  <-> exists seg : string, seg ∈ parts filepath /\ seg ∈ exclude_dirs.
Proof.
  unfold is_excluded. rewrite existsb_exists. split.
  - intros (seg & Hin & Hdec). exists seg. split.
    + by apply bool_decide_eq_true in Hdec.
    + by apply list_elem_of_In.
  - intros (seg & Hparts & Hin). exists seg. split.
    + by apply list_elem_of_In.
    + by apply bool_decide_eq_true.
Qed.

Lemma is_excluded_false (filepath : Path) (exclude_dirs : list string) :
  is_excluded filepath exclude_dirs = false
  <-> ~ exists seg : string, seg ∈ parts filepath /\ seg ∈ exclude_dirs.
Proof.
  rewrite <- is_excluded_true. destruct (is_excluded _ _); split; done.
Qed.

Lemma elem_of_collect_files (w : World) (source_dir : Path)
    (file_types exclude_dirs : list string) (filepath : Path) :
  filepath ∈ collect_files w source_dir file_types exclude_dirs
  <-> (exists file_type : string,
          file_type ∈ file_types
          /\ filepath ∈ w_rglob w source_dir ("**/*." +:+ file_type))
      /\ is_excluded filepath exclude_dirs = false.
Proof.
  unfold collect_files. rewrite list_elem_of_bind. split.
  - intros (ft & Hin & Hft). apply list_elem_of_filter in Hin as [Hex Hin].
    eauto.
  - intros [(ft & Hft & Hin) Hex]. exists ft. split; [|done].
    by apply list_elem_of_filter.
Qed.

Lemma elem_of_collect_work (w : World) (source_dir : Path)
    (file_types exclude_dirs : list string) (filepath : Path)
    (file_type : string) :
  (filepath, file_type) ∈ collect_work w source_dir file_types exclude_dirs
  <-> file_type ∈ file_types
      /\ filepath ∈ w_rglob w source_dir ("**/*." +:+ file_type)
      /\ is_excluded filepath exclude_dirs = false.
Proof.
  unfold collect_work. rewrite list_elem_of_bind. split.
  - intros (ft & Hin & Hft). apply list_elem_of_fmap in Hin as (p & Heq & Hin).
    injection Heq as -> ->. apply list_elem_of_filter in Hin as [Hex Hin].
    eauto.
  - intros (Hft & Hin & Hex). exists file_type. split; [|done].
    apply list_elem_of_fmap. exists filepath. split; [done|].
    by apply list_elem_of_filter.
Qed.

(** C7.  Both scans drop a listed path exactly when one of its whole path
    segments equals an excluded name: the incremental scan keeps a path iff
    some file type lists it and no segment of it is an excluded name, and so
    does the parallel scan.  A segment that only contains an excluded name
    does not count, and a matching segment counts at any depth. *)
Theorem discovery_excludes_whole_segments (w : World) (source_dir : Path)
    (file_types exclude_dirs : list string) (filepath : Path) :
  (is_excluded filepath exclude_dirs = true
   <-> exists seg : string, seg ∈ parts filepath /\ seg ∈ exclude_dirs)
  /\ (filepath ∈ collect_files w source_dir file_types exclude_dirs
      <-> (exists file_type : string,
              file_type ∈ file_types
              /\ filepath ∈ w_rglob w source_dir ("**/*." +:+ file_type))
          /\ ~ exists seg : string, seg ∈ parts filepath /\ seg ∈ exclude_dirs)
  /\ (forall file_type : string,
        (filepath, file_type)
          ∈ collect_work w source_dir file_types exclude_dirs
        <-> file_type ∈ file_types
            /\ filepath ∈ w_rglob w source_dir ("**/*." +:+ file_type)
            /\ ~ exists seg : string,
                   seg ∈ parts filepath /\ seg ∈ exclude_dirs)
  /\ is_excluded "src/my_node_modules_backup/a.js" ["node_modules"] = false
  /\ is_excluded "node_modules/a.js" ["node_modules"] = true
  /\ is_excluded "src/pkg/deep/node_modules/lib/a.js" ["dist"; "node_modules"]
     = true.
Proof.
  split; [apply is_excluded_true|].
  split; [rewrite elem_of_collect_files, is_excluded_false; done|].
  split; [intros ft; rewrite elem_of_collect_work, is_excluded_false; done|].
  repeat split; reflexivity.
Qed.

(** ** The aggregator *)

Section Aggregator.

Implicit Types (acc : Strings * Counts) (c : Contribution).

Lemma lookup_absorb_strings c acc (k : string) :
  (absorb c acc).1 !! k
  = match c !! k with
    | Some sn => Some (default ∅ (acc.1 !! k) ∪ sn.1)
    | None => acc.1 !! k
    end.
Proof.
  unfold absorb; simpl. rewrite lookup_merge.
  destruct (acc.1 !! k), (c !! k); done.
Qed.

Lemma lookup_absorb_counts c acc (k : string) :
  (absorb c acc).2 !! k
  = match c !! k with
    | Some sn => Some (default 0 (acc.2 !! k) + sn.2)
    | None => acc.2 !! k
    end.
Proof.
  unfold absorb; simpl. rewrite lookup_merge.
  destruct (acc.2 !! k), (c !! k); done.
Qed.

Lemma pair_eq_lookup acc1 acc2 :
  (forall k : string, acc1.1 !! k = acc2.1 !! k) ->
  (forall k : string, acc1.2 !! k = acc2.2 !! k) ->
  acc1 = acc2.
Proof.
  destruct acc1, acc2; simpl. intros H1 H2. f_equal; by apply map_eq.
Qed.

(** The two loops of the scans, as folds over a dictionary, are pointwise
    merges. *)
Lemma merge_loop_absorb {V} (f : V -> gset string) (g : V -> nat)
    (m : gmap string V) acc :
  map_fold (fun category v acc =>
              (update_strings acc.1 category (f v),
               add_count acc.2 category (g v))) acc m
  = absorb ((fun v => (f v, g v)) <$> m) acc.
Proof.
  apply (map_fold_weak_ind
           (fun r (m : gmap string V) =>
              r = absorb ((fun v => (f v, g v)) <$> m) acc)).
  - apply pair_eq_lookup; intros k.
    + by rewrite lookup_absorb_strings, fmap_empty, lookup_empty.
    + by rewrite lookup_absorb_counts, fmap_empty, lookup_empty.
  - intros i x m' r Hi ->. apply pair_eq_lookup; intros k; cbn [fst snd].
    + unfold update_strings. rewrite !lookup_absorb_strings, fmap_insert.
      destruct (decide (i = k)) as [->|Hne].
      * rewrite !lookup_insert_eq, lookup_fmap, Hi. done.
      * rewrite !lookup_insert_ne by done. by rewrite lookup_absorb_strings.
    + unfold add_count. rewrite !lookup_absorb_counts, fmap_insert.
      destruct (decide (i = k)) as [->|Hne].
      * rewrite !lookup_insert_eq, lookup_fmap, Hi. done.
      * rewrite !lookup_insert_ne by done. by rewrite lookup_absorb_counts.
Qed.

Lemma merge_cached_absorb (cached_data : gmap string (list string)) acc :
  merge_cached cached_data acc = absorb (of_cached cached_data) acc.
Proof. apply (merge_loop_absorb list_to_set length). Qed.

Lemma merge_results_absorb (results : Results) acc :
  merge_results results acc = absorb (of_results results) acc.
Proof. apply (merge_loop_absorb (fun s => s) size). Qed.

(** A fresh result and its cached copy contribute the same. *)
Lemma of_cached_results_to_lists (results : Results) :
  of_cached (results_to_lists results) = of_results results.
Proof.
  unfold of_cached, of_results, results_to_lists.
  rewrite <- map_fmap_compose. apply map_fmap_ext. intros k s _. simpl.
  by rewrite list_to_set_elements_L.
Qed.

Lemma absorb_empty acc : absorb ∅ acc = acc.
Proof.
  apply pair_eq_lookup; intros k.
  - by rewrite lookup_absorb_strings, lookup_empty.
  - by rewrite lookup_absorb_counts, lookup_empty.
Qed.

(** Merging two contributions in either order gives the same aggregate. *)
Lemma absorb_comm c1 c2 acc :
  absorb c1 (absorb c2 acc) = absorb c2 (absorb c1 acc).
Proof.
  apply pair_eq_lookup; intros k.
  - rewrite !lookup_absorb_strings.
    destruct (c1 !! k) as [[s1 n1]|], (c2 !! k) as [[s2 n2]|]; simpl; try done.
    f_equal. rewrite <- !(assoc_L (∪)). f_equal. apply (comm_L (∪)).
  - rewrite !lookup_absorb_counts.
    destruct (c1 !! k) as [[s1 n1]|], (c2 !! k) as [[s2 n2]|]; simpl; try done.
    f_equal. lia.
Qed.

Lemma absorb_all_app cs1 cs2 acc :
  absorb_all (cs1 ++ cs2) acc = absorb_all cs2 (absorb_all cs1 acc).
Proof. apply foldl_app. Qed.

Lemma absorb_all_absorb c cs acc :
  absorb_all cs (absorb c acc) = absorb c (absorb_all cs acc).
Proof.
  revert acc. induction cs as [|c' cs IH]; intros acc; simpl; [done|].
  by rewrite absorb_comm, IH.
Qed.

Lemma absorb_all_permutation cs1 cs2 acc :
  cs1 ≡ₚ cs2 -> absorb_all cs1 acc = absorb_all cs2 acc.
Proof.
  intros Hperm. revert acc.
  induction Hperm as [|c cs1 cs2 _ IH|c1 c2 cs|cs1 cs2 cs3 _ IH1 _ IH2];
    intros acc; simpl.
  - done.
  - apply IH.
  - by rewrite absorb_comm.
  - by rewrite IH1, IH2.
Qed.

End Aggregator.

Section AggregateTotals.

Implicit Types (acc : Strings * Counts) (c : Contribution).

Lemma occurrences_nil (k : string) : occurrences [] k = 0.
Proof. reflexivity. Qed.

Lemma occurrences_cons c cs (k : string) :
  occurrences (c :: cs) k = from_option snd 0 (c !! k) + occurrences cs k.
Proof. reflexivity. Qed.

Lemma fragments_nil (k : string) : fragments [] k = ∅.
Proof. reflexivity. Qed.

Lemma fragments_cons c cs (k : string) :
  fragments (c :: cs) k = from_option fst ∅ (c !! k) ∪ fragments cs k.
Proof. reflexivity. Qed.

Lemma absorb_counts_total c acc (k : string) :
  default 0 ((absorb c acc).2 !! k)
  = default 0 (acc.2 !! k) + from_option snd 0 (c !! k).
Proof.
  rewrite lookup_absorb_counts. destruct (c !! k); simpl; lia.
Qed.

Lemma absorb_strings_total c acc (k : string) :
  default ∅ ((absorb c acc).1 !! k)
  = default ∅ (acc.1 !! k) ∪ from_option fst ∅ (c !! k).
Proof.
  rewrite lookup_absorb_strings. destruct (c !! k); simpl; [done|].
  by rewrite (right_id_L ∅ (∪)).
Qed.

Lemma absorb_all_counts_total cs acc (k : string) :
  default 0 ((absorb_all cs acc).2 !! k)
  = default 0 (acc.2 !! k) + occurrences cs k.
Proof.
  revert acc. induction cs as [|c cs IH]; intros acc; simpl.
  - rewrite occurrences_nil. lia.
  - fold (absorb_all cs (absorb c acc)).
    rewrite IH, absorb_counts_total, occurrences_cons. lia.
Qed.

Lemma absorb_all_strings_total cs acc (k : string) :
  default ∅ ((absorb_all cs acc).1 !! k)
  = default ∅ (acc.1 !! k) ∪ fragments cs k.
Proof.
  revert acc. induction cs as [|c cs IH]; intros acc; simpl.
  - by rewrite fragments_nil, (right_id_L ∅ (∪)).
  - fold (absorb_all cs (absorb c acc)).
    by rewrite IH, absorb_strings_total, fragments_cons, (assoc_L (∪)).
Qed.

Lemma absorb_all_counts_key cs acc (k : string) :
  is_Some ((absorb_all cs acc).2 !! k)
  <-> is_Some (acc.2 !! k) \/ exists c, c ∈ cs /\ is_Some (c !! k).
Proof.
  revert acc. induction cs as [|c cs IH]; intros acc; simpl.
  - split; [by left|]. intros [H|(c & Hc & _)]; [done|]. by inversion Hc.
  - fold (absorb_all cs (absorb c acc)). rewrite IH, lookup_absorb_counts.
    split.
    + intros [H|(c' & Hc' & Hk)].
      * destruct (c !! k) eqn:Hck; [|by left].
        right. exists c. split; [by left|]. by rewrite Hck.
      * right. exists c'. split; [by right|done].
    + intros [H|(c' & Hc' & Hk)].
      * left. destruct (c !! k); [done|done].
      * apply elem_of_cons in Hc' as [->|Hc'].
        -- left. destruct Hk as [sn ->]. done.
        -- right. eauto.
Qed.

Lemma absorb_all_strings_key cs acc (k : string) :
  is_Some ((absorb_all cs acc).1 !! k)
  <-> is_Some (acc.1 !! k) \/ exists c, c ∈ cs /\ is_Some (c !! k).
Proof.
  revert acc. induction cs as [|c cs IH]; intros acc; simpl.
  - split; [by left|]. intros [H|(c & Hc & _)]; [done|]. by inversion Hc.
  - fold (absorb_all cs (absorb c acc)). rewrite IH, lookup_absorb_strings.
    split.
    + intros [H|(c' & Hc' & Hk)].
      * destruct (c !! k) eqn:Hck; [|by left].
        right. exists c. split; [by left|]. by rewrite Hck.
      * right. exists c'. split; [by right|done].
    + intros [H|(c' & Hc' & Hk)].
      * left. destruct (c !! k); [done|done].
      * apply elem_of_cons in Hc' as [->|Hc'].
        -- left. destruct Hk as [sn ->]. done.
        -- right. eauto.
Qed.

Lemma size_list_to_set_le (l : list string) :
  size (list_to_set l : gset string) <= length l.
Proof.
  induction l as [|x l IH].
  - rewrite list_to_set_nil, size_empty. done.
  - rewrite list_to_set_cons, size_union_alt, size_singleton. cbn [length].
    assert (size (list_to_set l ∖ {[x]} : gset string)
            <= size (list_to_set l : gset string)).
    { apply subseteq_size, subseteq_difference_l. done. }
    lia.
Qed.

Lemma of_cached_counted (cached_data : gmap string (list string)) :
  counted (of_cached cached_data).
Proof.
  intros k sn. unfold of_cached. rewrite lookup_fmap.
  destruct (cached_data !! k) as [l|]; [|done]. intros [= <-].
  apply size_list_to_set_le.
Qed.

Lemma of_results_counted (results : Results) : counted (of_results results).
Proof.
  intros k sn. unfold of_results. rewrite lookup_fmap.
  destruct (results !! k); [|done]. by intros [= <-].
Qed.

Lemma empty_counted : counted ∅.
Proof. intros k sn. by rewrite lookup_empty. Qed.

Lemma fragments_le_occurrences cs (k : string) :
  Forall counted cs -> size (fragments cs k) <= occurrences cs k.
Proof.
  induction 1 as [|c cs Hc _ IH].
  - by rewrite fragments_nil, size_empty.
  - rewrite fragments_cons, occurrences_cons.
    assert (size (from_option fst ∅ (c !! k)) <= from_option snd 0 (c !! k)).
    { destruct (c !! k) as [sn|] eqn:Hk; cbn [from_option].
      - by apply (Hc k).
      - by rewrite size_empty. }
    pose proof (size_union_alt (from_option fst ∅ (c !! k)) (fragments cs k)).
    assert (size (fragments cs k ∖ from_option fst ∅ (c !! k))
            <= size (fragments cs k)).
    { apply subseteq_size, subseteq_difference_l. done. }
    lia.
Qed.

End AggregateTotals.

(** ** The loops of the incremental scan *)

Section Loops.

Context (L : PyLib) (R : RuleSet).

Lemma extract_from_file_error (fs : Files) (filepath : Path)
    (file_type : string) :
  extract_from_file L R fs filepath file_type !! "error" = None
  <-> is_Some (fs !! filepath ≫= utf8_decode L).
Proof.
  unfold extract_from_file.
  destruct (fs !! filepath ≫= utf8_decode L) as [content|].
  - split; [eauto|intros _].
    repeat case_bool_decide;
      repeat (rewrite lookup_insert_ne by discriminate);
      apply lookup_empty.
  - rewrite lookup_singleton_eq. split; [done|]. by intros [? ?].
Qed.

Lemma extracts_true (fs : Files) (filepath : Path) :
  extracts L R fs filepath = true
  <-> is_Some (fs !! filepath ≫= utf8_decode L).
Proof.
  unfold extracts. rewrite bool_decide_eq_true. apply extract_from_file_error.
Qed.

(** A file that cannot be opened cannot be extracted. *)
Lemma extracts_unreadable (fs : Files) (filepath : Path) :
  fs !! filepath = None -> extracts L R fs filepath = false.
Proof.
  intros Hnone. apply not_true_is_false. rewrite extracts_true, Hnone.
  by intros [? ?].
Qed.

(** *** [save_cache] *)

Lemma run_write_chunks (path : Path) (chunks : list (list byte))
    (written : list byte) (fs : Files) :
  foldl apply_op (<[path := written]> fs) (WriteChunk path <$> chunks)
  = <[path := written ++ concat chunks]> fs.
Proof.
  revert written. induction chunks as [|chunk chunks IH]; intros written.
  - cbn [fmap list_fmap foldl concat]. by rewrite app_nil_r.
  - rewrite fmap_cons. cbn [foldl apply_op].
    rewrite lookup_insert_eq, insert_insert_eq. cbn [default].
    rewrite IH. cbn [concat]. by rewrite app_assoc.
Qed.

Lemma save_cache_interrupted_prefix (k : nat) (cache : Cache)
    (cache_dir : string) (fs : Files) :
  save_cache_interrupted L (S (S k)) cache cache_dir fs
  = <[cache_path cache_dir := concat (take k (json_dump L cache))]> fs.
Proof.
  unfold save_cache_interrupted, save_cache_ops, run_ops.
  cbn [app take foldl apply_op]. rewrite take_app, <- fmap_take.
  rewrite foldl_app, run_write_chunks. cbn [app].
  destruct (k - length (WriteChunk (cache_path cache_dir) <$> json_dump L cache))
    as [|[|n]]; reflexivity.
Qed.

Lemma save_cache_written (cache : Cache) (cache_dir : string) (fs : Files) :
  save_cache L cache cache_dir fs
  = <[cache_path cache_dir := concat (json_dump L cache)]> fs.
Proof.
  unfold save_cache, save_cache_ops, run_ops.
  cbn [app foldl apply_op]. by rewrite foldl_app, run_write_chunks.
Qed.

(** *** The classification loop *)

Lemma classify_file_hit (cache : Cache) (fs : Files) (st : Classified)
    (filepath : Path) :
  is_hit L cache fs filepath = true ->
  classify_file L cache fs st filepath
  = let acc := absorb (cached_contribution cache filepath)
                      (c_strings st, c_counts st) in
    {| c_strings := acc.1; c_counts := acc.2;
       c_files_to_process := c_files_to_process st;
       c_cached_files := c_cached_files st + 1 |}.
Proof.
  unfold is_hit, classify_file, cached_contribution.
  destruct (cache !! filepath) as [entry|]; [|done].
  intros ->. by rewrite merge_cached_absorb.
Qed.

Lemma classify_file_miss (cache : Cache) (fs : Files) (st : Classified)
    (filepath : Path) :
  is_hit L cache fs filepath = false ->
  classify_file L cache fs st filepath
  = {| c_strings := c_strings st; c_counts := c_counts st;
       c_files_to_process := c_files_to_process st ++ [filepath];
       c_cached_files := c_cached_files st |}.
Proof.
  unfold is_hit, classify_file.
  destruct (cache !! filepath) as [entry|]; [|done]. by intros ->.
Qed.

Lemma classify_fold (cache : Cache) (fs : Files) (files : list Path)
    (st : Classified) :
  let st' := foldl (classify_file L cache fs) st files in
  c_files_to_process st'
  = c_files_to_process st
    ++ filter (fun p => is_hit L cache fs p = false) files
  /\ (c_strings st', c_counts st')
     = absorb_all (cached_contribution cache
                     <$> filter (fun p => is_hit L cache fs p = true) files)
                  (c_strings st, c_counts st)
  /\ c_cached_files st'
     = c_cached_files st
       + length (filter (fun p => is_hit L cache fs p = true) files).
Proof.
  revert st. induction files as [|p files IH]; intros st; cbn zeta.
  - cbn [foldl]. rewrite !filter_nil, app_nil_r.
    split_and!; [done|done|cbn [length]; lia].
  - cbn [foldl]. specialize (IH (classify_file L cache fs st p)).
    cbn zeta in IH. destruct IH as (IH1 & IH2 & IH3).
    rewrite IH1, IH2, IH3. rewrite !filter_cons.
    destruct (is_hit L cache fs p) eqn:Hhit.
    + rewrite (classify_file_hit _ _ _ _ Hhit). cbn zeta.
      cbn [c_files_to_process c_strings c_counts c_cached_files].
      rewrite decide_False by done. rewrite decide_True by done.
      rewrite fmap_cons. cbn [absorb_all foldl length].
      split_and!; [done| |lia].
      by destruct (absorb _ _).
    + rewrite (classify_file_miss _ _ _ _ Hhit).
      cbn [c_files_to_process c_strings c_counts c_cached_files].
      rewrite decide_True by done. rewrite decide_False by done.
      rewrite <- app_assoc. done.
Qed.

End Loops.

Section ProcessingLoop.

Context (L : PyLib) (R : RuleSet).

Lemma process_step_ok (fs : Files) (verbose : bool) (new_files i : nat)
    (filepath : Path) (st : Processed) :
  extracts L R fs filepath = true ->
  let st' := process_step L R fs verbose new_files i filepath st in
  p_cache st' = <[filepath := entry_of L R fs filepath (p_clock st)]> (p_cache st)
  /\ (p_strings st', p_counts st')
     = absorb (fresh_contribution L R fs filepath) (p_strings st, p_counts st)
  /\ p_clock st' = S (p_clock st).
Proof.
  intros Hok. unfold process_step, fresh_contribution. rewrite Hok.
  unfold extracts, file_type_of in Hok. rewrite Hok. cbn zeta.
  cbn [p_cache p_strings p_counts p_clock].
  rewrite merge_results_absorb. split_and!; done.
Qed.

Lemma process_step_failed (fs : Files) (verbose : bool) (new_files i : nat)
    (filepath : Path) (st : Processed) :
  extracts L R fs filepath = false ->
  let st' := process_step L R fs verbose new_files i filepath st in
  p_cache st' = p_cache st
  /\ (p_strings st', p_counts st')
     = absorb (fresh_contribution L R fs filepath) (p_strings st, p_counts st)
  /\ p_clock st' = p_clock st.
Proof.
  intros Hok. unfold process_step, fresh_contribution. rewrite Hok.
  unfold extracts, file_type_of in Hok. rewrite Hok. cbn zeta.
  cbn [p_cache p_strings p_counts p_clock].
  by rewrite absorb_empty.
Qed.

Lemma process_files_aggregate (fs : Files) (verbose : bool)
    (new_files i : nat) (files : list Path) (st : Processed) :
  let st' := process_files L R fs verbose new_files i files st in
  (p_strings st', p_counts st')
  = absorb_all (fresh_contribution L R fs <$> files)
               (p_strings st, p_counts st).
Proof.
  revert i st. induction files as [|p files IH]; intros i st; [done|].
  cbn zeta. cbn [process_files]. rewrite fmap_cons. cbn [absorb_all foldl].
  specialize (IH (S i) (process_step L R fs verbose new_files i p st)).
  cbn zeta in IH. rewrite IH. f_equal.
  destruct (extracts L R fs p) eqn:Hok.
  - by destruct (process_step_ok fs verbose new_files i p st Hok) as (_ & -> & _).
  - by destruct (process_step_failed fs verbose new_files i p st Hok)
      as (_ & -> & _).
Qed.

(** Entries are written for the extracted files only. *)
Lemma process_files_cache_other (fs : Files) (verbose : bool)
    (new_files i : nat) (files : list Path) (st : Processed)
    (file_str : string) :
  ~ (file_str ∈ files /\ extracts L R fs file_str = true) ->
  p_cache (process_files L R fs verbose new_files i files st) !! file_str
  = p_cache st !! file_str.
Proof.
  revert i st. induction files as [|p files IH]; intros i st Hnot; [done|].
  cbn [process_files]. rewrite IH.
  - destruct (extracts L R fs p) eqn:Hok.
    + destruct (process_step_ok fs verbose new_files i p st Hok) as (-> & _).
      apply lookup_insert_ne. intros ->. apply Hnot. split; [by left|done].
    + by destruct (process_step_failed fs verbose new_files i p st Hok)
        as (-> & _).
  - intros [Hin Hok]. apply Hnot. split; [by right|done].
Qed.

(** An extracted file ends with the entry computed from its present
    content. *)
Lemma process_files_cache_written (fs : Files) (verbose : bool)
    (new_files i : nat) (files : list Path) (st : Processed)
    (file_str : string) :
  file_str ∈ files -> extracts L R fs file_str = true ->
  exists t : nat,
    p_cache (process_files L R fs verbose new_files i files st) !! file_str
    = Some (entry_of L R fs file_str t).
Proof.
  revert i st. induction files as [|p files IH]; intros i st Hin Hok.
  - by inversion Hin.
  - cbn [process_files].
    destruct (decide (file_str ∈ files)) as [Hrest|Hrest].
    + by apply IH.
    + apply elem_of_cons in Hin as [->|Hin]; [|done].
      exists (p_clock st). rewrite process_files_cache_other.
      * destruct (process_step_ok fs verbose new_files i p st Hok) as (-> & _).
        apply lookup_insert_eq.
      * by intros [? _].
Qed.

Lemma process_files_clock (fs : Files) (verbose : bool)
    (new_files i : nat) (files : list Path) (st : Processed) :
  p_clock (process_files L R fs verbose new_files i files st)
  = p_clock st
    + length (filter (fun p => extracts L R fs p = true) files).
Proof.
  revert i st. induction files as [|p files IH]; intros i st.
  - cbn [process_files]. rewrite filter_nil. cbn [length]. lia.
  - cbn [process_files]. rewrite IH, filter_cons.
    destruct (extracts L R fs p) eqn:Hok.
    + destruct (process_step_ok fs verbose new_files i p st Hok)
        as (_ & _ & ->).
      rewrite decide_True by done. cbn [length]. lia.
    + destruct (process_step_failed fs verbose new_files i p st Hok)
        as (_ & _ & ->).
      by rewrite decide_False by done.
Qed.

(** The loop prints one progress line for each file when verbose, whether
    the extraction succeeds or not, and nothing else. *)
Lemma process_files_log (fs : Files) (verbose : bool)
    (new_files i : nat) (files : list Path) (st : Processed) :
  p_log (process_files L R fs verbose new_files i files st)
  = p_log st ++ (if verbose then progress_lines new_files i files else []).
Proof.
  revert i st. induction files as [|p files IH]; intros i st.
  - cbn [process_files progress_lines]. destruct verbose; by rewrite app_nil_r.
  - cbn [process_files progress_lines]. rewrite IH.
    assert (p_log (process_step L R fs verbose new_files i p st)
            = if verbose
              then p_log st ++ ["  [" +:+ pretty i +:+ "/" +:+ pretty new_files
                                +:+ "] " +:+ p]
              else p_log st) as ->
      by (unfold process_step; by case_bool_decide).
    destruct verbose; [|done]. by rewrite <- app_assoc.
Qed.

(** Hits first and processed files after them is a reordering of the
    contributions taken in discovery order. *)
Lemma contributions_split (cache : Cache) (fs : Files) (files : list Path) :
  (cached_contribution cache
     <$> filter (fun p => is_hit L cache fs p = true) files)
  ++ (fresh_contribution L R fs
        <$> filter (fun p => is_hit L cache fs p = false) files)
  ≡ₚ run_contribution L R cache fs false <$> files.
Proof.
  induction files as [|p files IH]; [done|].
  rewrite !filter_cons, fmap_cons. unfold run_contribution at 1.
  destruct (is_hit L cache fs p) eqn:Hhit.
  - rewrite decide_True by done. rewrite decide_False by done.
    rewrite fmap_cons. cbn [app]. by constructor.
  - rewrite decide_False by done. rewrite decide_True by done.
    rewrite fmap_cons, <- Permutation_middle. by constructor.
Qed.

End ProcessingLoop.

(** ** A run, field by field *)

Section RunDescription.

Context (L : PyLib) (R : RuleSet).

Lemma scan_description (source_dir : Path)
    (file_types exclude_dirs : list string) (cache_dir : option string)
    (force_rescan verbose : bool) (w : World) :
  let dir := cache_dir_or_default cache_dir in
  let cache := load_cache L (w_fs w) dir in
  let all_files := collect_files w source_dir file_types exclude_dirs in
  let run := scan_directory_incremental L R source_dir file_types exclude_dirs
               cache_dir force_rescan verbose w in
  r_files_to_process run.1
  = (if force_rescan then all_files
     else filter (fun p => is_hit L cache (w_fs w) p = false) all_files)
  /\ (r_strings run.1, r_counts run.1)
     = absorb_all
         (run_contribution L R cache (w_fs w) force_rescan <$> all_files)
         (∅, ∅)
  /\ (forall file_str : string,
        file_str ∈ r_files_to_process run.1 ->
        extracts L R (w_fs w) file_str = true ->
        exists t : nat,
          r_cache run.1 !! file_str
          = Some (entry_of L R (w_fs w) file_str t))
  /\ (forall file_str : string,
        ~ (file_str ∈ r_files_to_process run.1
           /\ extracts L R (w_fs w) file_str = true) ->
        r_cache run.1 !! file_str = cache !! file_str)
  /\ run.2
     = (if decide (r_files_to_process run.1 = []) then w
        else {| w_rglob := listing_after_save L (w_rglob w) (w_fs w) dir;
                w_fs := <[cache_path dir
                          := concat (json_dump L (r_cache run.1))]> (w_fs w);
                w_clock :=
                  w_clock w
                  + length (filter (fun p => extracts L R (w_fs w) p = true)
                                   (r_files_to_process run.1)) |}).
Proof.
  cbn zeta. unfold scan_directory_incremental.
  set (dir := cache_dir_or_default cache_dir).
  set (cache := load_cache L (w_fs w) dir).
  set (all_files := collect_files w source_dir file_types exclude_dirs).
  destruct all_files as [|p0 files0] eqn:Hall.
  { cbn [fst snd r_files_to_process r_strings r_counts r_cache].
    rewrite filter_nil. split_and!; try done.
    - by destruct force_rescan.
    - intros k Hk. by inversion Hk. }
  rewrite <- Hall. clear Hall. cbn zeta.
  destruct force_rescan.
  - (* every file is processed *)
    cbn [c_files_to_process c_cached_files c_strings c_counts].
    destruct (decide (0 < length all_files)) as [Hpos|Hzero]; cbn zeta.
    + cbn [fst snd r_files_to_process r_strings r_counts r_cache].
      split_and!.
      * done.
      * rewrite (process_files_aggregate L R). done.
      * intros k Hk Hok. by apply process_files_cache_written.
      * intros k Hk. by rewrite process_files_cache_other.
      * rewrite decide_False
          by (intros Heq; rewrite Heq in Hpos; cbn [length] in Hpos; lia).
        by rewrite save_cache_written, process_files_clock.
    + cbn [fst snd r_files_to_process r_strings r_counts r_cache].
      assert (all_files = []) as ->
        by (destruct all_files; [done|cbn [length] in Hzero; lia]).
      split_and!; try done. intros k Hk. by inversion Hk.
  - (* hits are merged from the cache, the others are processed *)
    destruct (classify_fold L cache (w_fs w) all_files
                {| c_strings := ∅; c_counts := ∅; c_files_to_process := [];
                   c_cached_files := 0 |}) as (Hto & Hagg & Hcnt).
    cbn [c_files_to_process c_strings c_counts c_cached_files app] in *.
    set (st := foldl (classify_file L cache (w_fs w)) _ all_files) in *.
    assert (absorb_all (fresh_contribution L R (w_fs w)
                          <$> c_files_to_process st)
                       (c_strings st, c_counts st)
            = absorb_all (run_contribution L R cache (w_fs w) false
                            <$> all_files) (∅, ∅)) as Htotal.
    { rewrite Hagg, Hto, <- absorb_all_app.
      apply absorb_all_permutation, contributions_split. }
    destruct (decide (0 < length (c_files_to_process st))) as [Hpos|Hzero];
      cbn zeta.
    + cbn [fst snd r_files_to_process r_strings r_counts r_cache].
      split_and!.
      * done.
      * rewrite (process_files_aggregate L R). done.
      * intros k Hk Hok. by apply process_files_cache_written.
      * intros k Hk. by rewrite process_files_cache_other.
      * rewrite decide_False
          by (intros Heq; rewrite Heq in Hpos; cbn [length] in Hpos; lia).
        by rewrite save_cache_written, process_files_clock.
    + cbn [fst snd r_files_to_process r_strings r_counts r_cache].
      assert (c_files_to_process st = []) as Hnone
        by (destruct (c_files_to_process st);
            [done|cbn [length] in Hzero; lia]).
      split_and!.
      * done.
      * rewrite <- Htotal, Hnone. done.
      * intros k Hk. rewrite Hnone in Hk. by inversion Hk.
      * done.
      * by rewrite decide_True by done.
Qed.

(** What a run prints: nothing when no file is discovered, else the lines
    fixed by the numbers of files discovered and served from the cache and
    by the files to process. *)
Lemma scan_log (source_dir : Path)
    (file_types exclude_dirs : list string) (cache_dir : option string)
    (force_rescan verbose : bool) (w : World) :
  let all_files := collect_files w source_dir file_types exclude_dirs in
  let run := scan_directory_incremental L R source_dir file_types exclude_dirs
               cache_dir force_rescan verbose w in
  r_log run.1
  = match all_files with
    | [] => []
    | _ :: _ => run_lines force_rescan verbose (length all_files)
                  (r_cached_files run.1) (r_files_to_process run.1)
    end.
Proof.
  cbn zeta. unfold scan_directory_incremental.
  destruct (collect_files w source_dir file_types exclude_dirs)
    as [|p0 files0] eqn:Hall; [done|].
  cbn zeta.
  set (state := if force_rescan then _ else _).
  assert (state.2 = if force_rescan
                    then ["[!] Forced full re-scan (cache ignored)"] else [])
    as Hlog by (unfold state; by destruct force_rescan).
  destruct state as [st log]. cbn [snd] in Hlog. subst log. cbn zeta.
  unfold run_lines.
  destruct (decide (0 < length (c_files_to_process st))) as [Hpos|Hzero];
    cbn zeta; cbn [fst r_log r_cached_files r_files_to_process].
  - rewrite process_files_log. cbn [p_log].
    destruct (c_files_to_process st) as [|p1 files1] eqn:Hto;
      [cbn [length] in Hpos; lia|].
    by rewrite <- !app_assoc.
  - destruct (c_files_to_process st) as [|p1 files1] eqn:Hto;
      [|cbn [length] in Hzero; lia].
    by rewrite app_nil_r.
Qed.

End RunDescription.

Section RunFacts.

Context (L : PyLib) (R : RuleSet).

Lemma merge_document_absorb (cache : Cache) (fs : Files) (force_rescan : bool)
    (acc : Strings * Counts) (filepath : Path) :
  merge_document L R cache fs force_rescan acc filepath
  = absorb (run_contribution L R cache fs force_rescan filepath) acc.
Proof.
  unfold merge_document, run_contribution, fresh_contribution, extracts.
  destruct force_rescan; cbn [negb andb].
  - case_bool_decide; [apply merge_results_absorb|by rewrite absorb_empty].
  - destruct (is_hit L cache fs filepath) eqn:Hhit.
    + unfold cached_contribution. unfold is_hit in Hhit.
      destruct (cache !! filepath); [apply merge_cached_absorb|done].
    + case_bool_decide; [apply merge_results_absorb|by rewrite absorb_empty].
Qed.

Lemma merge_documents_absorb_all (cache : Cache) (fs : Files)
    (force_rescan : bool) (files : list Path) (acc : Strings * Counts) :
  foldl (merge_document L R cache fs force_rescan) acc files
  = absorb_all (run_contribution L R cache fs force_rescan <$> files) acc.
Proof.
  revert acc. induction files as [|p files IH]; intros acc; [done|].
  rewrite fmap_cons. cbn [foldl absorb_all].
  by rewrite IH, merge_document_absorb.
Qed.

(** The collection loop of the parallel scan merges the contributions of
    the work items in completion order. *)
Lemma collect_results_aggregate (fs : Files) (verbose : bool) (total : nat)
    (items : list (Path * string)) (st : Collected) :
  let st' := foldl (collect_result verbose total) st
                   (process_file L R fs <$> items) in
  (k_strings st', k_counts st')
  = absorb_all (work_contribution L R fs <$> items)
               (k_strings st, k_counts st).
Proof.
  revert st. induction items as [|item items IH]; intros st; [done|].
  cbn zeta. rewrite !fmap_cons. cbn [foldl absorb_all].
  specialize (IH (collect_result verbose total st (process_file L R fs item))).
  cbn zeta in IH. rewrite IH. f_equal.
  unfold collect_result, work_contribution.
  destruct (process_file L R fs item) as [filepath results]. cbn [snd].
  case_bool_decide; cbn [k_strings k_counts].
  - rewrite merge_results_absorb. by destruct (absorb _ _).
  - by rewrite absorb_empty.
Qed.

Lemma scan_parallel_aggregate (source_dir : Path)
    (file_types exclude_dirs : list string) (workers : option positive)
    (verbose : bool) (schedule : list (Path * string) -> list (Path * string))
    (w : World) :
  (scan_directory_parallel L R source_dir file_types exclude_dirs workers
     verbose schedule w).1
  = absorb_all
      (work_contribution L R (w_fs w)
         <$> completed schedule
               (collect_work w source_dir file_types exclude_dirs))
      (∅, ∅).
Proof.
  unfold scan_directory_parallel, completed.
  destruct (collect_work w source_dir file_types exclude_dirs)
    as [|item items] eqn:Hwork; [done|].
  cbn zeta. cbn [fst].
  by rewrite (collect_results_aggregate (w_fs w) verbose).
Qed.

Lemma completed_permutation
    (schedule : list (Path * string) -> list (Path * string))
    (all_files : list (Path * string)) :
  (forall items, schedule items ≡ₚ items) ->
  completed schedule all_files ≡ₚ all_files.
Proof. intros Hs. destruct all_files; [done|apply Hs]. Qed.

End RunFacts.

(** ** Order of merging *)

(** C4.  Merging is independent of order.  Two schedules of the worker pool
    (each completes the submitted work items in some order) give the same
    strings and counts in the parallel scan; the incremental scan, which
    merges its cache hits first and its processed files after, returns what
    merging the discovered documents one by one in any order returns; and
    the merge loops commute pairwise. *)
Theorem merge_order_independent (L : PyLib) (R : RuleSet) (source_dir : Path)
    (file_types exclude_dirs : list string) (workers : option positive)
    (verbose : bool)
    (schedule1 schedule2 : list (Path * string) -> list (Path * string))
    (w : World) :
  (forall items, schedule1 items ≡ₚ items) ->
  (forall items, schedule2 items ≡ₚ items) ->
  (scan_directory_parallel L R source_dir file_types exclude_dirs workers
     verbose schedule1 w).1
  = (scan_directory_parallel L R source_dir file_types exclude_dirs workers
       verbose schedule2 w).1
  /\ (forall (cache_dir : option string) (force_rescan : bool)
        (order : list Path),
        order ≡ₚ collect_files w source_dir file_types exclude_dirs ->
        let run := scan_directory_incremental L R source_dir file_types
                     exclude_dirs cache_dir force_rescan verbose w in
        (r_strings run.1, r_counts run.1)
        = foldl (merge_document L R
                   (load_cache L (w_fs w) (cache_dir_or_default cache_dir))
                   (w_fs w) force_rescan) (∅, ∅) order)
  /\ (forall (results1 results2 : Results) (acc : Strings * Counts),
        merge_results results1 (merge_results results2 acc)
        = merge_results results2 (merge_results results1 acc))
  /\ (forall (cached_data : gmap string (list string)) (results : Results)
        (acc : Strings * Counts),
        merge_cached cached_data (merge_results results acc)
        = merge_results results (merge_cached cached_data acc))
  /\ (forall (cached1 cached2 : gmap string (list string))
        (acc : Strings * Counts),
        merge_cached cached1 (merge_cached cached2 acc)
        = merge_cached cached2 (merge_cached cached1 acc)).
Proof.
  intros Hs1 Hs2. split_and!.
  - rewrite !scan_parallel_aggregate.
    apply absorb_all_permutation, fmap_Permutation.
    by rewrite !completed_permutation.
  - intros cache_dir force_rescan order Horder. cbn zeta.
    destruct (scan_description L R source_dir file_types exclude_dirs
                cache_dir force_rescan verbose w) as (_ & -> & _).
    rewrite merge_documents_absorb_all.
    apply absorb_all_permutation, fmap_Permutation. by symmetry.
  - intros r1 r2 acc. rewrite !merge_results_absorb. apply absorb_comm.
  - intros d r acc.
    rewrite !merge_results_absorb, !merge_cached_absorb. apply absorb_comm.
  - intros d1 d2 acc. rewrite !merge_cached_absorb. apply absorb_comm.
Qed.

Lemma merge_order_independent_witness :
  (forall items : list (Path * string), reverse items ≡ₚ items)
  /\ (forall items : list (Path * string), id items ≡ₚ items)
  /\ (scan_directory_parallel Toy.lib Toy.rules "src" ["html"; "js"]
        ["node_modules"] None false reverse Toy.two_pages).1
     = (scan_directory_parallel Toy.lib Toy.rules "src" ["html"; "js"]
          ["node_modules"] None false id Toy.two_pages).1.
Proof.
  assert (forall items : list (Path * string), reverse items ≡ₚ items) as H1
    by (intros items; apply reverse_Permutation).
  assert (forall items : list (Path * string), id items ≡ₚ items) as H2
    by (intros items; reflexivity).
  split; [exact H1|]. split; [exact H2|].
  exact (proj1 (merge_order_independent Toy.lib Toy.rules "src" ["html"; "js"]
                  ["node_modules"] None false reverse id Toy.two_pages H1 H2)).
Defined.

(** ** Counts *)

Lemma aggregate_totals (cs : list Contribution) (category : string) :
  Forall counted cs ->
  let acc := absorb_all cs (∅, ∅) in
  default 0 (acc.2 !! category) = occurrences cs category
  /\ default ∅ (acc.1 !! category) = fragments cs category
  /\ size (default ∅ (acc.1 !! category)) <= default 0 (acc.2 !! category).
Proof.
  intros Hcs. cbn zeta.
  rewrite absorb_all_counts_total, absorb_all_strings_total.
  cbn [fst snd]. rewrite !lookup_empty. cbn [default].
  rewrite (left_id_L ∅ (∪)). split_and!; [done|done|].
  by apply fragments_le_occurrences.
Qed.

Lemma run_contribution_counted (L : PyLib) (R : RuleSet) (cache : Cache)
    (fs : Files) (force_rescan : bool) (filepath : Path) :
  counted (run_contribution L R cache fs force_rescan filepath).
Proof.
  unfold run_contribution, fresh_contribution, cached_contribution.
  repeat case_match;
    auto using of_cached_counted, of_results_counted, empty_counted.
Qed.

Lemma work_contribution_counted (L : PyLib) (R : RuleSet) (fs : Files)
    (args : Path * string) :
  counted (work_contribution L R fs args).
Proof.
  unfold work_contribution. cbn zeta.
  case_bool_decide; auto using of_results_counted, empty_counted.
Qed.

(** C8.  For every category the count returned with the aggregate is the
    sum, over the discovered documents, of the number of strings each one
    brings under that category (the length of the cached list for a hit, the
    size of the extracted set for a processed file, nothing for a failed
    one), while the set returned is their union; so the count is at least
    the size of the set, in the incremental and in the parallel scan alike,
    and it is larger as soon as two documents bring the same string. *)
Theorem counts_sum_per_document (L : PyLib) (R : RuleSet) (source_dir : Path)
    (file_types exclude_dirs : list string) (cache_dir : option string)
    (force_rescan verbose : bool) (workers : option positive)
    (schedule : list (Path * string) -> list (Path * string)) (w : World)
    (category : string) :
  let cache := load_cache L (w_fs w) (cache_dir_or_default cache_dir) in
  let run := scan_directory_incremental L R source_dir file_types exclude_dirs
               cache_dir force_rescan verbose w in
  let documents :=
    run_contribution L R cache (w_fs w) force_rescan
      <$> collect_files w source_dir file_types exclude_dirs in
  let fast := scan_directory_parallel L R source_dir file_types exclude_dirs
                workers verbose schedule w in
  let work :=
    work_contribution L R (w_fs w)
      <$> completed schedule
            (collect_work w source_dir file_types exclude_dirs) in
  (default 0 (r_counts run.1 !! category) = occurrences documents category
   /\ default ∅ (r_strings run.1 !! category) = fragments documents category
   /\ size (default ∅ (r_strings run.1 !! category))
      <= default 0 (r_counts run.1 !! category))
  /\ (default 0 (fast.1.2 !! category) = occurrences work category
      /\ default ∅ (fast.1.1 !! category) = fragments work category
      /\ size (default ∅ (fast.1.1 !! category))
         <= default 0 (fast.1.2 !! category))
  /\ (let both := scan_directory_incremental Toy.lib Toy.rules "src" ["html"]
                    ["node_modules"] None false false Toy.two_pages in
      default 0 (r_counts both.1 !! "buttons") = 2
      /\ size (default ∅ (r_strings both.1 !! "buttons")) = 1).
Proof.
  cbn zeta. split; [|split].
  - destruct (scan_description L R source_dir file_types exclude_dirs
                cache_dir force_rescan verbose w) as (_ & Hagg & _).
    cbn zeta in Hagg.
    pose proof (aggregate_totals
                  (run_contribution L R
                     (load_cache L (w_fs w) (cache_dir_or_default cache_dir))
                     (w_fs w) force_rescan
                     <$> collect_files w source_dir file_types exclude_dirs)
                  category) as Htot.
    cbn zeta in Htot. rewrite <- Hagg in Htot. apply Htot.
    apply Forall_fmap, Forall_true. intros p. apply run_contribution_counted.
  - pose proof (aggregate_totals
                  (work_contribution L R (w_fs w)
                     <$> completed schedule
                           (collect_work w source_dir file_types exclude_dirs))
                  category) as Htot.
    cbn zeta in Htot.
    rewrite <- (scan_parallel_aggregate L R source_dir file_types exclude_dirs
                  workers verbose schedule w) in Htot.
    apply Htot.
    apply Forall_fmap, Forall_true. intros p. apply work_contribution_counted.
  - vm_compute. split; reflexivity.
Qed.

(** ** Runs in which every file is a cache hit *)

Lemma statistics_lines_no_update (total_files cached_files new_files : nat) :
  "[OK] Cache updated" ∉ statistics_lines total_files cached_files new_files.
Proof.
  unfold statistics_lines. intros Hin.
  apply elem_of_app in Hin as [Hin|Hin].
  - repeat (apply elem_of_cons in Hin as [Heq|Hin]; [discriminate Heq|]).
    by inversion Hin.
  - destruct (decide (0 < cached_files)); [|by inversion Hin].
    apply elem_of_cons in Hin as [Heq|Hin]; [discriminate Heq|].
    by inversion Hin.
Qed.

Lemma filter_misses_nil (f : Path -> bool) (files : list Path) :
  (forall p, p ∈ files -> f p = true) ->
  filter (fun p => f p = false) files = [].
Proof.
  induction files as [|p files IH]; intros Hall; [done|].
  rewrite filter_cons, decide_False.
  - apply IH. intros q Hq. apply Hall. by right.
  - rewrite Hall by (by left). done.
Qed.

Section AllHits.

Context (L : PyLib) (R : RuleSet).

Lemma scan_log_without_processing (source_dir : Path)
    (file_types exclude_dirs : list string) (cache_dir : option string)
    (force_rescan verbose : bool) (w : World) :
  let run := scan_directory_incremental L R source_dir file_types exclude_dirs
               cache_dir force_rescan verbose w in
  r_files_to_process run.1 = [] -> "[OK] Cache updated" ∉ r_log run.1.
Proof.
  cbn zeta. unfold scan_directory_incremental.
  destruct (collect_files w source_dir file_types exclude_dirs)
    as [|p0 files0].
  { cbn [fst r_log]. intros _ Hin. by inversion Hin. }
  cbn zeta. destruct force_rescan.
  - cbn [c_files_to_process]. rewrite decide_True by (cbn [length]; lia).
    cbn zeta. cbn [fst r_files_to_process]. done.
  - set (st := foldl _ _ _).
    destruct (decide (0 < length (c_files_to_process st))) as [Hpos|Hzero];
      cbn zeta; cbn [fst r_files_to_process r_log].
    + intros Heq. rewrite Heq in Hpos. cbn [length] in Hpos. lia.
    + intros _. cbn [app]. apply statistics_lines_no_update.
Qed.

Lemma merge_hits_only (cache : Cache) (fs : Files) (files : list Path)
    (acc : Strings * Counts) :
  (forall p, p ∈ files -> is_hit L cache fs p = true) ->
  foldl (merge_document L R cache fs false) acc files
  = foldl (fun acc p =>
             match cache !! p with
             | Some entry => merge_cached (e_results entry) acc
             | None => acc
             end) acc files.
Proof.
  revert acc. induction files as [|p files IH]; intros acc Hall; [done|].
  cbn [foldl]. rewrite IH by (intros q Hq; apply Hall; by right).
  f_equal. unfold merge_document. cbn [negb andb].
  by rewrite Hall by (by left).
Qed.

End AllHits.

(** C10.  With force-rescan off, when every discovered file is a cache hit
    the scan processes nothing and does not reach [save_cache]: the machine
    it leaves is the one it started in (every file, the cache file with its
    stored timestamps included, and the clock), the update message is not
    printed, the cache in memory is the one loaded, and the aggregate is
    made of the cached results alone. *)
Theorem all_hits_leave_cache_file_untouched (L : PyLib) (R : RuleSet)
    (source_dir : Path) (file_types exclude_dirs : list string)
    (cache_dir : option string) (verbose : bool) (w : World) :
  let cache := load_cache L (w_fs w) (cache_dir_or_default cache_dir) in
  let all_files := collect_files w source_dir file_types exclude_dirs in
  let run := scan_directory_incremental L R source_dir file_types exclude_dirs
               cache_dir false verbose w in
  (forall p, p ∈ all_files -> is_hit L cache (w_fs w) p = true) ->
  run.2 = w
  /\ r_files_to_process run.1 = []
  /\ ("[OK] Cache updated" ∉ r_log run.1)
  /\ r_cache run.1 = cache
  /\ (r_strings run.1, r_counts run.1)
     = foldl (fun acc p =>
                match cache !! p with
                | Some entry => merge_cached (e_results entry) acc
                | None => acc
                end) (∅, ∅) all_files.
Proof.
  cbn zeta. intros Hall.
  pose proof (scan_log_without_processing L R source_dir file_types
                exclude_dirs cache_dir false verbose w) as Hlog.
  destruct (scan_description L R source_dir file_types exclude_dirs
              cache_dir false verbose w) as (Hto & Hagg & _ & Hother & Hw).
  cbn zeta in *. rewrite (filter_misses_nil _ _ Hall) in Hto.
  rewrite Hto in Hw, Hother. rewrite decide_True in Hw by done.
  split_and!; [done|done|by apply Hlog| |].
  - apply map_eq. intros k. apply Hother. intros [Hin _]. by inversion Hin.
  - rewrite Hagg, <- merge_documents_absorb_all. by apply merge_hits_only.
Qed.

Lemma all_hits_leave_cache_file_untouched_witness :
  (forall p,
      p ∈ collect_files Toy.two_pages_cached "src" ["html"; "js"]
            ["node_modules"] ->
      is_hit Toy.lib
        (load_cache Toy.lib (w_fs Toy.two_pages_cached)
           (cache_dir_or_default None))
        (w_fs Toy.two_pages_cached) p = true)
  /\ (scan_directory_incremental Toy.lib Toy.rules "src" ["html"; "js"]
        ["node_modules"] None false true Toy.two_pages_cached).2
     = Toy.two_pages_cached.
Proof.
  assert (forall p,
      p ∈ collect_files Toy.two_pages_cached "src" ["html"; "js"]
            ["node_modules"] ->
      is_hit Toy.lib
        (load_cache Toy.lib (w_fs Toy.two_pages_cached)
           (cache_dir_or_default None))
        (w_fs Toy.two_pages_cached) p = true) as Hall.
  { apply Forall_forall.
    assert (collect_files Toy.two_pages_cached "src" ["html"; "js"]
              ["node_modules"] = ["src/a.html"; "src/b.html"]) as ->
      by (vm_compute; reflexivity).
    repeat constructor; vm_compute; reflexivity. }
  split; [exact Hall|].
  exact (proj1 (all_hits_leave_cache_file_untouched Toy.lib Toy.rules "src"
                  ["html"; "js"] ["node_modules"] None true
                  Toy.two_pages_cached Hall)).
Defined.

(** ** Runs on machines with the same documents *)

Section SameDocuments.

Context (L : PyLib) (R : RuleSet).

Lemma collect_files_ext (w1 w2 : World) (source_dir : Path)
    (file_types exclude_dirs : list string) :
  (forall pattern, w_rglob w2 source_dir pattern = w_rglob w1 source_dir pattern) ->
  collect_files w2 source_dir file_types exclude_dirs
  = collect_files w1 source_dir file_types exclude_dirs.
Proof.
  intros Hls. unfold collect_files.
  induction file_types as [|ft fts IH]; [done|].
  cbn [mbind list_bind]. by rewrite Hls, IH.
Qed.

Lemma load_cache_agree (fs1 fs2 : Files) (cache_dir : string) :
  fs2 !! cache_path cache_dir = fs1 !! cache_path cache_dir ->
  load_cache L fs2 cache_dir = load_cache L fs1 cache_dir.
Proof. unfold load_cache. by intros ->. Qed.

Lemma calculate_file_hash_agree (fs1 fs2 : Files) (filepath : Path) :
  fs2 !! filepath = fs1 !! filepath ->
  calculate_file_hash L fs2 filepath = calculate_file_hash L fs1 filepath.
Proof. unfold calculate_file_hash. by intros ->. Qed.

Lemma extract_from_file_agree (fs1 fs2 : Files) (filepath : Path)
    (file_type : string) :
  fs2 !! filepath = fs1 !! filepath ->
  extract_from_file L R fs2 filepath file_type
  = extract_from_file L R fs1 filepath file_type.
Proof. unfold extract_from_file. by intros ->. Qed.

Lemma extracts_agree (fs1 fs2 : Files) (filepath : Path) :
  fs2 !! filepath = fs1 !! filepath ->
  extracts L R fs2 filepath = extracts L R fs1 filepath.
Proof.
  intros H. unfold extracts. by rewrite (extract_from_file_agree fs1 fs2).
Qed.

Lemma fresh_contribution_agree (fs1 fs2 : Files) (filepath : Path) :
  fs2 !! filepath = fs1 !! filepath ->
  fresh_contribution L R fs2 filepath = fresh_contribution L R fs1 filepath.
Proof.
  intros H. unfold fresh_contribution.
  by rewrite (extracts_agree fs1 fs2), (extract_from_file_agree fs1 fs2).
Qed.

Lemma is_hit_agree (cache : Cache) (fs1 fs2 : Files) (filepath : Path) :
  fs2 !! filepath = fs1 !! filepath ->
  is_hit L cache fs2 filepath = is_hit L cache fs1 filepath.
Proof.
  intros H. unfold is_hit. by rewrite (calculate_file_hash_agree fs1 fs2).
Qed.

Lemma run_contribution_agree (cache : Cache) (fs1 fs2 : Files)
    (force_rescan : bool) (filepath : Path) :
  fs2 !! filepath = fs1 !! filepath ->
  run_contribution L R cache fs2 force_rescan filepath
  = run_contribution L R cache fs1 force_rescan filepath.
Proof.
  intros H. unfold run_contribution.
  by rewrite (fresh_contribution_agree fs1 fs2), (is_hit_agree cache fs1 fs2).
Qed.

Lemma is_hit_empty (fs : Files) (filepath : Path) :
  is_hit L ∅ fs filepath = false.
Proof. unfold is_hit. by rewrite lookup_empty. Qed.

Lemma filter_pointwise (f g : Path -> bool) (b : bool) (files : list Path) :
  (forall p, p ∈ files -> f p = g p) ->
  filter (fun p => f p = b) files = filter (fun p => g p = b) files.
Proof.
  induction files as [|p files IH]; intros Hfg; [done|].
  rewrite !filter_cons, (Hfg p) by (by left).
  rewrite IH by (intros q Hq; apply Hfg; by right). done.
Qed.

Lemma filter_keeps_all (f : Path -> bool) (files : list Path) :
  (forall p, p ∈ files -> f p = false) ->
  filter (fun p => f p = false) files = files.
Proof.
  induction files as [|p files IH]; intros Hall; [done|].
  rewrite filter_cons, decide_True by (apply Hall; by left).
  rewrite IH by (intros q Hq; apply Hall; by right). done.
Qed.

Lemma fmap_pointwise {B} (f g : Path -> B) (files : list Path) :
  (forall p, p ∈ files -> f p = g p) -> f <$> files = g <$> files.
Proof.
  intros Hfg. apply list_fmap_ext. intros i p Hp. apply Hfg.
  by apply list_elem_of_lookup_2 in Hp.
Qed.

End SameDocuments.

(** C3.  A cache file whose contents do not parse loads as the empty cache:
    every discovered document is processed, and the strings and counts
    returned are those of a scan of the same documents on a machine with no
    cache file at all. *)
Theorem corrupt_cache_is_no_cache (L : PyLib) (R : RuleSet) (source_dir : Path)
    (file_types exclude_dirs : list string) (cache_dir : option string)
    (verbose : bool) (w1 w2 : World) (raw : list byte) :
  let dir := cache_dir_or_default cache_dir in
  let all_files := collect_files w1 source_dir file_types exclude_dirs in
  let run1 := scan_directory_incremental L R source_dir file_types
                exclude_dirs cache_dir false verbose w1 in
  let run2 := scan_directory_incremental L R source_dir file_types
                exclude_dirs cache_dir false verbose w2 in
  w_fs w1 !! cache_path dir = Some raw ->
  json_load L raw = None ->
  w_fs w2 !! cache_path dir = None ->
  (forall pattern,
      w_rglob w2 source_dir pattern = w_rglob w1 source_dir pattern) ->
  (forall p, p ∈ all_files -> w_fs w2 !! p = w_fs w1 !! p) ->
  load_cache L (w_fs w1) dir = ∅
  /\ r_files_to_process run1.1 = all_files
  /\ r_files_to_process run2.1 = all_files
  /\ (r_strings run1.1, r_counts run1.1) = (r_strings run2.1, r_counts run2.1).
Proof.
  cbn zeta. intros Hraw Hbad Hnone Hls Hdocs.
  assert (load_cache L (w_fs w1) (cache_dir_or_default cache_dir) = ∅) as Hc1
    by (unfold load_cache; by rewrite Hraw, Hbad).
  assert (load_cache L (w_fs w2) (cache_dir_or_default cache_dir) = ∅) as Hc2
    by (unfold load_cache; by rewrite Hnone).
  destruct (scan_description L R source_dir file_types exclude_dirs
              cache_dir false verbose w1) as (Hto1 & Hagg1 & _).
  destruct (scan_description L R source_dir file_types exclude_dirs
              cache_dir false verbose w2) as (Hto2 & Hagg2 & _).
  cbn zeta in *.
  rewrite (collect_files_ext w1 w2 _ _ _ Hls) in Hto2, Hagg2.
  rewrite Hc1 in Hto1, Hagg1. rewrite Hc2 in Hto2, Hagg2.
  rewrite filter_keeps_all in Hto1 by (intros; apply is_hit_empty).
  rewrite filter_keeps_all in Hto2 by (intros; apply is_hit_empty).
  split_and!; [done..|].
  rewrite Hagg1, Hagg2. f_equal. apply fmap_pointwise. intros p Hp.
  symmetry. apply run_contribution_agree. by apply Hdocs.
Qed.

Lemma corrupt_cache_is_no_cache_witness :
  let run1 := scan_directory_incremental Toy.lib Toy.rules "src"
                ["html"; "js"] ["node_modules"] None false false
                Toy.two_pages_corrupt in
  let run2 := scan_directory_incremental Toy.lib Toy.rules "src"
                ["html"; "js"] ["node_modules"] None false false
                Toy.two_pages in
  w_fs Toy.two_pages_corrupt !! cache_path CACHE_DIR
  = Some (Toy.bytes "garbage")
  /\ json_load Toy.lib (Toy.bytes "garbage") = None
  /\ w_fs Toy.two_pages !! cache_path CACHE_DIR = None
  /\ r_files_to_process run1.1 = ["src/a.html"; "src/b.html"]
  /\ (r_strings run1.1, r_counts run1.1) = (r_strings run2.1, r_counts run2.1).
Proof.
  cbn zeta.
  assert (w_fs Toy.two_pages_corrupt !! cache_path CACHE_DIR
          = Some (Toy.bytes "garbage")) as Hraw by (vm_compute; reflexivity).
  assert (json_load Toy.lib (Toy.bytes "garbage") = None) as Hbad
    by (vm_compute; reflexivity).
  assert (w_fs Toy.two_pages !! cache_path CACHE_DIR = None) as Hnone
    by (vm_compute; reflexivity).
  assert (forall pattern,
             w_rglob Toy.two_pages "src" pattern
             = w_rglob Toy.two_pages_corrupt "src" pattern) as Hls
    by reflexivity.
  assert (forall p,
             p ∈ collect_files Toy.two_pages_corrupt "src" ["html"; "js"]
                   ["node_modules"] ->
             w_fs Toy.two_pages !! p = w_fs Toy.two_pages_corrupt !! p)
    as Hdocs.
  { apply Forall_forall.
    assert (collect_files Toy.two_pages_corrupt "src" ["html"; "js"]
              ["node_modules"] = ["src/a.html"; "src/b.html"]) as ->
      by (vm_compute; reflexivity).
    repeat constructor; vm_compute; reflexivity. }
  pose proof (corrupt_cache_is_no_cache Toy.lib Toy.rules "src" ["html"; "js"]
                ["node_modules"] None false Toy.two_pages_corrupt
                Toy.two_pages (Toy.bytes "garbage") Hraw Hbad Hnone Hls Hdocs)
    as (_ & Hto & _ & Hagg).
  split_and!; [exact Hraw|exact Hbad|exact Hnone| |exact Hagg].
  rewrite Hto. vm_compute. reflexivity.
Defined.

(** ** Fingerprints stored in the cache *)

Lemma toy_digest_length (data : list byte) :
  String.length (Toy.digest data) = 32.
Proof.
  unfold Toy.digest. generalize (foldl (fun h b => (h * 257 + Byte.to_N b + 1)%N) 0%N data).
  generalize 32. intros k. induction k as [|k IH]; intros n; [done|].
  cbn [Toy.hex_digits String.length]. by rewrite IH.
Qed.

Section Digests.

Context (L : PyLib) (R : RuleSet).

Hypothesis md5_length :
  forall data : list byte, String.length (md5_hexdigest L data) = 32.

Lemma entry_of_digest (fs : Files) (filepath : Path) (t : nat) :
  extracts L R fs filepath = true ->
  String.length (e_hash (entry_of L R fs filepath t)) = 32.
Proof.
  intros Hok. apply extracts_true in Hok as [content Hok].
  cbn [entry_of e_hash]. unfold calculate_file_hash.
  destruct (fs !! filepath) as [data|]; [apply md5_length|done].
Qed.

(** A run writes digests only. *)
Lemma scan_keeps_digests (source_dir : Path)
    (file_types exclude_dirs : list string) (cache_dir : option string)
    (force_rescan verbose : bool) (w : World) :
  digests_only (load_cache L (w_fs w) (cache_dir_or_default cache_dir)) ->
  digests_only
    (r_cache (scan_directory_incremental L R source_dir file_types
                exclude_dirs cache_dir force_rescan verbose w).1).
Proof.
  intros Hinv file_str entry Hentry.
  destruct (scan_description L R source_dir file_types exclude_dirs
              cache_dir force_rescan verbose w)
    as (_ & _ & Hwritten & Hother & _).
  cbn zeta in *.
  set (run := scan_directory_incremental L R source_dir file_types
                exclude_dirs cache_dir force_rescan verbose w) in *.
  destruct (decide (file_str ∈ r_files_to_process run.1
                    /\ extracts L R (w_fs w) file_str = true))
    as [[Hin Hok]|Hnot].
  - destruct (Hwritten file_str Hin Hok) as [t Ht].
    rewrite Ht in Hentry. injection Hentry as <-.
    by apply entry_of_digest.
  - rewrite (Hother file_str Hnot) in Hentry. by apply (Hinv file_str).
Qed.

(** A file that cannot be hashed matches no stored digest. *)
Lemma unreadable_is_miss (cache : Cache) (fs : Files) (filepath : Path) :
  digests_only cache -> fs !! filepath = None ->
  is_hit L cache fs filepath = false.
Proof.
  intros Hinv Hnone. unfold is_hit, calculate_file_hash. rewrite Hnone.
  destruct (cache !! filepath) as [entry|] eqn:Hentry; [|done].
  apply String.eqb_neq. intros Heq.
  pose proof (Hinv filepath entry Hentry) as Hlen.
  rewrite Heq in Hlen. discriminate Hlen.
Qed.

End Digests.

(** C9.  A file whose bytes cannot be read has the empty fingerprint.
    Digests being 32 characters long, the empty cache holds digests only
    and a cache whose stored fingerprints are all digests stays so through a
    run (the loaded entries are kept or replaced by entries carrying the
    digest of a file just extracted); against such a cache the empty fingerprint is never a hit: the file is
    put among the files to process, where its extraction fails, and it
    contributes nothing to the aggregate. *)
Theorem unhashable_file_is_never_a_hit (L : PyLib) (R : RuleSet)
    (source_dir : Path) (file_types exclude_dirs : list string)
    (cache_dir : option string) (verbose : bool) (w : World)
    (filepath : Path) :
  let cache := load_cache L (w_fs w) (cache_dir_or_default cache_dir) in
  let run := scan_directory_incremental L R source_dir file_types exclude_dirs
               cache_dir false verbose w in
  (forall data : list byte, String.length (md5_hexdigest L data) = 32) ->
  digests_only cache ->
  filepath ∈ collect_files w source_dir file_types exclude_dirs ->
  w_fs w !! filepath = None ->
  calculate_file_hash L (w_fs w) filepath = ""
  /\ is_hit L cache (w_fs w) filepath = false
  /\ filepath ∈ r_files_to_process run.1
  /\ extracts L R (w_fs w) filepath = false
  /\ run_contribution L R cache (w_fs w) false filepath = ∅
  /\ r_cache run.1 !! filepath = cache !! filepath
  /\ digests_only (r_cache run.1)
  /\ digests_only ∅.
Proof.
  cbn zeta. intros Hmd5 Hinv Hin Hnone.
  pose proof (unreadable_is_miss L _ _ _ Hinv Hnone) as Hmiss.
  pose proof (extracts_unreadable L R _ _ Hnone) as Hfail.
  destruct (scan_description L R source_dir file_types exclude_dirs
              cache_dir false verbose w) as (Hto & _ & _ & Hother & _).
  cbn zeta in *. split_and!.
  - unfold calculate_file_hash. by rewrite Hnone.
  - done.
  - rewrite Hto. by apply list_elem_of_filter.
  - done.
  - unfold run_contribution, fresh_contribution. by rewrite Hmiss, Hfail.
  - apply Hother. intros [_ Hok]. by rewrite Hfail in Hok.
  - by apply scan_keeps_digests.
  - intros file_str entry Hentry. by rewrite lookup_empty in Hentry.
Qed.

Lemma unhashable_file_is_never_a_hit_witness :
  let w := Toy.locked_page_cached in
  let run := scan_directory_incremental Toy.lib Toy.rules "src" ["html"]
               ["node_modules"] None false false w in
  (forall data : list byte,
      String.length (md5_hexdigest Toy.lib data) = 32)
  /\ load_cache Toy.lib (w_fs w) (cache_dir_or_default None)
     = {[ "src/a.html" :=
            {| e_hash := Toy.digest (Toy.bytes "Save");
               e_timestamp := "T0";
               e_results :=
                 {[ "jsx_content" := []; "buttons" := ["Save"];
                    "labels" := []; "placeholders" := [];
                    "attributes" := []; "toasts_alerts" := [] ]} |} ]}
  /\ digests_only (load_cache Toy.lib (w_fs w) (cache_dir_or_default None))
  /\ "src/locked.html" ∈ collect_files w "src" ["html"] ["node_modules"]
  /\ w_fs w !! "src/locked.html" = None
  /\ "src/locked.html" ∈ r_files_to_process run.1.
Proof.
  cbn zeta.
  assert (load_cache Toy.lib (w_fs Toy.locked_page_cached)
            (cache_dir_or_default None)
          = {[ "src/a.html" :=
                 {| e_hash := Toy.digest (Toy.bytes "Save");
                    e_timestamp := "T0";
                    e_results :=
                      {[ "jsx_content" := []; "buttons" := ["Save"];
                         "labels" := []; "placeholders" := [];
                         "attributes" := []; "toasts_alerts" := [] ]} |} ]})
    as Hcache by (vm_compute; reflexivity).
  assert (digests_only (load_cache Toy.lib (w_fs Toy.locked_page_cached)
                          (cache_dir_or_default None))) as Hinv.
  { rewrite Hcache. intros file_str entry Hentry.
    apply lookup_singleton_Some in Hentry as [_ <-]. apply toy_digest_length. }
  assert ("src/locked.html"
            ∈ collect_files Toy.locked_page_cached "src" ["html"]
                ["node_modules"]) as Hin.
  { assert (collect_files Toy.locked_page_cached "src" ["html"]
              ["node_modules"] = ["src/a.html"; "src/locked.html"]) as ->
      by (vm_compute; reflexivity).
    right. left. }
  assert (w_fs Toy.locked_page_cached !! "src/locked.html" = None) as Hnone
    by (vm_compute; reflexivity).
  split_and!;
    [exact toy_digest_length|exact Hcache|exact Hinv|exact Hin|exact Hnone|].
  exact (proj1 (proj2 (proj2
    (unhashable_file_is_never_a_hit Toy.lib Toy.rules "src" ["html"]
       ["node_modules"] None false Toy.locked_page_cached "src/locked.html"
       toy_digest_length Hinv Hin Hnone)))).
Defined.

(** ** Documents whose extraction fails *)

Lemma filter_without_comm (d : Path) (f : Path -> bool) (files : list Path) :
  filter (fun p => p <> d) (filter (fun p => f p = false) files)
  = filter (fun p => f p = false) (filter (fun p => p <> d) files).
Proof.
  induction files as [|p files IH]; [done|].
  rewrite !filter_cons.
  destruct (decide (f p = false)), (decide (p <> d));
    rewrite ?filter_cons, ?decide_True, ?decide_False by done;
    by rewrite IH.
Qed.

Lemma collect_files_without (d : Path) (w : World) (source_dir : Path)
    (file_types exclude_dirs : list string) :
  collect_files (without_file d w) source_dir file_types exclude_dirs
  = filter (fun p => p <> d)
           (collect_files w source_dir file_types exclude_dirs).
Proof.
  unfold collect_files. induction file_types as [|ft fts IH]; [done|].
  cbn [mbind list_bind]. rewrite filter_app, <- IH. f_equal.
  cbn [without_file w_rglob]. symmetry.
  apply (filter_without_comm d (fun p => is_excluded p exclude_dirs)).
Qed.

Lemma absorb_all_skip_empty (f : Path -> Contribution) (d : Path)
    (files : list Path) (acc : Strings * Counts) :
  f d = ∅ ->
  absorb_all (f <$> filter (fun p => p <> d) files) acc
  = absorb_all (f <$> files) acc.
Proof.
  intros Hd. revert acc. induction files as [|p files IH]; intros acc; [done|].
  rewrite filter_cons, fmap_cons. cbn [absorb_all foldl].
  destruct (decide (p <> d)) as [Hne|Heq].
  - rewrite fmap_cons. cbn [absorb_all foldl]. apply IH.
  - apply dec_stable in Heq as ->. rewrite Hd, absorb_empty. apply IH.
Qed.

(** C6, as the incremental scan has it.  A document whose extraction fails
    (it cannot be opened, read or decoded) and which is not a cache hit
    leaves the strings, the counts and the cache as if it had not been
    listed: the strings and counts are those of the scan of the other
    documents, and the entry the cache holds for it, if any, is neither
    created nor changed.  In the statistics the run prints, the document is
    counted with the files discovered (total files) and with the files to
    process (new/changed files). *)
Theorem failed_document_is_skipped (L : PyLib) (R : RuleSet)
    (source_dir : Path) (file_types exclude_dirs : list string)
    (cache_dir : option string) (force_rescan verbose : bool) (w : World)
    (d : Path) :
  let cache := load_cache L (w_fs w) (cache_dir_or_default cache_dir) in
  let run := scan_directory_incremental L R source_dir file_types exclude_dirs
               cache_dir force_rescan verbose w in
  let others := scan_directory_incremental L R source_dir file_types
                  exclude_dirs cache_dir force_rescan verbose
                  (without_file d w) in
  extracts L R (w_fs w) d = false ->
  force_rescan = true \/ is_hit L cache (w_fs w) d = false ->
  (r_strings run.1, r_counts run.1) = (r_strings others.1, r_counts others.1)
  /\ r_cache run.1 !! d = cache !! d
  /\ (d ∈ collect_files w source_dir file_types exclude_dirs ->
      d ∈ r_files_to_process run.1)
  /\ (d ∉ r_files_to_process others.1)
  /\ (d ∈ collect_files w source_dir file_types exclude_dirs ->
      forall line : string,
        line ∈ statistics_lines
                 (length (collect_files w source_dir file_types exclude_dirs))
                 (r_cached_files run.1)
                 (length (r_files_to_process run.1)) ->
        line ∈ r_log run.1).
Proof.
  cbn zeta. intros Hfail Hmiss.
  pose proof (scan_log L R source_dir file_types exclude_dirs
                cache_dir force_rescan verbose w) as Hlog.
  destruct (scan_description L R source_dir file_types exclude_dirs
              cache_dir force_rescan verbose w)
    as (Hto & Hagg & _ & Hother & _).
  destruct (scan_description L R source_dir file_types exclude_dirs
              cache_dir force_rescan verbose (without_file d w))
    as (Hto' & Hagg' & _).
  cbn zeta in *. cbn [without_file w_fs] in Hto', Hagg'.
  rewrite collect_files_without in Hto', Hagg'.
  assert (run_contribution L R
            (load_cache L (w_fs w) (cache_dir_or_default cache_dir))
            (w_fs w) force_rescan d = ∅) as Hnothing.
  { unfold run_contribution, fresh_contribution. rewrite Hfail.
    destruct Hmiss as [->| ->]; [done|by destruct force_rescan]. }
  split_and!.
  - rewrite Hagg, Hagg'. symmetry. by apply absorb_all_skip_empty.
  - apply Hother. intros [_ Hok]. by rewrite Hfail in Hok.
  - intros Hin. rewrite Hto. destruct Hmiss as [->|Hmiss]; [done|].
    destruct force_rescan; [done|]. by apply list_elem_of_filter.
  - rewrite Hto'. intros Hin. destruct force_rescan.
    + by apply list_elem_of_filter in Hin as [Hne _].
    + apply list_elem_of_filter in Hin as [_ Hin].
      by apply list_elem_of_filter in Hin as [Hne _].
  - intros Hin line Hline. rewrite Hlog.
    destruct (collect_files w source_dir file_types exclude_dirs)
      as [|p0 files0]; [by inversion Hin|].
    unfold run_lines. cbn zeta. rewrite !elem_of_app. right. by left.
Qed.

Lemma failed_document_is_skipped_witness :
  let run := scan_directory_incremental Toy.lib Toy.rules "src" ["html"]
               ["node_modules"] None false false Toy.locked_page in
  let others := scan_directory_incremental Toy.lib Toy.rules "src" ["html"]
                  ["node_modules"] None false false
                  (without_file "src/locked.html" Toy.locked_page) in
  extracts Toy.lib Toy.rules (w_fs Toy.locked_page) "src/locked.html" = false
  /\ is_hit Toy.lib
       (load_cache Toy.lib (w_fs Toy.locked_page) (cache_dir_or_default None))
       (w_fs Toy.locked_page) "src/locked.html" = false
  /\ (r_strings run.1, r_counts run.1)
     = (r_strings others.1, r_counts others.1).
Proof.
  cbn zeta.
  assert (extracts Toy.lib Toy.rules (w_fs Toy.locked_page) "src/locked.html"
          = false) as Hfail by (vm_compute; reflexivity).
  assert (is_hit Toy.lib
            (load_cache Toy.lib (w_fs Toy.locked_page)
               (cache_dir_or_default None))
            (w_fs Toy.locked_page) "src/locked.html" = false) as Hmiss
    by (vm_compute; reflexivity).
  split_and!; [exact Hfail|exact Hmiss|].
  exact (proj1 (failed_document_is_skipped Toy.lib Toy.rules "src" ["html"]
                  ["node_modules"] None false false Toy.locked_page
                  "src/locked.html" Hfail (or_intror Hmiss))).
Defined.

(** C6 as stated does not hold: a run in which the one listed document
    cannot be read prints and returns exactly what a run in which it is
    readable prints and returns (a text file brings no category), so in
    this run the failure is neither counted nor reported. *)
Lemma failure_is_not_reported :
  let failed := scan_directory_incremental Toy.lib Toy.rules "docs" ["txt"]
                  ["node_modules"] None false true Toy.locked_notes in
  let fine := scan_directory_incremental Toy.lib Toy.rules "docs" ["txt"]
                ["node_modules"] None false true Toy.plain_notes in
  extracts Toy.lib Toy.rules (w_fs Toy.locked_notes) "docs/notes.txt" = false
  /\ extracts Toy.lib Toy.rules (w_fs Toy.plain_notes) "docs/notes.txt" = true
  /\ r_log failed.1
     = ["[*] Cache Statistics:"; "  Total files: 1"; "  Cached files: 0 (0%)";
        "  New/changed files: 1"; "[>] Processing 1 files...";
        "  [1/1] docs/notes.txt"; "[OK] Cache updated"]
  /\ r_log failed.1 = r_log fine.1
  /\ r_strings failed.1 = r_strings fine.1
  /\ r_counts failed.1 = r_counts fine.1
  /\ r_files_to_process failed.1 = r_files_to_process fine.1
  /\ r_cached_files failed.1 = r_cached_files fine.1.
Proof. vm_compute. repeat split; reflexivity. Qed.

(** ** A run and the run after it *)

Lemma toy_bits_roundtrip (p : positive) : Toy.bits_pos (Toy.pos_bits p) = p.
Proof. induction p as [p IH|p IH|]; cbn; by rewrite ?IH. Qed.

Lemma toy_json_roundtrip (cache : Cache) :
  json_load Toy.lib (concat (json_dump Toy.lib cache)) = Some cache.
Proof.
  cbn [json_load json_dump Toy.lib Toy.dump concat app Toy.load].
  rewrite app_nil_r. cbn [Byte.eqb]. rewrite toy_bits_roundtrip.
  apply decode_encode.
Qed.

Section NextRun.

Context (L : PyLib) (R : RuleSet).
Context (source_dir : Path) (file_types exclude_dirs : list string)
        (cache_dir : option string) (force1 verbose1 : bool) (w1 : World)
        (fs2 : Files).

Local Abbreviation dir := (cache_dir_or_default cache_dir).
Local Abbreviation cache1 := (load_cache L (w_fs w1) dir).
Local Abbreviation all_files :=
  (collect_files w1 source_dir file_types exclude_dirs).
Local Abbreviation run1 :=
  (scan_directory_incremental L R source_dir file_types exclude_dirs
     cache_dir force1 verbose1 w1).
Local Abbreviation cache2 := (load_cache L fs2 dir).

(** What the run decided for its files to process. *)
Lemma first_run_to_process (p : Path) :
  p ∈ all_files ->
  p ∈ r_files_to_process run1.1
  <-> force1 = true \/ is_hit L cache1 (w_fs w1) p = false.
Proof.
  intros Hall.
  destruct (scan_description L R source_dir file_types exclude_dirs
              cache_dir force1 verbose1 w1) as (Hto & _).
  cbn zeta in Hto. rewrite Hto.
  destruct force1.
  - split; [by left|done].
  - rewrite list_elem_of_filter. split; [intros [? _]; by right|].
    intros [?|?]; done.
Qed.

Hypothesis json_roundtrip :
  forall cache : Cache, json_load L (concat (json_dump L cache)) = Some cache.
Hypothesis cache_file_kept :
  fs2 !! cache_path dir = w_fs run1.2 !! cache_path dir.

(** The next run loads the cache the run held when it returned. *)
Lemma next_run_cache : cache2 = r_cache run1.1.
Proof.
  destruct (scan_description L R source_dir file_types exclude_dirs
              cache_dir force1 verbose1 w1) as (_ & _ & _ & Hother & Hw).
  cbn zeta in *.
  unfold load_cache at 1. rewrite cache_file_kept, Hw.
  destruct (decide (r_files_to_process run1.1 = [])) as [Hnone|Hsome].
  - fold (load_cache L (w_fs w1) dir). symmetry.
    apply map_eq. intros k. apply Hother. rewrite Hnone.
    intros [Hin _]. by inversion Hin.
  - cbn [w_fs]. by rewrite lookup_insert_eq, json_roundtrip.
Qed.

Hypothesis documents_kept :
  forall p, p ∈ all_files -> fs2 !! p = w_fs w1 !! p.

(** A file the run extracted is a hit of the next run, with the same
    contribution. *)
Lemma next_run_written (p : Path) :
  p ∈ all_files -> p ∈ r_files_to_process run1.1 ->
  extracts L R (w_fs w1) p = true ->
  is_hit L cache2 fs2 p = true
  /\ cached_contribution cache2 p = fresh_contribution L R (w_fs w1) p.
Proof.
  intros Hall Hin Hok.
  destruct (scan_description L R source_dir file_types exclude_dirs
              cache_dir force1 verbose1 w1) as (_ & _ & Hwritten & _).
  cbn zeta in Hwritten.
  destruct (Hwritten p Hin Hok) as [t Ht].
  unfold is_hit, cached_contribution. rewrite next_run_cache, Ht.
  cbn [entry_of e_hash e_results]. split.
  - rewrite (calculate_file_hash_agree L (w_fs w1) fs2) by by apply documents_kept.
    apply String.eqb_refl.
  - rewrite of_cached_results_to_lists. unfold fresh_contribution.
    by rewrite Hok.
Qed.

(** Any other file meets the entry the run had loaded for it. *)
Lemma next_run_kept (p : Path) :
  p ∈ all_files ->
  ~ (p ∈ r_files_to_process run1.1 /\ extracts L R (w_fs w1) p = true) ->
  is_hit L cache2 fs2 p = is_hit L cache1 (w_fs w1) p
  /\ cached_contribution cache2 p = cached_contribution cache1 p.
Proof.
  intros Hall Hnot.
  destruct (scan_description L R source_dir file_types exclude_dirs
              cache_dir force1 verbose1 w1) as (_ & _ & _ & Hother & _).
  cbn zeta in Hother.
  unfold is_hit, cached_contribution.
  rewrite next_run_cache, (Hother p Hnot).
  by rewrite (calculate_file_hash_agree L (w_fs w1) fs2)
    by by apply documents_kept.
Qed.

(** An extractable file is a hit of the next run. *)
Lemma next_run_hit (p : Path) :
  p ∈ all_files -> extracts L R (w_fs w1) p = true ->
  is_hit L cache2 fs2 p = true.
Proof.
  intros Hall Hok.
  destruct (decide (p ∈ r_files_to_process run1.1)) as [Hin|Hout].
  - by apply next_run_written.
  - destruct (next_run_kept p Hall) as [-> _]; [by intros [? _]|].
    destruct (is_hit L cache1 (w_fs w1) p) eqn:Hhit; [done|].
    exfalso. apply Hout, first_run_to_process; [done|by right].
Qed.

(** The next run takes from each file what the run took from it. *)
Lemma next_run_contribution (p : Path) :
  p ∈ all_files ->
  force1 = false \/ extracts L R (w_fs w1) p = true ->
  run_contribution L R cache2 fs2 false p
  = run_contribution L R cache1 (w_fs w1) force1 p.
Proof.
  intros Hall Hcase.
  destruct (decide (p ∈ r_files_to_process run1.1
                    /\ extracts L R (w_fs w1) p = true)) as [[Hin Hok]|Hnot].
  - destruct (next_run_written p Hall Hin Hok) as [Hhit Hsame].
    unfold run_contribution at 1. rewrite Hhit, Hsame.
    destruct (proj1 (first_run_to_process p Hall) Hin) as [Hforce|Hmiss].
    + unfold run_contribution. by rewrite Hforce.
    + unfold run_contribution. rewrite Hmiss. by destruct force1.
  - destruct (next_run_kept p Hall Hnot) as [Hhit Hsame].
    unfold run_contribution. rewrite Hhit, Hsame.
    rewrite (fresh_contribution_agree L R (w_fs w1) fs2)
      by by apply documents_kept.
    assert (force1 = false) as ->; [|done].
    destruct Hcase as [?|Hok]; [done|].
    apply not_true_is_false. intros Hforce. apply Hnot. split; [|done].
    apply first_run_to_process; [done|by left].
Qed.

End NextRun.

(** C1, as the code has it.  A second run, with force-rescan off, on a
    machine that lists the same documents with the same bytes and holds the
    cache file the first run left: every document whose extraction succeeds
    is served from the cache, never processed again; the strings and counts
    are those of the first run, provided the first run was not forced or no
    extraction fails; and when no extraction fails the second run has no
    file to process, every discovered file being a hit, and leaves the
    machine as it found it.  A document whose extraction fails and which was
    not a hit is not cached, so it is processed again. *)
Theorem unchanged_documents_are_served_from_cache (L : PyLib) (R : RuleSet)
    (source_dir : Path) (file_types exclude_dirs : list string)
    (cache_dir : option string) (force1 verbose1 verbose2 : bool)
    (w1 w2 : World) :
  let dir := cache_dir_or_default cache_dir in
  let all_files := collect_files w1 source_dir file_types exclude_dirs in
  let run1 := scan_directory_incremental L R source_dir file_types
                exclude_dirs cache_dir force1 verbose1 w1 in
  let run2 := scan_directory_incremental L R source_dir file_types
                exclude_dirs cache_dir false verbose2 w2 in
  (forall cache : Cache,
      json_load L (concat (json_dump L cache)) = Some cache) ->
  (forall pattern,
      w_rglob w2 source_dir pattern = w_rglob w1 source_dir pattern) ->
  (forall p, p ∈ all_files -> w_fs w2 !! p = w_fs w1 !! p) ->
  w_fs w2 !! cache_path dir = w_fs run1.2 !! cache_path dir ->
  (forall p, p ∈ all_files -> extracts L R (w_fs w1) p = true ->
             is_hit L (load_cache L (w_fs w2) dir) (w_fs w2) p = true
             /\ p ∉ r_files_to_process run2.1)
  /\ (force1 = false
      \/ (forall p, p ∈ all_files -> extracts L R (w_fs w1) p = true) ->
      (r_strings run2.1, r_counts run2.1)
      = (r_strings run1.1, r_counts run1.1))
  /\ ((forall p, p ∈ all_files -> extracts L R (w_fs w1) p = true) ->
      r_files_to_process run2.1 = [] /\ run2.2 = w2)
  /\ (forall p, p ∈ all_files -> extracts L R (w_fs w1) p = false ->
                is_hit L (load_cache L (w_fs w1) dir) (w_fs w1) p = false ->
                p ∈ r_files_to_process run2.1).
Proof.
  cbn zeta. intros Hjson Hls Hdocs Hcache.
  destruct (scan_description L R source_dir file_types exclude_dirs
              cache_dir force1 verbose1 w1) as (_ & Hagg1 & _).
  destruct (scan_description L R source_dir file_types exclude_dirs
              cache_dir false verbose2 w2) as (Hto2 & Hagg2 & _ & _ & Hw2).
  cbn zeta in *.
  rewrite (collect_files_ext w1 w2 _ _ _ Hls) in Hto2, Hagg2.
  assert (forall p,
             p ∈ collect_files w1 source_dir file_types exclude_dirs ->
             extracts L R (w_fs w1) p = true ->
             is_hit L (load_cache L (w_fs w2) (cache_dir_or_default cache_dir))
                    (w_fs w2) p = true) as Hhits.
  { intros p Hp Hok.
    by apply (next_run_hit L R source_dir file_types exclude_dirs cache_dir
                force1 verbose1 w1 (w_fs w2) Hjson Hcache Hdocs). }
  split_and!.
  - intros p Hp Hok. split; [by apply Hhits|].
    rewrite Hto2. intros Hin. apply list_elem_of_filter in Hin as [Hmiss _].
    by rewrite Hhits in Hmiss.
  - intros Hcase. rewrite Hagg1, Hagg2. f_equal. apply fmap_pointwise.
    intros p Hp.
    apply (next_run_contribution L R source_dir file_types exclude_dirs
             cache_dir force1 verbose1 w1 (w_fs w2) Hjson Hcache Hdocs p Hp).
    destruct Hcase as [?|Hok]; [by left|right; by apply Hok].
  - intros Hok.
    assert (r_files_to_process
              (scan_directory_incremental L R source_dir file_types
                 exclude_dirs cache_dir false verbose2 w2).1 = []) as Hnone.
    { rewrite Hto2. apply filter_misses_nil. intros p Hp.
      apply Hhits; [done|by apply Hok]. }
    split; [done|]. by rewrite Hw2, Hnone, decide_True.
  - intros p Hp Hfail Hmiss. rewrite Hto2. apply list_elem_of_filter.
    split; [|done].
    destruct (next_run_kept L R source_dir file_types exclude_dirs cache_dir
                force1 verbose1 w1 (w_fs w2) Hjson Hcache Hdocs p Hp)
      as [-> _]; [|done].
    intros [_ Hok]. by rewrite Hfail in Hok.
Qed.

Lemma unchanged_documents_are_served_from_cache_witness :
  let all_files := collect_files Toy.two_pages "src" ["html"; "js"]
                     ["node_modules"] in
  let run1 := scan_directory_incremental Toy.lib Toy.rules "src"
                ["html"; "js"] ["node_modules"] None false false
                Toy.two_pages in
  let run2 := scan_directory_incremental Toy.lib Toy.rules "src"
                ["html"; "js"] ["node_modules"] None false false
                Toy.two_pages_cached in
  (forall p, p ∈ all_files ->
             w_fs Toy.two_pages_cached !! p = w_fs Toy.two_pages !! p)
  /\ (forall p, p ∈ all_files ->
                extracts Toy.lib Toy.rules (w_fs Toy.two_pages) p = true)
  /\ (r_strings run2.1, r_counts run2.1) = (r_strings run1.1, r_counts run1.1)
  /\ r_files_to_process run2.1 = [].
Proof.
  cbn zeta.
  assert (collect_files Toy.two_pages "src" ["html"; "js"] ["node_modules"]
          = ["src/a.html"; "src/b.html"]) as Hfiles
    by (vm_compute; reflexivity).
  assert (forall p,
             p ∈ collect_files Toy.two_pages "src" ["html"; "js"]
                   ["node_modules"] ->
             w_fs Toy.two_pages_cached !! p = w_fs Toy.two_pages !! p)
    as Hdocs.
  { apply Forall_forall. rewrite Hfiles.
    repeat constructor; vm_compute; reflexivity. }
  assert (forall p,
             p ∈ collect_files Toy.two_pages "src" ["html"; "js"]
                   ["node_modules"] ->
             extracts Toy.lib Toy.rules (w_fs Toy.two_pages) p = true) as Hok.
  { apply Forall_forall. rewrite Hfiles.
    repeat constructor; vm_compute; reflexivity. }
  pose proof (unchanged_documents_are_served_from_cache Toy.lib Toy.rules
                "src" ["html"; "js"] ["node_modules"] None false false false
                Toy.two_pages Toy.two_pages_cached toy_json_roundtrip
                (fun pattern => eq_refl) Hdocs eq_refl)
    as (_ & Hagg & Hnone & _).
  split_and!; [exact Hdocs|exact Hok|exact (Hagg (or_introl eq_refl))|].
  exact (proj1 (Hnone Hok)).
Defined.

(** C1 as stated does not hold: with one page readable and one that cannot
    be opened, and nothing changed between the runs, the second run still
    has a file to process; only the readable page is served from the
    cache. *)
Lemma unreadable_document_is_processed_again :
  let run1 := scan_directory_incremental Toy.lib Toy.rules "src" ["html"]
                ["node_modules"] None false false Toy.locked_page in
  let run2 := scan_directory_incremental Toy.lib Toy.rules "src" ["html"]
                ["node_modules"] None false false run1.2 in
  collect_files run1.2 "src" ["html"] ["node_modules"]
  = ["src/a.html"; "src/locked.html"]
  /\ w_fs run1.2 !! "src/a.html" = w_fs Toy.locked_page !! "src/a.html"
  /\ w_fs run1.2 !! "src/locked.html" = None
  /\ w_fs Toy.locked_page !! "src/locked.html" = None
  /\ r_files_to_process run1.1 = ["src/a.html"; "src/locked.html"]
  /\ r_files_to_process run2.1 = ["src/locked.html"]
  /\ r_cached_files run2.1 = 1
  /\ r_files_to_process run2.1 <> [].
Proof. vm_compute. repeat split; try reflexivity. discriminate. Qed.

(** ** Changed documents *)

(** C5, as the code has it.  Let run 1 have extracted document [d] or served
    it from its cache, and let run 2 start with the cache file run 1 left
    and find other bytes in [d], the two contents having different digests.
    Then the fingerprint of [d] in run 2 differs from the cached one, [d] is
    among the files run 2 processes, and, when its extraction succeeds, the
    entry the cache holds for [d] afterwards, in memory and in the file
    saved, carries the digest of the new bytes and the results extracted
    from the new bytes alone. *)
Theorem changed_document_is_extracted_again (L : PyLib) (R : RuleSet)
    (source_dir : Path) (file_types exclude_dirs : list string)
    (cache_dir : option string) (force1 verbose1 force2 verbose2 : bool)
    (w1 w2 : World) (d : Path) (old_data new_data : list byte) :
  let dir := cache_dir_or_default cache_dir in
  let run1 := scan_directory_incremental L R source_dir file_types
                exclude_dirs cache_dir force1 verbose1 w1 in
  let run2 := scan_directory_incremental L R source_dir file_types
                exclude_dirs cache_dir force2 verbose2 w2 in
  (forall cache : Cache,
      json_load L (concat (json_dump L cache)) = Some cache) ->
  w_fs w2 !! cache_path dir = w_fs run1.2 !! cache_path dir ->
  d ∈ collect_files w2 source_dir file_types exclude_dirs ->
  w_fs w1 !! d = Some old_data ->
  w_fs w2 !! d = Some new_data ->
  old_data <> new_data ->
  (md5_hexdigest L old_data = md5_hexdigest L new_data ->
   old_data = new_data) ->
  (d ∈ r_files_to_process run1.1 /\ extracts L R (w_fs w1) d = true)
  \/ is_hit L (load_cache L (w_fs w1) dir) (w_fs w1) d = true ->
  (exists entry : CacheEntry,
      load_cache L (w_fs w2) dir !! d = Some entry
      /\ e_hash entry = md5_hexdigest L old_data
      /\ calculate_file_hash L (w_fs w2) d <> e_hash entry)
  /\ is_hit L (load_cache L (w_fs w2) dir) (w_fs w2) d = false
  /\ d ∈ r_files_to_process run2.1
  /\ (extracts L R (w_fs w2) d = true ->
      exists t : nat,
        let entry :=
          {| e_hash := md5_hexdigest L new_data;
             e_timestamp := isoformat L t;
             e_results :=
               results_to_lists
                 (extract_from_file L R {[ d := new_data ]} d
                    (file_type_of d)) |} in
        r_cache run2.1 !! d = Some entry
        /\ load_cache L (w_fs run2.2) dir !! d = Some entry).
Proof.
  cbn zeta. intros Hjson Hcache Hin Hold Hnew Hdiff Hinj Hcached.
  pose proof (next_run_cache L R source_dir file_types exclude_dirs cache_dir
                force1 verbose1 w1 (w_fs w2) Hjson Hcache) as Hc2.
  cbn zeta in Hc2.
  destruct (scan_description L R source_dir file_types exclude_dirs
              cache_dir force1 verbose1 w1) as (_ & _ & Hwritten1 & Hother1 & _).
  destruct (scan_description L R source_dir file_types exclude_dirs
              cache_dir force2 verbose2 w2) as (Hto2 & _ & Hwritten2 & _).
  cbn zeta in *.
  assert (calculate_file_hash L (w_fs w1) d = md5_hexdigest L old_data) as Hh1
    by (unfold calculate_file_hash; by rewrite Hold).
  assert (calculate_file_hash L (w_fs w2) d = md5_hexdigest L new_data) as Hh2
    by (unfold calculate_file_hash; by rewrite Hnew).
  (* the entry run 2 loads for [d] carries the digest of the old bytes *)
  assert (exists entry : CacheEntry,
             load_cache L (w_fs w2) (cache_dir_or_default cache_dir) !! d
             = Some entry
             /\ e_hash entry = md5_hexdigest L old_data) as (entry & Hentry & Hhash).
  { rewrite Hc2.
    set (run1 := scan_directory_incremental L R source_dir file_types
                   exclude_dirs cache_dir force1 verbose1 w1) in *.
    destruct (decide (d ∈ r_files_to_process run1.1
                      /\ extracts L R (w_fs w1) d = true)) as [[Hp Hok]|Hnot].
    - destruct (Hwritten1 d Hp Hok) as [t Ht]. eexists. split; [exact Ht|].
      done.
    - destruct Hcached as [?|Hhit]; [done|].
      rewrite (Hother1 d Hnot). unfold is_hit in Hhit.
      destruct (load_cache L (w_fs w1) (cache_dir_or_default cache_dir) !! d)
        as [entry|]; [|done].
      exists entry. split; [done|].
      apply String.eqb_eq in Hhit. by rewrite Hhit. }
  assert (md5_hexdigest L new_data <> md5_hexdigest L old_data) as Hne
    by (intros Heq; apply Hdiff, Hinj; by symmetry).
  assert (is_hit L (load_cache L (w_fs w2) (cache_dir_or_default cache_dir))
                 (w_fs w2) d = false) as Hmiss.
  { unfold is_hit. rewrite Hentry, Hhash, Hh2.
    apply String.eqb_neq. by intros Heq. }
  assert (d ∈ r_files_to_process
                (scan_directory_incremental L R source_dir file_types
                   exclude_dirs cache_dir force2 verbose2 w2).1) as Hp2.
  { rewrite Hto2. destruct force2; [done|]. by apply list_elem_of_filter. }
  split_and!.
  - exists entry. split_and!; [done|done|]. by rewrite Hhash, Hh2.
  - done.
  - done.
  - intros Hok. destruct (Hwritten2 d Hp2 Hok) as [t Ht]. exists t.
    unfold entry_of in Ht. rewrite Hh2 in Ht.
    rewrite (extract_from_file_agree L R {[ d := new_data ]} (w_fs w2)) in Ht
      by (by rewrite lookup_singleton_eq).
    split; [done|].
    rewrite (next_run_cache L R source_dir file_types exclude_dirs cache_dir
               force2 verbose2 w2 _ Hjson eq_refl).
    done.
Qed.

Lemma changed_document_is_extracted_again_witness :
  let run1 := scan_directory_incremental Toy.lib Toy.rules "src" ["html"]
                ["node_modules"] None false false Toy.one_page in
  let w2 := Toy.rewrite_file "src/a.html" (Toy.bytes "Cancel") run1.2 in
  let run2 := scan_directory_incremental Toy.lib Toy.rules "src" ["html"]
                ["node_modules"] None false false w2 in
  w_fs Toy.one_page !! "src/a.html" = Some (Toy.bytes "Save")
  /\ w_fs w2 !! "src/a.html" = Some (Toy.bytes "Cancel")
  /\ Toy.bytes "Save" <> Toy.bytes "Cancel"
  /\ ("src/a.html" ∈ r_files_to_process run1.1
      /\ extracts Toy.lib Toy.rules (w_fs Toy.one_page) "src/a.html" = true)
  /\ "src/a.html" ∈ r_files_to_process run2.1.
Proof.
  cbn zeta.
  set (run1 := scan_directory_incremental Toy.lib Toy.rules "src" ["html"]
                 ["node_modules"] None false false Toy.one_page).
  set (w2 := Toy.rewrite_file "src/a.html" (Toy.bytes "Cancel") run1.2).
  assert (w_fs w2 !! cache_path (cache_dir_or_default None)
          = w_fs run1.2 !! cache_path (cache_dir_or_default None)) as Hcache
    by (apply lookup_insert_ne; discriminate).
  assert ("src/a.html" ∈ collect_files w2 "src" ["html"] ["node_modules"])
    as Hin.
  { assert (collect_files w2 "src" ["html"] ["node_modules"] = ["src/a.html"])
      as -> by (vm_compute; reflexivity).
    left. }
  assert (w_fs Toy.one_page !! "src/a.html" = Some (Toy.bytes "Save")) as Hold
    by (vm_compute; reflexivity).
  assert (w_fs w2 !! "src/a.html" = Some (Toy.bytes "Cancel")) as Hnew
    by apply lookup_insert_eq.
  assert (Toy.bytes "Save" <> Toy.bytes "Cancel") as Hdiff
    by (vm_compute; discriminate).
  assert (md5_hexdigest Toy.lib (Toy.bytes "Save")
          = md5_hexdigest Toy.lib (Toy.bytes "Cancel") ->
          Toy.bytes "Save" = Toy.bytes "Cancel") as Hinj
    by (vm_compute; discriminate).
  assert ("src/a.html" ∈ r_files_to_process run1.1
          /\ extracts Toy.lib Toy.rules (w_fs Toy.one_page) "src/a.html" = true)
    as Hcached.
  { split; [|vm_compute; reflexivity].
    assert (r_files_to_process run1.1 = ["src/a.html"]) as ->
      by (vm_compute; reflexivity).
    left. }
  split_and!; [exact Hold|exact Hnew|exact Hdiff|apply Hcached..|].
  exact (proj1 (proj2 (proj2
    (changed_document_is_extracted_again Toy.lib Toy.rules "src" ["html"]
       ["node_modules"] None false false false false Toy.one_page w2
       "src/a.html" (Toy.bytes "Save") (Toy.bytes "Cancel")
       toy_json_roundtrip Hcache Hin Hold Hnew Hdiff Hinj
       (or_introl Hcached))))).
Defined.

(** C5 as stated does not hold: a page is cached, then holds bytes that do
    not decode during run 1 (its extraction fails and its entry is kept),
    then holds its first bytes again in run 2.  Its content differs between
    run 1 and run 2, yet in run 2 its fingerprint equals the cached one and
    it is served from the cache, not extracted again. *)
Lemma reverted_document_is_served_from_cache :
  let scan := scan_directory_incremental Toy.lib Toy.rules "src" ["html"]
                ["node_modules"] None false false in
  let w1 := Toy.rewrite_file "src/a.html" [Byte.xff]
              (scan Toy.one_page).2 in
  let run1 := scan w1 in
  let w2 := Toy.rewrite_file "src/a.html" (Toy.bytes "Save") run1.2 in
  let run2 := scan w2 in
  w_fs w1 !! "src/a.html" = Some [Byte.xff]
  /\ w_fs w2 !! "src/a.html" = Some (Toy.bytes "Save")
  /\ w_fs w1 !! "src/a.html" <> w_fs w2 !! "src/a.html"
  /\ r_files_to_process run1.1 = ["src/a.html"]
  /\ extracts Toy.lib Toy.rules (w_fs w1) "src/a.html" = false
  /\ e_hash
       <$> load_cache Toy.lib (w_fs w2) (cache_dir_or_default None)
             !! "src/a.html"
     = Some (calculate_file_hash Toy.lib (w_fs w2) "src/a.html")
  /\ r_files_to_process run2.1 = []
  /\ r_cached_files run2.1 = 1.
Proof. vm_compute. repeat split; try reflexivity. discriminate. Qed.

(** ** Saving the cache *)

Lemma save_cache_ops_length (L : PyLib) (cache : Cache) (cache_dir : string) :
  length (save_cache_ops L cache cache_dir) = length (json_dump L cache) + 3.
Proof.
  unfold save_cache_ops. cbn [app length].
  rewrite length_app, length_fmap. cbn [length]. lia.
Qed.

(** C2, as the code has it.  [save_cache] writes the cache file in place: it
    creates the directory, opens the cache file for writing, which empties
    it, and writes the chunks of the serialisation one after the other.  No
    other path is opened and nothing is renamed.  Stopped before the file is
    opened, the disk is untouched; stopped later, the cache file holds the
    chunks written so far, a prefix of the new version, and the previous
    version is gone; run to its end, it holds the whole new version. *)
Theorem save_cache_writes_in_place (L : PyLib) (cache : Cache)
    (cache_dir : string) (fs : Files) (k : nat) :
  let path := cache_path cache_dir in
  save_cache_ops L cache cache_dir
  = [Makedirs cache_dir; OpenTruncate path]
    ++ (WriteChunk path <$> json_dump L cache) ++ [CloseFile path]
  /\ save_cache_interrupted L 0 cache cache_dir fs = fs
  /\ save_cache_interrupted L 1 cache cache_dir fs = fs
  /\ save_cache_interrupted L (S (S k)) cache cache_dir fs
     = <[path := concat (take k (json_dump L cache))]> fs
  /\ save_cache_interrupted L 2 cache cache_dir fs = <[path := []]> fs
  /\ save_cache L cache cache_dir fs
     = <[path := concat (json_dump L cache)]> fs
  /\ save_cache_interrupted L (length (save_cache_ops L cache cache_dir))
       cache cache_dir fs
     = save_cache L cache cache_dir fs
  /\ (forall other : Path,
        other <> path ->
        save_cache_interrupted L k cache cache_dir fs !! other = fs !! other).
Proof.
  cbn zeta. split_and!.
  - reflexivity.
  - reflexivity.
  - reflexivity.
  - apply save_cache_interrupted_prefix.
  - by rewrite save_cache_interrupted_prefix.
  - apply save_cache_written.
  - unfold save_cache_interrupted, save_cache. by rewrite firstn_all.
  - intros other Hother. destruct k as [|[|k]]; [done|done|].
    rewrite save_cache_interrupted_prefix. by apply lookup_insert_ne.
Qed.

(** C2 as stated does not hold: a cache file holding a complete one-entry
    cache is being replaced by a two-entry cache when the process stops
    right after the file is opened.  The file is then empty: neither the
    previous version nor the new one, and the next load finds no entry. *)
Lemma interrupted_save_leaves_truncated_file :
  let path := cache_path CACHE_DIR in
  let fs : Files := {[ path := concat (json_dump Toy.lib Toy.cache_one) ]} in
  let stopped :=
    save_cache_interrupted Toy.lib 2 Toy.cache_two CACHE_DIR fs in
  let saved := save_cache Toy.lib Toy.cache_two CACHE_DIR fs in
  load_cache Toy.lib fs CACHE_DIR = Toy.cache_one
  /\ load_cache Toy.lib saved CACHE_DIR = Toy.cache_two
  /\ stopped !! path = Some []
  /\ stopped !! path <> fs !! path
  /\ stopped !! path <> saved !! path
  /\ load_cache Toy.lib stopped CACHE_DIR = ∅
  /\ load_cache Toy.lib stopped CACHE_DIR !! "src/a.html" = None
  /\ is_Some (Toy.cache_one !! "src/a.html")
  /\ is_Some (Toy.cache_two !! "src/a.html").
Proof.
  cbn zeta.
  set (path := cache_path CACHE_DIR).
  set (fs := {[ path := concat (json_dump Toy.lib Toy.cache_one) ]} : Files).
  assert (save_cache_interrupted Toy.lib 2 Toy.cache_two CACHE_DIR fs !! path
          = Some []) as Hstopped.
  { rewrite (save_cache_interrupted_prefix Toy.lib 0). apply lookup_insert_eq. }
  assert (load_cache Toy.lib
            (save_cache_interrupted Toy.lib 2 Toy.cache_two CACHE_DIR fs)
            CACHE_DIR = ∅) as Hload.
  { unfold load_cache. fold path. by rewrite Hstopped. }
  split_and!.
  - unfold load_cache. fold path. unfold fs.
    by rewrite lookup_singleton_eq, toy_json_roundtrip.
  - unfold load_cache. fold path.
    by rewrite save_cache_written, lookup_insert_eq, toy_json_roundtrip.
  - exact Hstopped.
  - rewrite Hstopped. unfold fs. rewrite lookup_singleton_eq. discriminate.
  - rewrite Hstopped, save_cache_written. fold path.
    rewrite lookup_insert_eq. discriminate.
  - exact Hload.
  - by rewrite Hload.
  - unfold Toy.cache_one. rewrite lookup_singleton_eq. eauto.
  - unfold Toy.cache_two, Toy.cache_one.
    rewrite lookup_insert_ne by discriminate.
    rewrite lookup_singleton_eq. eauto.
Qed.

(** ** Three runs

    Two pages with the same button; a first run, a second run with nothing
    changed, and a third after the second page is rewritten. *)
Example three_runs :
  let scan := scan_directory_incremental Toy.lib Toy.rules "src" ["html"]
                ["node_modules"] None false false in
  let run1 := scan Toy.two_pages in
  let run2 := scan run1.2 in
  let run3 := scan (Toy.rewrite_file "src/b.html" (Toy.bytes "Cancel") run2.2) in
  (size (default ∅ (r_strings run1.1 !! "buttons")) = 1
   /\ r_counts run1.1 !! "buttons" = Some 2
   /\ r_cached_files run1.1 = 0
   /\ r_files_to_process run1.1 = ["src/a.html"; "src/b.html"]
   /\ size (r_cache run1.1) = 2)
  /\ (size (default ∅ (r_strings run2.1 !! "buttons")) = 1
      /\ r_counts run2.1 !! "buttons" = Some 2
      /\ r_cached_files run2.1 = 2
      /\ r_files_to_process run2.1 = [])
  /\ (size (default ∅ (r_strings run3.1 !! "buttons")) = 2
      /\ r_counts run3.1 !! "buttons" = Some 2
      /\ r_cached_files run3.1 = 1
      /\ r_files_to_process run3.1 = ["src/b.html"]).
Proof. vm_compute. repeat split; reflexivity. Qed.

(** * Further properties of the scans *)

(** ** Statistics of a run *)

(** The percentage is [cached_files*100//total_files], rounded down. *)
Example statistics_percentage :
  statistics_lines 7 5 2
  = ["[*] Cache Statistics:"; "  Total files: 7"; "  Cached files: 5 (71%)";
     "  New/changed files: 2"; "[FAST] Using cached results for 5 files"]
  /\ statistics_lines 3 3 0
     = ["[*] Cache Statistics:"; "  Total files: 3";
        "  Cached files: 3 (100%)"; "  New/changed files: 0";
        "[FAST] Using cached results for 3 files"]
  /\ statistics_lines 2 0 2
     = ["[*] Cache Statistics:"; "  Total files: 2"; "  Cached files: 0 (0%)";
        "  New/changed files: 2"].
Proof. vm_compute. repeat split; reflexivity. Qed.

Lemma length_filter_split (f : Path -> bool) (files : list Path) :
  length (filter (fun p => f p = true) files)
  + length (filter (fun p => f p = false) files)
  = length files.
Proof.
  induction files as [|p files IH]; [done|].
  rewrite !filter_cons. destruct (f p).
  - rewrite decide_True, decide_False by done. cbn [length]. lia.
  - rewrite decide_False, decide_True by done. cbn [length]. lia.
Qed.

Section Statistics.

Context (L : PyLib) (R : RuleSet).

Lemma scan_cached_files (source_dir : Path)
    (file_types exclude_dirs : list string) (cache_dir : option string)
    (force_rescan verbose : bool) (w : World) :
  let cache := load_cache L (w_fs w) (cache_dir_or_default cache_dir) in
  let all_files := collect_files w source_dir file_types exclude_dirs in
  r_cached_files
    (scan_directory_incremental L R source_dir file_types exclude_dirs
       cache_dir force_rescan verbose w).1
  = if force_rescan then 0
    else length (filter (fun p => is_hit L cache (w_fs w) p = true) all_files).
Proof.
  cbn zeta. unfold scan_directory_incremental.
  destruct (collect_files w source_dir file_types exclude_dirs)
    as [|p0 files0] eqn:Hall.
  { cbn [fst r_cached_files]. by destruct force_rescan. }
  rewrite <- Hall. clear Hall. cbn zeta. destruct force_rescan.
  - cbn [c_files_to_process c_cached_files].
    by destruct (decide _); cbn zeta; cbn [fst r_cached_files].
  - destruct (classify_fold L
                (load_cache L (w_fs w) (cache_dir_or_default cache_dir))
                (w_fs w)
                (collect_files w source_dir file_types exclude_dirs)
                {| c_strings := ∅; c_counts := ∅; c_files_to_process := [];
                   c_cached_files := 0 |}) as (_ & _ & Hcnt).
    cbn [c_cached_files] in Hcnt. cbn zeta in Hcnt.
    by destruct (decide _); cbn zeta; cbn [fst r_cached_files].
Qed.

Lemma scan_log_with_processing (source_dir : Path)
    (file_types exclude_dirs : list string) (cache_dir : option string)
    (force_rescan verbose : bool) (w : World) :
  let run := scan_directory_incremental L R source_dir file_types exclude_dirs
               cache_dir force_rescan verbose w in
  r_files_to_process run.1 <> [] -> "[OK] Cache updated" ∈ r_log run.1.
Proof.
  cbn zeta. unfold scan_directory_incremental.
  destruct (collect_files w source_dir file_types exclude_dirs)
    as [|p0 files0].
  { cbn [fst r_files_to_process]. done. }
  cbn zeta. destruct force_rescan.
  - cbn [c_files_to_process]. rewrite decide_True by (cbn [length]; lia).
    cbn zeta. cbn [fst r_log]. intros _. apply elem_of_app. right. left.
  - set (st := foldl _ _ _).
    destruct (decide (0 < length (c_files_to_process st))) as [Hpos|Hzero];
      cbn zeta; cbn [fst r_files_to_process r_log].
    + intros _. apply elem_of_app. right. left.
    + intros Hne. destruct (c_files_to_process st); [done|].
      cbn [length] in Hzero. lia.
Qed.

End Statistics.

(** X1.  The two numbers a run prints add up: the files served from the
    cache and the files to process are together the files discovered, with
    or without force-rescan; the files served are the hits, none when the
    run is forced. *)
Theorem cached_and_new_files_add_up (L : PyLib) (R : RuleSet)
    (source_dir : Path) (file_types exclude_dirs : list string)
    (cache_dir : option string) (force_rescan verbose : bool) (w : World) :
  let cache := load_cache L (w_fs w) (cache_dir_or_default cache_dir) in
  let all_files := collect_files w source_dir file_types exclude_dirs in
  let run := scan_directory_incremental L R source_dir file_types exclude_dirs
               cache_dir force_rescan verbose w in
  r_cached_files run.1 + length (r_files_to_process run.1) = length all_files
  /\ r_cached_files run.1
     = (if force_rescan then 0
        else length (filter (fun p => is_hit L cache (w_fs w) p = true)
                            all_files))
  /\ (forall p, p ∈ r_files_to_process run.1 -> p ∈ all_files).
Proof.
  cbn zeta.
  destruct (scan_description L R source_dir file_types exclude_dirs
              cache_dir force_rescan verbose w) as (Hto & _).
  pose proof (scan_cached_files L R source_dir file_types exclude_dirs
                cache_dir force_rescan verbose w) as Hcnt.
  cbn zeta in *. rewrite Hto, Hcnt. split_and!.
  - destruct force_rescan; [done|]. apply length_filter_split.
  - done.
  - intros p Hp. destruct force_rescan; [done|].
    by apply list_elem_of_filter in Hp as [_ Hp].
Qed.

(** ** What a run writes *)

(** X2.  A run writes one file at most, the cache file: every other path
    holds after the run what it held before.  The cache file is written
    exactly when there is a file to process, with the serialisation of the
    cache the run holds when it returns, and the update message is printed
    exactly then; otherwise the machine is left as it was. *)
Theorem run_writes_the_cache_file_only (L : PyLib) (R : RuleSet)
    (source_dir : Path) (file_types exclude_dirs : list string)
    (cache_dir : option string) (force_rescan verbose : bool) (w : World) :
  let path := cache_path (cache_dir_or_default cache_dir) in
  let run := scan_directory_incremental L R source_dir file_types exclude_dirs
               cache_dir force_rescan verbose w in
  (forall other : Path, other <> path ->
                        w_fs run.2 !! other = w_fs w !! other)
  /\ (r_files_to_process run.1 <> [] ->
      w_fs run.2 !! path = Some (concat (json_dump L (r_cache run.1)))
      /\ "[OK] Cache updated" ∈ r_log run.1)
  /\ (r_files_to_process run.1 = [] ->
      run.2 = w /\ ("[OK] Cache updated" ∉ r_log run.1)).
Proof.
  cbn zeta.
  destruct (scan_description L R source_dir file_types exclude_dirs
              cache_dir force_rescan verbose w) as (_ & _ & _ & _ & Hw).
  pose proof (scan_log_with_processing L R source_dir file_types exclude_dirs
                cache_dir force_rescan verbose w) as Hlog1.
  pose proof (scan_log_without_processing L R source_dir file_types
                exclude_dirs cache_dir force_rescan verbose w) as Hlog0.
  cbn zeta in *. rewrite Hw. split_and!.
  - intros other Hother. destruct (decide _); [done|].
    cbn [w_fs]. by apply lookup_insert_ne.
  - intros Hsome. rewrite decide_False by done. cbn [w_fs].
    split; [apply lookup_insert_eq|by apply Hlog1].
  - intros Hnone. rewrite decide_True by done. split; [done|by apply Hlog0].
Qed.

(** X3.  A run never drops a cache entry.  The cache it returns holds an
    entry for a path exactly when the loaded cache held one or the path was
    processed with success; the entry of any other path, that of a file no
    longer discovered in particular, is the loaded one unchanged, and a
    processed path carries the fingerprint and results of its present
    content. *)
Theorem cache_entries_are_kept (L : PyLib) (R : RuleSet)
    (source_dir : Path) (file_types exclude_dirs : list string)
    (cache_dir : option string) (force_rescan verbose : bool) (w : World)
    (file_str : string) :
  let cache := load_cache L (w_fs w) (cache_dir_or_default cache_dir) in
  let all_files := collect_files w source_dir file_types exclude_dirs in
  let run := scan_directory_incremental L R source_dir file_types exclude_dirs
               cache_dir force_rescan verbose w in
  (is_Some (r_cache run.1 !! file_str)
   <-> is_Some (cache !! file_str)
       \/ (file_str ∈ r_files_to_process run.1
           /\ extracts L R (w_fs w) file_str = true))
  /\ (file_str ∉ all_files -> r_cache run.1 !! file_str = cache !! file_str)
  /\ (file_str ∈ r_files_to_process run.1 ->
      extracts L R (w_fs w) file_str = true ->
      exists entry : CacheEntry,
        r_cache run.1 !! file_str = Some entry
        /\ e_hash entry = calculate_file_hash L (w_fs w) file_str
        /\ e_results entry
           = results_to_lists
               (extract_from_file L R (w_fs w) file_str
                  (file_type_of file_str))).
Proof.
  cbn zeta.
  destruct (scan_description L R source_dir file_types exclude_dirs
              cache_dir force_rescan verbose w)
    as (Hto & _ & Hwritten & Hother & _).
  cbn zeta in *.
  set (run := scan_directory_incremental L R source_dir file_types
                exclude_dirs cache_dir force_rescan verbose w) in *.
  split_and!.
  - destruct (decide (file_str ∈ r_files_to_process run.1
                      /\ extracts L R (w_fs w) file_str = true))
      as [[Hin Hok]|Hnot].
    + destruct (Hwritten file_str Hin Hok) as [t ->]. split; eauto.
    + rewrite (Hother file_str Hnot). split; [by left|].
      by intros [?|?].
  - intros Hout. apply Hother. intros [Hin _]. apply Hout.
    rewrite Hto in Hin. destruct force_rescan; [done|].
    by apply list_elem_of_filter in Hin as [_ Hin].
  - intros Hin Hok. destruct (Hwritten file_str Hin Hok) as [t Ht].
    eexists. split; [exact Ht|]. done.
Qed.

(** ** Categories of the aggregate *)

Lemma absorb_all_same_keys (cs : list Contribution) (category : string) :
  is_Some ((absorb_all cs (∅, ∅)).1 !! category)
  <-> is_Some ((absorb_all cs (∅, ∅)).2 !! category).
Proof.
  rewrite absorb_all_strings_key, absorb_all_counts_key. cbn [fst snd].
  rewrite !lookup_empty.
  split; (intros [[? ?]|?]; [done|by right]).
Qed.

(** X4.  The two dictionaries a scan returns have the same categories: a
    category has a set of strings exactly when it has a count, in the
    incremental and in the parallel scan. *)
Theorem strings_and_counts_share_categories (L : PyLib) (R : RuleSet)
    (source_dir : Path) (file_types exclude_dirs : list string)
    (cache_dir : option string) (force_rescan verbose : bool)
    (workers : option positive)
    (schedule : list (Path * string) -> list (Path * string)) (w : World) :
  let run := scan_directory_incremental L R source_dir file_types exclude_dirs
               cache_dir force_rescan verbose w in
  let fast := scan_directory_parallel L R source_dir file_types exclude_dirs
                workers verbose schedule w in
  dom (r_strings run.1) = dom (r_counts run.1)
  /\ dom fast.1.1 = dom fast.1.2.
Proof.
  cbn zeta. split.
  - destruct (scan_description L R source_dir file_types exclude_dirs
                cache_dir force_rescan verbose w) as (_ & Hagg & _).
    cbn zeta in Hagg. apply set_eq. intros category.
    rewrite !elem_of_dom.
    change (r_strings ?r) with ((r_strings r, r_counts r).1).
    change (r_counts ?r) with ((r_strings r, r_counts r).2) at 2.
    rewrite Hagg. apply absorb_all_same_keys.
  - apply set_eq. intros category. rewrite !elem_of_dom.
    rewrite scan_parallel_aggregate. apply absorb_all_same_keys.
Qed.

(** ** What a run reads of the cache *)

Section CacheReads.

Context (L : PyLib) (R : RuleSet).

Lemma is_hit_local (cache1 cache2 : Cache) (fs1 fs2 : Files) (p : Path) :
  cache2 !! p = cache1 !! p -> fs2 !! p = fs1 !! p ->
  is_hit L cache2 fs2 p = is_hit L cache1 fs1 p.
Proof.
  intros Hc Hf. unfold is_hit.
  by rewrite Hc, (calculate_file_hash_agree L fs1 fs2).
Qed.

Lemma run_contribution_local (cache1 cache2 : Cache) (fs1 fs2 : Files)
    (force_rescan : bool) (p : Path) :
  force_rescan = true \/ cache2 !! p = cache1 !! p ->
  fs2 !! p = fs1 !! p ->
  run_contribution L R cache2 fs2 force_rescan p
  = run_contribution L R cache1 fs1 force_rescan p.
Proof.
  intros Hc Hf. unfold run_contribution.
  rewrite (fresh_contribution_agree L R fs1 fs2) by done.
  destruct force_rescan; [done|]. destruct Hc as [?|Hc]; [done|].
  rewrite (is_hit_local cache1 cache2 fs1 fs2) by done.
  unfold cached_contribution. by rewrite Hc.
Qed.

End CacheReads.

(** X5.  A run reads of the cache only the entries of the files it
    discovers, and none at all when it is forced.  On two machines with the
    same listing and the same bytes in the discovered files, whose caches
    agree on the discovered files (or whatever the caches, under
    force-rescan), the files to process, the number of files served from
    the cache, the strings and the counts are the same: an entry left for a
    file that is no longer listed never shows in the result. *)
Theorem scan_reads_discovered_entries_only (L : PyLib) (R : RuleSet)
    (source_dir : Path) (file_types exclude_dirs : list string)
    (cache_dir : option string) (force_rescan verbose : bool)
    (w1 w2 : World) :
  let dir := cache_dir_or_default cache_dir in
  let all_files := collect_files w1 source_dir file_types exclude_dirs in
  let run1 := scan_directory_incremental L R source_dir file_types
                exclude_dirs cache_dir force_rescan verbose w1 in
  let run2 := scan_directory_incremental L R source_dir file_types
                exclude_dirs cache_dir force_rescan verbose w2 in
  (forall pattern,
      w_rglob w2 source_dir pattern = w_rglob w1 source_dir pattern) ->
  (forall p, p ∈ all_files -> w_fs w2 !! p = w_fs w1 !! p) ->
  force_rescan = true
  \/ (forall p, p ∈ all_files ->
                load_cache L (w_fs w2) dir !! p
                = load_cache L (w_fs w1) dir !! p) ->
  r_files_to_process run2.1 = r_files_to_process run1.1
  /\ r_cached_files run2.1 = r_cached_files run1.1
  /\ r_strings run2.1 = r_strings run1.1
  /\ r_counts run2.1 = r_counts run1.1.
Proof.
  cbn zeta. intros Hls Hdocs Hcache.
  destruct (scan_description L R source_dir file_types exclude_dirs
              cache_dir force_rescan verbose w1) as (Hto1 & Hagg1 & _).
  destruct (scan_description L R source_dir file_types exclude_dirs
              cache_dir force_rescan verbose w2) as (Hto2 & Hagg2 & _).
  pose proof (scan_cached_files L R source_dir file_types exclude_dirs
                cache_dir force_rescan verbose w1) as Hcnt1.
  pose proof (scan_cached_files L R source_dir file_types exclude_dirs
                cache_dir force_rescan verbose w2) as Hcnt2.
  cbn zeta in *.
  rewrite (collect_files_ext w1 w2 _ _ _ Hls) in Hto2, Hagg2, Hcnt2.
  assert ((r_strings
             (scan_directory_incremental L R source_dir file_types
                exclude_dirs cache_dir force_rescan verbose w2).1,
           r_counts
             (scan_directory_incremental L R source_dir file_types
                exclude_dirs cache_dir force_rescan verbose w2).1)
          = (r_strings
               (scan_directory_incremental L R source_dir file_types
                  exclude_dirs cache_dir force_rescan verbose w1).1,
             r_counts
               (scan_directory_incremental L R source_dir file_types
                  exclude_dirs cache_dir force_rescan verbose w1).1)) as Hagg.
  { rewrite Hagg1, Hagg2. f_equal. apply fmap_pointwise. intros p Hp.
    apply run_contribution_local; [|by apply Hdocs].
    destruct Hcache as [?|Hcache]; [by left|right; by apply Hcache]. }
  injection Hagg as Hs Hc. rewrite Hto1, Hto2, Hcnt1, Hcnt2.
  split_and!; [|
               |done|done].
  - destruct force_rescan; [done|]. destruct Hcache as [?|Hcache]; [done|].
    apply filter_pointwise. intros p Hp.
    apply is_hit_local; [by apply Hcache|by apply Hdocs].
  - destruct force_rescan; [done|]. destruct Hcache as [?|Hcache]; [done|].
    f_equal. apply filter_pointwise. intros p Hp.
    apply is_hit_local; [by apply Hcache|by apply Hdocs].
Qed.

Lemma scan_reads_discovered_entries_only_witness :
  let all_files := collect_files Toy.two_pages_cached "src" ["html"; "js"]
                     ["node_modules"] in
  let run1 := scan_directory_incremental Toy.lib Toy.rules "src"
                ["html"; "js"] ["node_modules"] None false false
                Toy.two_pages_cached in
  let run2 := scan_directory_incremental Toy.lib Toy.rules "src"
                ["html"; "js"] ["node_modules"] None false false
                Toy.two_pages_stale in
  is_Some (load_cache Toy.lib (w_fs Toy.two_pages_stale) CACHE_DIR
             !! "src/gone.html")
  /\ (forall p, p ∈ all_files ->
                w_fs Toy.two_pages_stale !! p = w_fs Toy.two_pages_cached !! p)
  /\ (forall p, p ∈ all_files ->
                load_cache Toy.lib (w_fs Toy.two_pages_stale)
                  (cache_dir_or_default None) !! p
                = load_cache Toy.lib (w_fs Toy.two_pages_cached)
                    (cache_dir_or_default None) !! p)
  /\ r_strings run2.1 = r_strings run1.1
  /\ r_counts run2.1 = r_counts run1.1.
Proof.
  cbn zeta.
  assert (collect_files Toy.two_pages_cached "src" ["html"; "js"]
            ["node_modules"] = ["src/a.html"; "src/b.html"]) as Hfiles
    by (vm_compute; reflexivity).
  assert (load_cache Toy.lib (w_fs Toy.two_pages_stale) CACHE_DIR
          = <["src/gone.html" :=
                {| e_hash := Toy.digest (Toy.bytes "Gone");
                   e_timestamp := "T9";
                   e_results := {[ "buttons" := ["Gone"] ]} |}]>
              (load_cache Toy.lib (w_fs Toy.two_pages_cached) CACHE_DIR))
    as Hstale.
  { unfold load_cache at 1. unfold Toy.two_pages_stale, Toy.rewrite_file.
    cbn [w_fs]. rewrite lookup_insert_eq.
    change Toy.dump with (json_dump Toy.lib).
    by rewrite toy_json_roundtrip. }
  assert (forall p,
             p ∈ collect_files Toy.two_pages_cached "src" ["html"; "js"]
                   ["node_modules"] ->
             w_fs Toy.two_pages_stale !! p = w_fs Toy.two_pages_cached !! p)
    as Hdocs.
  { rewrite Hfiles. intros p Hp. unfold Toy.two_pages_stale, Toy.rewrite_file.
    cbn [w_fs]. apply lookup_insert_ne. intros <-.
    apply elem_of_cons in Hp as [Hp|Hp]; [discriminate Hp|].
    apply elem_of_cons in Hp as [Hp|Hp]; [discriminate Hp|]. by inversion Hp. }
  assert (forall p,
             p ∈ collect_files Toy.two_pages_cached "src" ["html"; "js"]
                   ["node_modules"] ->
             load_cache Toy.lib (w_fs Toy.two_pages_stale)
               (cache_dir_or_default None) !! p
             = load_cache Toy.lib (w_fs Toy.two_pages_cached)
                 (cache_dir_or_default None) !! p) as Hcache.
  { rewrite Hfiles. intros p Hp.
    change (cache_dir_or_default None) with CACHE_DIR. rewrite Hstale.
    apply lookup_insert_ne. intros <-.
    apply elem_of_cons in Hp as [Hp|Hp]; [discriminate Hp|].
    apply elem_of_cons in Hp as [Hp|Hp]; [discriminate Hp|]. by inversion Hp. }
  pose proof (scan_reads_discovered_entries_only Toy.lib Toy.rules "src"
                ["html"; "js"] ["node_modules"] None false false
                Toy.two_pages_cached Toy.two_pages_stale
                (fun pattern => eq_refl) Hdocs (or_intror Hcache))
    as (_ & _ & Hs & Hc).
  split_and!; [|exact Hdocs|exact Hcache|exact Hs|exact Hc].
  rewrite Hstale, lookup_insert_eq. eauto.
Defined.

(** ** Persistence *)

(** X6.  What a run leaves on disk is the cache it held when it returned:
    provided [json.load] reads back what [json.dump] wrote, loading the
    cache file after the run gives the cache of the run, the kept entries
    with their old timestamps and the new ones alike, whether or not the
    run wrote the file. *)
Theorem saved_cache_is_loaded_back (L : PyLib) (R : RuleSet)
    (source_dir : Path) (file_types exclude_dirs : list string)
    (cache_dir : option string) (force_rescan verbose : bool) (w : World) :
  let dir := cache_dir_or_default cache_dir in
  let run := scan_directory_incremental L R source_dir file_types exclude_dirs
               cache_dir force_rescan verbose w in
  (forall cache : Cache,
      json_load L (concat (json_dump L cache)) = Some cache) ->
  load_cache L (w_fs run.2) dir = r_cache run.1.
Proof.
  cbn zeta. intros Hjson.
  exact (next_run_cache L R source_dir file_types exclude_dirs cache_dir
           force_rescan verbose w _ Hjson eq_refl).
Qed.

Lemma saved_cache_is_loaded_back_witness :
  let run := scan_directory_incremental Toy.lib Toy.rules "src"
               ["html"; "js"] ["node_modules"] None false false
               Toy.two_pages in
  (forall cache : Cache,
      json_load Toy.lib (concat (json_dump Toy.lib cache)) = Some cache)
  /\ load_cache Toy.lib (w_fs run.2) (cache_dir_or_default None)
     = r_cache run.1.
Proof.
  cbn zeta. split; [exact toy_json_roundtrip|].
  exact (saved_cache_is_loaded_back Toy.lib Toy.rules "src" ["html"; "js"]
           ["node_modules"] None false false Toy.two_pages
           toy_json_roundtrip).
Defined.

(** ** Hits and the rule set *)

(** X7.  The rule set is consulted for the files to process only.  Which
    files are hits does not depend on it; and with force-rescan off, when
    every discovered file is a hit, two rule sets give the same run
    altogether: the same report, strings, counts and printed lines, and the
    same machine.  A change of rules is not seen until a file changes or
    the scan is forced. *)
Theorem hits_do_not_consult_the_rules (L : PyLib) (R1 R2 : RuleSet)
    (source_dir : Path) (file_types exclude_dirs : list string)
    (cache_dir : option string) (verbose : bool) (w : World) :
  let cache := load_cache L (w_fs w) (cache_dir_or_default cache_dir) in
  let all_files := collect_files w source_dir file_types exclude_dirs in
  (forall p, p ∈ all_files -> is_hit L cache (w_fs w) p = true) ->
  scan_directory_incremental L R1 source_dir file_types exclude_dirs
    cache_dir false verbose w
  = scan_directory_incremental L R2 source_dir file_types exclude_dirs
      cache_dir false verbose w.
Proof.
  cbn zeta. intros Hall. unfold scan_directory_incremental.
  destruct (collect_files w source_dir file_types exclude_dirs)
    as [|p0 files0] eqn:Hfiles; [done|].
  rewrite <- Hfiles in *. clear Hfiles. cbn zeta.
  destruct (classify_fold L
              (load_cache L (w_fs w) (cache_dir_or_default cache_dir))
              (w_fs w) (collect_files w source_dir file_types exclude_dirs)
              {| c_strings := ∅; c_counts := ∅; c_files_to_process := [];
                 c_cached_files := 0 |}) as (Hto & _).
  cbn zeta in Hto. cbn [c_files_to_process app] in Hto.
  rewrite (filter_misses_nil _ _ Hall) in Hto.
  rewrite Hto. cbn [length]. by rewrite decide_False by lia.
Qed.

Lemma hits_do_not_consult_the_rules_witness :
  (forall p,
      p ∈ collect_files Toy.two_pages_cached "src" ["html"; "js"]
            ["node_modules"] ->
      is_hit Toy.lib
        (load_cache Toy.lib (w_fs Toy.two_pages_cached)
           (cache_dir_or_default None))
        (w_fs Toy.two_pages_cached) p = true)
  /\ scan_directory_incremental Toy.lib Toy.rules "src" ["html"; "js"]
       ["node_modules"] None false false Toy.two_pages_cached
     = scan_directory_incremental Toy.lib Toy.no_rules "src" ["html"; "js"]
         ["node_modules"] None false false Toy.two_pages_cached.
Proof.
  assert (forall p,
      p ∈ collect_files Toy.two_pages_cached "src" ["html"; "js"]
            ["node_modules"] ->
      is_hit Toy.lib
        (load_cache Toy.lib (w_fs Toy.two_pages_cached)
           (cache_dir_or_default None))
        (w_fs Toy.two_pages_cached) p = true) as Hall.
  { apply Forall_forall.
    assert (collect_files Toy.two_pages_cached "src" ["html"; "js"]
              ["node_modules"] = ["src/a.html"; "src/b.html"]) as ->
      by (vm_compute; reflexivity).
    repeat constructor; vm_compute; reflexivity. }
  split; [exact Hall|].
  exact (hits_do_not_consult_the_rules Toy.lib Toy.rules Toy.no_rules "src"
           ["html"; "js"] ["node_modules"] None false Toy.two_pages_cached
           Hall).
Defined.

(** ** A file type given twice *)

Lemma occurrences_app (cs1 cs2 : list Contribution) (k : string) :
  occurrences (cs1 ++ cs2) k = occurrences cs1 k + occurrences cs2 k.
Proof.
  induction cs1 as [|c cs1 IH]; [done|].
  cbn [app]. rewrite !occurrences_cons, IH. lia.
Qed.

Lemma fragments_app (cs1 cs2 : list Contribution) (k : string) :
  fragments (cs1 ++ cs2) k = fragments cs1 k ∪ fragments cs2 k.
Proof.
  induction cs1 as [|c cs1 IH].
  - cbn [app]. by rewrite fragments_nil, (left_id_L ∅ (∪)).
  - cbn [app]. by rewrite !fragments_cons, IH, (assoc_L (∪)).
Qed.

Lemma option_eq_default {A} (d : A) (a b : option A) :
  (is_Some a <-> is_Some b) -> default d a = default d b -> a = b.
Proof.
  destruct a, b; cbn; intros Hsome Heq; try congruence.
  - destruct Hsome as [Hsome _]. by destruct Hsome.
  - destruct Hsome as [_ Hsome]. by destruct Hsome.
Qed.

Lemma collect_files_app (w : World) (source_dir : Path)
    (types1 types2 exclude_dirs : list string) :
  collect_files w source_dir (types1 ++ types2) exclude_dirs
  = collect_files w source_dir types1 exclude_dirs
    ++ collect_files w source_dir types2 exclude_dirs.
Proof.
  unfold collect_files. induction types1 as [|ft fts IH]; [done|].
  cbn [app mbind list_bind]. by rewrite IH, app_assoc.
Qed.

(** X8.  A file type given twice makes every file it matches be discovered
    twice, and the scan does not deduplicate the files: the files to
    process are listed twice, the strings are those of the scan with the
    type given once, and every count is doubled. *)
Theorem repeated_file_types_double_the_counts (L : PyLib) (R : RuleSet)
    (source_dir : Path) (file_types exclude_dirs : list string)
    (cache_dir : option string) (force_rescan verbose : bool) (w : World) :
  let once := scan_directory_incremental L R source_dir file_types
                exclude_dirs cache_dir force_rescan verbose w in
  let twice := scan_directory_incremental L R source_dir
                 (file_types ++ file_types) exclude_dirs cache_dir
                 force_rescan verbose w in
  r_files_to_process twice.1
  = r_files_to_process once.1 ++ r_files_to_process once.1
  /\ r_cached_files twice.1 = 2 * r_cached_files once.1
  /\ r_strings twice.1 = r_strings once.1
  /\ r_counts twice.1 = (fun n => 2 * n) <$> r_counts once.1.
Proof.
  cbn zeta.
  destruct (scan_description L R source_dir file_types exclude_dirs
              cache_dir force_rescan verbose w) as (Hto1 & Hagg1 & _).
  destruct (scan_description L R source_dir (file_types ++ file_types)
              exclude_dirs cache_dir force_rescan verbose w)
    as (Hto2 & Hagg2 & _).
  pose proof (scan_cached_files L R source_dir file_types exclude_dirs
                cache_dir force_rescan verbose w) as Hcnt1.
  pose proof (scan_cached_files L R source_dir (file_types ++ file_types)
                exclude_dirs cache_dir force_rescan verbose w) as Hcnt2.
  cbn zeta in *. rewrite collect_files_app in Hto2, Hagg2, Hcnt2.
  set (once := scan_directory_incremental L R source_dir file_types
                 exclude_dirs cache_dir force_rescan verbose w) in *.
  set (twice := scan_directory_incremental L R source_dir
                  (file_types ++ file_types) exclude_dirs cache_dir
                  force_rescan verbose w) in *.
  set (cs := run_contribution L R
               (load_cache L (w_fs w) (cache_dir_or_default cache_dir))
               (w_fs w) force_rescan
               <$> collect_files w source_dir file_types exclude_dirs) in *.
  rewrite fmap_app in Hagg2. fold cs in Hagg2.
  assert (forall k : string,
             (exists c, c ∈ cs ++ cs /\ is_Some (c !! k))
             <-> (exists c, c ∈ cs /\ is_Some (c !! k))) as Hkeys.
  { intros k. split; intros (c & Hc & Hk); exists c; (split; [|done]).
    - apply elem_of_app in Hc. by destruct Hc.
    - apply elem_of_app. by left. }
  split_and!.
  - rewrite Hto1, Hto2. destruct force_rescan; [done|]. apply filter_app.
  - rewrite Hcnt1, Hcnt2. destruct force_rescan; [done|].
    rewrite filter_app, length_app. lia.
  - apply map_eq. intros k. apply (option_eq_default ∅).
    + change (r_strings ?r) with ((r_strings r, r_counts r).1).
      rewrite Hagg1, Hagg2, !absorb_all_strings_key. cbn [fst].
      rewrite !lookup_empty, Hkeys. done.
    + change (r_strings ?r) with ((r_strings r, r_counts r).1).
      rewrite Hagg1, Hagg2, !absorb_all_strings_total. cbn [fst].
      rewrite !lookup_empty, fragments_app. cbn [default].
      by rewrite (idemp_L (∪)).
  - apply map_eq. intros k. rewrite lookup_fmap. apply (option_eq_default 0).
    + rewrite fmap_is_Some.
      change (r_counts twice.1)
        with ((r_strings twice.1, r_counts twice.1).2).
      change (r_counts once.1) with ((r_strings once.1, r_counts once.1).2).
      rewrite Hagg1, Hagg2, !absorb_all_counts_key. cbn [snd].
      rewrite !lookup_empty, Hkeys. done.
    + change (r_counts twice.1)
        with ((r_strings twice.1, r_counts twice.1).2).
      change (r_counts once.1) with ((r_strings once.1, r_counts once.1).2).
      rewrite Hagg2, absorb_all_counts_total. cbn [snd].
      rewrite lookup_empty, occurrences_app. cbn [default].
      pose proof (absorb_all_counts_total cs (∅, ∅) k) as Hone.
      cbn [snd] in Hone. rewrite lookup_empty in Hone. cbn [default] in Hone.
      rewrite <- Hagg1 in Hone. cbn [snd] in Hone.
      destruct (r_counts once.1 !! k); cbn in *; lia.
Qed.

(** ** Categories of a file *)

(** X9.  What [extract_from_file] returns for a file that can be read and
    decoded is decided by the file type alone: the six template categories
    for jsx, tsx, vue and html, the two script categories for js, jsx, ts,
    tsx and vue, both groups for the types in both lists, and never a
    category named error.  A type in neither list (css, or an extension in
    capitals) gives the empty dictionary, which still counts as a success:
    the file contributes nothing and is not reported. *)
Theorem result_categories_follow_the_file_type (L : PyLib) (R : RuleSet)
    (fs : Files) (filepath : Path) (file_type : string) :
  let results := extract_from_file L R fs filepath file_type in
  let template : gset string :=
    if bool_decide (file_type ∈ ["jsx"; "tsx"; "vue"; "html"])
    then {[ "jsx_content"; "buttons"; "labels"; "placeholders";
            "attributes"; "toasts_alerts" ]}
    else ∅ in
  let script : gset string :=
    if bool_decide (file_type ∈ ["js"; "jsx"; "ts"; "tsx"; "vue"])
    then {[ "validation"; "ui_literals" ]}
    else ∅ in
  is_Some (fs !! filepath ≫= utf8_decode L) ->
  dom results = template ∪ script
  /\ results !! "error" = None
  /\ (file_type ∉ ["jsx"; "tsx"; "vue"; "html"] ->
      file_type ∉ ["js"; "jsx"; "ts"; "tsx"; "vue"] ->
      results = ∅ /\ of_results results = ∅).
Proof.
  cbn zeta. intros [content Hcontent].
  split_and!.
  - unfold extract_from_file. rewrite Hcontent.
    repeat case_bool_decide; rewrite ?dom_insert_L, ?dom_empty_L;
      set_solver.
  - apply extract_from_file_error. by rewrite Hcontent.
  - intros Ht Hs. unfold extract_from_file. rewrite Hcontent.
    rewrite !bool_decide_eq_false_2 by done.
    split; [done|]. unfold of_results. by rewrite fmap_empty.
Qed.

Lemma result_categories_follow_the_file_type_witness :
  is_Some (w_fs Toy.plain_notes !! "docs/notes.txt" ≫= utf8_decode Toy.lib)
  /\ extract_from_file Toy.lib Toy.rules (w_fs Toy.plain_notes)
       "docs/notes.txt" "txt" = ∅.
Proof.
  assert (is_Some (w_fs Toy.plain_notes !! "docs/notes.txt"
                     ≫= utf8_decode Toy.lib)) as Hok
    by (vm_compute; eauto).
  split; [exact Hok|].
  refine (proj1 (proj2 (proj2
    (result_categories_follow_the_file_type Toy.lib Toy.rules
       (w_fs Toy.plain_notes) "docs/notes.txt" "txt" Hok)) _ _)).
  - intros Hin. vm_compute in Hin.
    repeat (apply elem_of_cons in Hin as [Hin|Hin]; [discriminate Hin|]).
    by inversion Hin.
  - intros Hin.
    repeat (apply elem_of_cons in Hin as [Hin|Hin]; [discriminate Hin|]).
    by inversion Hin.
Defined.

(** ** The parallel scan and the incremental scan *)

Section ParallelScan.

Context (L : PyLib) (R : RuleSet).

Lemma collect_work_paths (w : World) (source_dir : Path)
    (file_types exclude_dirs : list string) :
  (collect_work w source_dir file_types exclude_dirs).*1
  = collect_files w source_dir file_types exclude_dirs.
Proof.
  unfold collect_work, collect_files.
  induction file_types as [|ft fts IH]; [done|].
  cbn [mbind list_bind]. rewrite fmap_app, IH. f_equal.
  rewrite <- list_fmap_compose. apply list_fmap_id.
Qed.

Lemma work_contribution_fresh (fs : Files) (p : Path) :
  work_contribution L R fs (p, file_type_of p) = fresh_contribution L R fs p.
Proof. reflexivity. Qed.

Lemma work_contribution_failed (fs : Files) (args : Path * string) :
  fs !! args.1 ≫= utf8_decode L = None ->
  work_contribution L R fs args = ∅.
Proof.
  intros Hnone. unfold work_contribution, process_file.
  destruct args as [p ft]. cbn [fst snd] in *. cbn zeta.
  rewrite bool_decide_eq_false_2; [done|].
  rewrite extract_from_file_error, Hnone. by intros [? ?].
Qed.

Lemma collect_work_without (d : Path) (w : World) (source_dir : Path)
    (file_types exclude_dirs : list string) :
  collect_work (without_file d w) source_dir file_types exclude_dirs
  = filter (fun item => item.1 <> d)
           (collect_work w source_dir file_types exclude_dirs).
Proof.
  unfold collect_work. induction file_types as [|ft fts IH]; [done|].
  cbn [mbind list_bind]. rewrite filter_app, <- IH. f_equal.
  cbn [without_file w_rglob].
  rewrite <- (filter_without_comm d (fun p => is_excluded p exclude_dirs)).
  generalize (filter (fun p => is_excluded p exclude_dirs = false)
                     (w_rglob w source_dir ("**/*." +:+ ft))).
  intros files. induction files as [|p files IHf]; [done|].
  rewrite fmap_cons, !filter_cons. cbn [fst].
  destruct (decide (p <> d)); [rewrite fmap_cons|]; by rewrite IHf.
Qed.

Lemma absorb_all_skip_failed (fs : Files) (d : Path)
    (items : list (Path * string)) (acc : Strings * Counts) :
  fs !! d ≫= utf8_decode L = None ->
  absorb_all (work_contribution L R fs
                <$> filter (fun item => item.1 <> d) items) acc
  = absorb_all (work_contribution L R fs <$> items) acc.
Proof.
  intros Hd. revert acc.
  induction items as [|item items IH]; intros acc; [done|].
  rewrite filter_cons, fmap_cons. cbn [absorb_all foldl].
  destruct (decide (item.1 <> d)) as [Hne|Heq].
  - rewrite fmap_cons. cbn [absorb_all foldl]. apply IH.
  - apply dec_stable in Heq. rewrite work_contribution_failed, absorb_empty
      by (by rewrite Heq).
    apply IH.
Qed.

Lemma collect_result_log_mono (verbose : bool) (total : nat)
    (st : Collected) (result : string * Results) (line : string) :
  line ∈ k_log st -> line ∈ k_log (collect_result verbose total st result).
Proof.
  intros Hin. unfold collect_result. destruct result as [p results].
  case_bool_decide; cbn [k_log].
  - destruct (verbose && _); [apply elem_of_app; by left|done].
  - destruct verbose; [apply elem_of_app; by left|done].
Qed.

Lemma collect_results_log_mono (verbose : bool) (total : nat)
    (results : list (string * Results)) (st : Collected) (line : string) :
  line ∈ k_log st ->
  line ∈ k_log (foldl (collect_result verbose total) st results).
Proof.
  revert st. induction results as [|r results IH]; intros st Hin; [done|].
  cbn [foldl]. by apply IH, collect_result_log_mono.
Qed.

Lemma collect_results_log_error (fs : Files) (total : nat)
    (items : list (Path * string)) (st : Collected) (item : Path * string) :
  item ∈ items -> fs !! item.1 ≫= utf8_decode L = None ->
  "Error processing " +:+ item.1
    ∈ k_log (foldl (collect_result true total) st
                   (process_file L R fs <$> items)).
Proof.
  revert st. induction items as [|i items IH]; intros st Hin Hnone.
  - by inversion Hin.
  - rewrite fmap_cons. cbn [foldl].
    apply elem_of_cons in Hin as [<-|Hin]; [|by apply IH].
    apply collect_results_log_mono.
    unfold collect_result, process_file. destruct item as [p ft].
    cbn [fst] in *. rewrite bool_decide_eq_false_2.
    + cbn [k_log]. apply elem_of_app. right. left.
    + rewrite extract_from_file_error, Hnone. by intros [? ?].
Qed.

End ParallelScan.

(** X10.  When every file type given is the extension of the files it
    lists (as for js, html and the like), the parallel scan returns the
    strings and counts of the incremental scan run with force-rescan,
    whatever the cache and the order in which the pool completes.  The
    parallel scan passes the file type of the pattern to the extractor, the
    incremental scan the suffix of the path; the two scans can differ only
    where these differ. *)
Theorem parallel_scan_is_forced_incremental_scan (L : PyLib) (R : RuleSet)
    (source_dir : Path) (file_types exclude_dirs : list string)
    (cache_dir : option string) (workers : option positive)
    (verbose1 verbose2 : bool)
    (schedule : list (Path * string) -> list (Path * string)) (w : World) :
  let fast := scan_directory_parallel L R source_dir file_types exclude_dirs
                workers verbose1 schedule w in
  let forced := scan_directory_incremental L R source_dir file_types
                  exclude_dirs cache_dir true verbose2 w in
  (forall items, schedule items ≡ₚ items) ->
  (forall p file_type,
      (p, file_type) ∈ collect_work w source_dir file_types exclude_dirs ->
      file_type = file_type_of p) ->
  fast.1 = (r_strings forced.1, r_counts forced.1).
Proof.
  cbn zeta. intros Hs Htypes.
  destruct (scan_description L R source_dir file_types exclude_dirs
              cache_dir true verbose2 w) as (_ & -> & _).
  rewrite scan_parallel_aggregate.
  rewrite (absorb_all_permutation _
             (work_contribution L R (w_fs w)
                <$> collect_work w source_dir file_types exclude_dirs))
    by (apply fmap_Permutation; by apply completed_permutation).
  f_equal. rewrite <- collect_work_paths, <- list_fmap_compose.
  apply list_fmap_ext. intros i [p ft] Hitem.
  apply list_elem_of_lookup_2 in Hitem. cbn [compose fst].
  rewrite (Htypes p ft Hitem). apply work_contribution_fresh.
Qed.

Lemma parallel_scan_is_forced_incremental_scan_witness :
  let fast := scan_directory_parallel Toy.lib Toy.rules "src" ["html"; "js"]
                ["node_modules"] None false reverse Toy.two_pages in
  let forced := scan_directory_incremental Toy.lib Toy.rules "src"
                  ["html"; "js"] ["node_modules"] None true false
                  Toy.two_pages in
  (forall items : list (Path * string), reverse items ≡ₚ items)
  /\ (forall p file_type,
        (p, file_type)
          ∈ collect_work Toy.two_pages "src" ["html"; "js"] ["node_modules"] ->
        file_type = file_type_of p)
  /\ fast.1 = (r_strings forced.1, r_counts forced.1).
Proof.
  cbn zeta.
  assert (forall items : list (Path * string), reverse items ≡ₚ items) as Hs
    by (intros items; apply reverse_Permutation).
  assert (forall p file_type,
             (p, file_type)
               ∈ collect_work Toy.two_pages "src" ["html"; "js"]
                   ["node_modules"] ->
             file_type = file_type_of p) as Htypes.
  { assert (collect_work Toy.two_pages "src" ["html"; "js"] ["node_modules"]
            = [("src/a.html", "html"); ("src/b.html", "html")]) as ->
      by (vm_compute; reflexivity).
    intros p ft Hin.
    apply elem_of_cons in Hin as [[= -> ->]|Hin]; [reflexivity|].
    apply elem_of_cons in Hin as [[= -> ->]|Hin]; [reflexivity|].
    by inversion Hin. }
  split; [exact Hs|]. split; [exact Htypes|].
  exact (parallel_scan_is_forced_incremental_scan Toy.lib Toy.rules "src"
           ["html"; "js"] ["node_modules"] None None false false reverse
           Toy.two_pages Hs Htypes).
Defined.

(** X11.  In the parallel scan a file that cannot be opened, read or decoded
    does not disturb the others: the strings and counts are those of the
    scan of the machine without that file, whatever the two completion
    orders; and in verbose mode the failure is printed, once the file is
    among the work items. *)
Theorem parallel_scan_skips_failed_file (L : PyLib) (R : RuleSet)
    (source_dir : Path) (file_types exclude_dirs : list string)
    (workers : option positive) (verbose : bool)
    (schedule1 schedule2 : list (Path * string) -> list (Path * string))
    (w : World) (d : Path) :
  let fast := scan_directory_parallel L R source_dir file_types exclude_dirs
                workers verbose schedule1 w in
  let others := scan_directory_parallel L R source_dir file_types
                  exclude_dirs workers verbose schedule2 (without_file d w) in
  let loud := scan_directory_parallel L R source_dir file_types exclude_dirs
                workers true schedule1 w in
  (forall items, schedule1 items ≡ₚ items) ->
  (forall items, schedule2 items ≡ₚ items) ->
  w_fs w !! d ≫= utf8_decode L = None ->
  fast.1 = others.1
  /\ (forall file_type,
        (d, file_type) ∈ collect_work w source_dir file_types exclude_dirs ->
        "Error processing " +:+ d ∈ loud.2).
Proof.
  cbn zeta. intros Hs1 Hs2 Hnone. split.
  - rewrite !scan_parallel_aggregate. cbn [without_file w_fs].
    rewrite !(absorb_all_permutation
                (_ <$> completed _ _)
                (work_contribution L R (w_fs w) <$> _))
      by (apply fmap_Permutation; by apply completed_permutation).
    rewrite collect_work_without. symmetry.
    by apply absorb_all_skip_failed.
  - intros ft Hin. unfold scan_directory_parallel.
    destruct (collect_work w source_dir file_types exclude_dirs)
      as [|item items] eqn:Hwork; [by inversion Hin|].
    rewrite <- Hwork in *. cbn zeta. cbn [snd].
    apply (collect_results_log_error L R (w_fs w) _ _ _ (d, ft)); [|done].
    by rewrite Hs1.
Qed.

Lemma parallel_scan_skips_failed_file_witness :
  let fast := scan_directory_parallel Toy.lib Toy.rules "src" ["html"]
                ["node_modules"] None false reverse Toy.locked_page in
  let others := scan_directory_parallel Toy.lib Toy.rules "src" ["html"]
                  ["node_modules"] None false id
                  (without_file "src/locked.html" Toy.locked_page) in
  w_fs Toy.locked_page !! "src/locked.html" ≫= utf8_decode Toy.lib = None
  /\ fast.1 = others.1.
Proof.
  cbn zeta.
  assert (forall items : list (Path * string), reverse items ≡ₚ items) as Hs1
    by (intros items; apply reverse_Permutation).
  assert (forall items : list (Path * string), id items ≡ₚ items) as Hs2
    by (intros items; reflexivity).
  assert (w_fs Toy.locked_page !! "src/locked.html" ≫= utf8_decode Toy.lib
          = None) as Hnone by (vm_compute; reflexivity).
  split; [exact Hnone|].
  exact (proj1 (parallel_scan_skips_failed_file Toy.lib Toy.rules "src"
                  ["html"] ["node_modules"] None false reverse id
                  Toy.locked_page "src/locked.html" Hs1 Hs2 Hnone)).
Defined.

(** ** Saving and loading *)

(** X12.  [save_cache] replaces the cache file whole: a save followed by a
    save leaves what the second alone leaves, saving the same cache twice
    is saving it once, no other file is touched, and saves to different
    cache files do not interfere. *)
Theorem save_cache_replaces_the_file (L : PyLib) (cache1 cache2 : Cache)
    (cache_dir other_dir : string) (fs : Files) :
  save_cache L cache2 cache_dir (save_cache L cache1 cache_dir fs)
  = save_cache L cache2 cache_dir fs
  /\ save_cache L cache1 cache_dir (save_cache L cache1 cache_dir fs)
     = save_cache L cache1 cache_dir fs
  /\ (forall other : Path,
        other <> cache_path cache_dir ->
        save_cache L cache1 cache_dir fs !! other = fs !! other)
  /\ (cache_path cache_dir <> cache_path other_dir ->
      save_cache L cache2 other_dir (save_cache L cache1 cache_dir fs)
      = save_cache L cache1 cache_dir (save_cache L cache2 other_dir fs)).
Proof.
  rewrite !save_cache_written. split_and!.
  - apply insert_insert_eq.
  - apply insert_insert_eq.
  - intros other Hother. by apply lookup_insert_ne.
  - intros Hne. by apply insert_insert_ne.
Qed.

(** X13.  Provided [json.load] reads back what [json.dump] wrote,
    [load_cache] after [save_cache] returns the cache saved, whatever the
    cache file held before (nothing, rubbish or another cache); and loading
    does not depend on any other file. *)
Theorem load_cache_after_save_cache (L : PyLib) (cache : Cache)
    (cache_dir : string) (fs fs' : Files) :
  (forall c : Cache, json_load L (concat (json_dump L c)) = Some c) ->
  fs' !! cache_path cache_dir
  = save_cache L cache cache_dir fs !! cache_path cache_dir ->
  load_cache L (save_cache L cache cache_dir fs) cache_dir = cache
  /\ load_cache L fs' cache_dir = cache.
Proof.
  intros Hjson Hsame.
  assert (load_cache L (save_cache L cache cache_dir fs) cache_dir = cache)
    as Hload.
  { unfold load_cache. by rewrite save_cache_written, lookup_insert_eq, Hjson. }
  split; [done|]. by rewrite (load_cache_agree L _ _ _ Hsame).
Qed.

Lemma load_cache_after_save_cache_witness :
  let fs := w_fs Toy.two_pages_corrupt in
  (forall c : Cache,
      json_load Toy.lib (concat (json_dump Toy.lib c)) = Some c)
  /\ load_cache Toy.lib fs CACHE_DIR = ∅
  /\ load_cache Toy.lib (save_cache Toy.lib Toy.cache_two CACHE_DIR fs)
       CACHE_DIR = Toy.cache_two.
Proof.
  cbn zeta. split; [exact toy_json_roundtrip|]. split.
  - vm_compute. reflexivity.
  - exact (proj1 (load_cache_after_save_cache Toy.lib Toy.cache_two CACHE_DIR
                    (w_fs Toy.two_pages_corrupt) _ toy_json_roundtrip
                    eq_refl)).
Defined.

(** ** The extractors of the scripts *)

Section ScriptRules.

Context (RE : Rules.Regex).

Lemma elem_of_stripped_set (matches : list string) (x : string) :
  x ∈ Rules.stripped_set RE matches
  <-> x <> "" /\ exists m, m ∈ matches /\ x = Rules.strip RE m.
Proof.
  unfold Rules.stripped_set. rewrite elem_of_list_to_set, list_elem_of_fmap.
  split.
  - intros (m & -> & Hm). apply list_elem_of_In, filter_In in Hm as [Hm Hne].
    apply negb_true_iff, String.eqb_neq in Hne.
    split; [done|]. exists m. split; [by apply list_elem_of_In|done].
  - intros (Hne & m & Hm & ->). exists m. split; [done|].
    apply list_elem_of_In, filter_In. split; [by apply list_elem_of_In|].
    by apply negb_true_iff, String.eqb_neq.
Qed.

Lemma prefix_spec (needle text : string) :
  String.prefix needle text = true <-> exists post, text = needle +:+ post.
Proof.
  revert text. induction needle as [|c needle IH]; intros text.
  - split; [intros _; exists text; reflexivity|intros _; by destruct text].
  - destruct text as [|c' text]; cbn [String.prefix].
    + split; [done|]. intros [post Heq]. discriminate Heq.
    + destruct (Ascii.ascii_dec c c') as [<-|Hne].
      * rewrite IH. split; intros [post Heq]; exists post.
        -- cbn. by rewrite Heq.
        -- cbn in Heq. by injection Heq.
      * split; [done|]. intros [post Heq]. cbn in Heq.
        injection Heq as Hc _. by destruct Hne.
Qed.

(** [contains] is the substring test. *)
Lemma contains_spec (needle text : string) :
  Rules.contains needle text = true
  <-> exists pre post, text = pre +:+ needle +:+ post.
Proof.
  split.
  - induction text as [|c text IH]; cbn [Rules.contains];
      intros Hc; apply orb_true_iff in Hc as [Hp|Hc]; try done.
    + apply prefix_spec in Hp as [post ->]. by exists "", post.
    + apply prefix_spec in Hp as [post ->]. by exists "", post.
    + destruct (IH Hc) as (pre & post & ->).
      by exists (String c pre), post.
  - intros (pre & post & ->). induction pre as [|c pre IH].
    + cbn [String.append].
      destruct (needle +:+ post) eqn:Heq; cbn [Rules.contains];
        apply orb_true_iff; left; apply prefix_spec; exists post; done.
    + cbn [String.append Rules.contains]. apply orb_true_iff. by right.
Qed.

End ScriptRules.

(** X14.  The three extractors that strip their matches (text between tags,
    button text, label text) return exactly the stripped matches that are
    not empty: a match made of blanks only gives no fragment, and the empty
    string is never a fragment of these categories. *)
Theorem stripped_extractors_drop_blank_matches (RE : Rules.Regex)
    (content x : string) :
  (x ∈ Rules.extract_jsx_strings RE content
   <-> x <> ""
       /\ exists m, m ∈ Rules.findall RE "jsx_content" content
                    /\ x = Rules.strip RE m)
  /\ (x ∈ Rules.extract_button_text RE content
      <-> x <> ""
          /\ exists m, m ∈ Rules.findall RE "buttons" content
                       /\ x = Rules.strip RE m)
  /\ (x ∈ Rules.extract_label_text RE content
      <-> x <> ""
          /\ exists m, m ∈ Rules.findall RE "labels" content
                       /\ x = Rules.strip RE m)
  /\ ("" ∉ Rules.extract_jsx_strings RE content)
  /\ ("" ∉ Rules.extract_button_text RE content)
  /\ ("" ∉ Rules.extract_label_text RE content).
Proof.
  unfold Rules.extract_jsx_strings, Rules.extract_button_text,
    Rules.extract_label_text.
  split_and!; try apply elem_of_stripped_set;
    rewrite elem_of_stripped_set; by intros [? _].
Qed.

(** X15.  [extract_toast_alert_strings] keeps, of the matches of the
    message, title and text patterns, exactly those whose lower-cased form
    has one of the ten keywords as a substring; the match itself is kept,
    not its lower-cased form. *)
Theorem toast_strings_contain_a_keyword (RE : Rules.Regex)
    (content x : string) :
  x ∈ Rules.extract_toast_alert_strings RE content
  <-> (x ∈ Rules.findall RE "message" content
       \/ x ∈ Rules.findall RE "toast_title" content
       \/ x ∈ Rules.findall RE "text" content)
      /\ exists keyword pre post,
           keyword ∈ Rules.VALIDATION_KEYWORDS
           /\ Rules.lower RE x = pre +:+ keyword +:+ post.
Proof.
  unfold Rules.extract_toast_alert_strings. cbn zeta.
  rewrite elem_of_list_to_set, list_elem_of_In, filter_In, existsb_exists.
  rewrite <- list_elem_of_In, !elem_of_app.
  split.
  - intros [Hin (keyword & Hk & Hc)]. split; [done|].
    apply contains_spec in Hc as (pre & post & Heq).
    exists keyword, pre, post. split; [by apply list_elem_of_In|done].
  - intros [Hin (keyword & pre & post & Hk & Heq)]. split; [done|].
    exists keyword. split; [by apply list_elem_of_In|].
    apply contains_spec. eauto.
Qed.

(** ** Names that exclude nothing *)

Lemma split_slash_nonempty (s : string) : split_slash s <> [].
Proof.
  destruct s as [|c s]; cbn [split_slash]; [done|].
  destruct (Ascii.eqb c slash); [done|]. by destruct (split_slash s).
Qed.

Lemma split_slash_no_slash (s seg : string) :
  seg ∈ split_slash s -> has_char slash seg = false.
Proof.
  revert seg. induction s as [|c s IH]; intros seg; cbn [split_slash].
  - intros Hin. apply list_elem_of_singleton in Hin as ->. done.
  - destruct (Ascii.eqb c slash) eqn:Hc.
    + intros Hin. apply elem_of_cons in Hin as [->|Hin]; [done|by apply IH].
    + destruct (split_slash s) as [|seg0 segs] eqn:Hs.
      * intros Hin. apply list_elem_of_singleton in Hin as ->.
        cbn [has_char]. by rewrite Hc.
      * intros Hin. apply elem_of_cons in Hin as [->|Hin].
        -- cbn [has_char]. rewrite Hc. cbn [orb]. apply IH. by left.
        -- apply IH. by right.
Qed.

(** The root of a path is one separator or two, or empty. *)
Lemma root_cases (p : Path) : root p = "" \/ root p = "/" \/ root p = "//".
Proof.
  destruct p as [|c1 [|c2 [|c3 rest]]]; cbn [root]; [by left|..];
    repeat (destruct (Ascii.eqb _ slash)); auto.
Qed.

(** A segment of a path is not empty, is not "." and holds no separator,
    unless it is the root. *)
Lemma parts_are_names (p : Path) (seg : string) :
  seg ∈ parts p ->
  seg = "/" \/ seg = "//"
  \/ (seg <> "" /\ seg <> "." /\ has_char slash seg = false).
Proof.
  unfold parts, segments. rewrite elem_of_app. intros [Hroot|Hseg].
  - destruct (is_absolute p) eqn:Habs; [|by inversion Hroot].
    apply list_elem_of_singleton in Hroot as ->.
    destruct (root_cases p) as [Hr|[Hr|Hr]]; [|by left|by right; left].
    destruct p as [|c1 [|c2 [|c3 rest]]]; cbn [root is_absolute] in *;
      [done|..]; by rewrite Habs in Hr; repeat (destruct (Ascii.eqb _ slash)).
  - right. right. apply list_elem_of_In, filter_In in Hseg as [Hin Hok].
    unfold is_segment in Hok. apply andb_true_iff in Hok as [H1 H2].
    apply negb_true_iff, String.eqb_neq in H1, H2.
    split_and!; [done|done|].
    by apply (split_slash_no_slash p), list_elem_of_In.
Qed.

Lemma ineffective_names_exclude_nothing (exclude_dirs : list string)
    (p : Path) :
  (forall name, name ∈ exclude_dirs ->
                name = "" \/ name = "."
                \/ (has_char slash name = true
                    /\ name <> "/" /\ name <> "//")) ->
  is_excluded p exclude_dirs = false.
Proof.
  intros Hnames. apply is_excluded_false. intros (seg & Hseg & Hin).
  destruct (parts_are_names p seg Hseg) as [->|[->|(Hne & Hdot & Hslash)]];
    destruct (Hnames _ Hin) as [?|[?|(Hc & ? & ?)]]; try done.
  by rewrite Hslash in Hc.
Qed.

Lemma collect_files_no_exclusion (w : World) (source_dir : Path)
    (file_types exclude_dirs : list string) :
  (forall p, is_excluded p exclude_dirs = false) ->
  collect_files w source_dir file_types exclude_dirs
  = collect_files w source_dir file_types [].
Proof.
  intros Hnone. unfold collect_files.
  induction file_types as [|ft fts IH]; [done|].
  cbn [mbind list_bind]. rewrite IH. f_equal.
  generalize (w_rglob w source_dir ("**/*." +:+ ft)). intros files.
  induction files as [|p files IHf]; [done|].
  rewrite !filter_cons, IHf, !decide_True; done.
Qed.

Lemma scan_depends_on_collected_files (L : PyLib) (R : RuleSet)
    (source_dir : Path) (file_types exclude1 exclude2 : list string)
    (cache_dir : option string) (force_rescan verbose : bool) (w : World) :
  collect_files w source_dir file_types exclude1
  = collect_files w source_dir file_types exclude2 ->
  scan_directory_incremental L R source_dir file_types exclude1 cache_dir
    force_rescan verbose w
  = scan_directory_incremental L R source_dir file_types exclude2 cache_dir
      force_rescan verbose w.
Proof. intros Heq. unfold scan_directory_incremental. by rewrite Heq. Qed.

(** X16.  An excluded name takes effect only as a whole path segment, so a
    name that no segment can be excludes nothing: the empty name, the name
    ".", and any name holding a separator, such as src/vendor.  The two
    roots are set apart: "/" is the first segment of an absolute path, and
    "//" that of a path starting with exactly two separators.  With only
    such names in the exclude list the scan discovers, processes and
    returns what it does with no exclusion at all. *)
Theorem names_that_are_no_segment_exclude_nothing (L : PyLib) (R : RuleSet)
    (source_dir : Path) (file_types exclude_dirs : list string)
    (cache_dir : option string) (force_rescan verbose : bool) (w : World) :
  (forall name, name ∈ exclude_dirs ->
                name = "" \/ name = "."
                \/ (has_char slash name = true
                    /\ name <> "/" /\ name <> "//")) ->
  (forall p, is_excluded p exclude_dirs = false)
  /\ collect_files w source_dir file_types exclude_dirs
     = collect_files w source_dir file_types []
  /\ scan_directory_incremental L R source_dir file_types exclude_dirs
       cache_dir force_rescan verbose w
     = scan_directory_incremental L R source_dir file_types [] cache_dir
         force_rescan verbose w.
Proof.
  intros Hnames.
  assert (forall p, is_excluded p exclude_dirs = false) as Hnone
    by (intros p; by apply ineffective_names_exclude_nothing).
  split_and!; [done|by apply collect_files_no_exclusion|].
  by apply scan_depends_on_collected_files, collect_files_no_exclusion.
Qed.

Lemma names_that_are_no_segment_exclude_nothing_witness :
  (forall name, name ∈ ["src/node_modules"; ""] ->
                name = "" \/ name = "."
                \/ (has_char slash name = true
                    /\ name <> "/" /\ name <> "//"))
  /\ collect_files Toy.two_pages "src" ["html"] ["src/node_modules"; ""]
     = ["src/a.html"; "src/b.html"; "src/node_modules/c.html"].
Proof.
  assert (forall name, name ∈ ["src/node_modules"; ""] ->
                       name = "" \/ name = "."
                       \/ (has_char slash name = true
                           /\ name <> "/" /\ name <> "//"))
    as Hnames.
  { intros name Hin.
    apply elem_of_cons in Hin as [->|Hin];
      [right; right; split; [reflexivity|split; discriminate]|].
    apply elem_of_cons in Hin as [->|Hin]; [by left|by inversion Hin]. }
  split; [exact Hnames|].
  rewrite (proj1 (proj2
    (names_that_are_no_segment_exclude_nothing Toy.lib Toy.rules "src"
       ["html"] ["src/node_modules"; ""] None false false Toy.two_pages
       Hnames))).
  vm_compute. reflexivity.
Defined.

(** ** The lists of the command line *)

Lemma str_split_nonempty (sep : ascii) (s : string) : str_split sep s <> [].
Proof.
  destruct s as [|c s]; cbn [str_split]; [done|].
  destruct (Ascii.eqb c sep); [done|]. by destruct (str_split sep s).
Qed.

Lemma concat_cons_nonempty (sep x : string) (xs : list string) :
  xs <> [] -> String.concat sep (x :: xs) = x +:+ sep +:+ String.concat sep xs.
Proof. by destruct xs. Qed.

Lemma concat_cons_char (sep : string) (c : ascii) (x : string)
    (xs : list string) :
  String.concat sep (String c x :: xs) = String c (String.concat sep (x :: xs)).
Proof. by destruct xs. Qed.

(** X17.  Splitting an argument at the commas, as [main] does for the file
    types and the excluded names, loses nothing: joining the pieces with
    commas gives the argument back; there is always at least one piece (the
    empty argument gives one empty piece, not none); and no piece holds a
    comma. *)
Theorem comma_lists_split_and_join (s : string) :
  String.concat "," (str_split comma s) = s
  /\ str_split comma s <> []
  /\ str_split comma "" = [""]
  /\ (forall piece, piece ∈ str_split comma s -> has_char comma piece = false).
Proof.
  split_and!.
  - induction s as [|c s IH]; [done|]. cbn [str_split].
    destruct (Ascii.eqb c comma) eqn:Hc.
    + apply Ascii.eqb_eq in Hc as ->.
      rewrite concat_cons_nonempty by apply str_split_nonempty.
      by rewrite IH.
    + destruct (str_split comma s) as [|piece pieces] eqn:Hs.
      * by destruct (str_split_nonempty comma s).
      * by rewrite concat_cons_char, IH.
  - apply str_split_nonempty.
  - reflexivity.
  - induction s as [|c s IH]; intros piece; cbn [str_split].
    + intros Hin. by apply list_elem_of_singleton in Hin as ->.
    + destruct (Ascii.eqb c comma) eqn:Hc.
      * intros Hin. apply elem_of_cons in Hin as [->|Hin]; [done|by apply IH].
      * destruct (str_split comma s) as [|piece0 pieces] eqn:Hs.
        -- intros Hin. apply list_elem_of_singleton in Hin as ->.
           cbn [has_char]. by rewrite Hc.
        -- intros Hin. apply elem_of_cons in Hin as [->|Hin].
           ++ cbn [has_char]. rewrite Hc. cbn [orb]. apply IH. by left.
           ++ apply IH. by right.
Qed.

(** X18.  Run from the command line with an empty exclude argument, the
    incremental scan excludes nothing: the argument splits into one empty
    name, which no path segment equals, and the run is the run of the scan
    with an empty exclude list. *)
Theorem empty_exclude_argument_excludes_nothing (L : PyLib) (R : RuleSet)
    (args : Args) (w : World) :
  a_exclude args = "" ->
  scan_from_args L R args w
  = scan_directory_incremental L R (a_source_dir args)
      (str_split comma (a_file_types args)) []
      (Some (a_cache_dir args)) (a_force args) (a_verbose args) w.
Proof.
  intros Hempty. unfold scan_from_args. cbn zeta. rewrite Hempty.
  apply scan_depends_on_collected_files, collect_files_no_exclusion.
  intros p. apply ineffective_names_exclude_nothing.
  intros name Hin. apply list_elem_of_singleton in Hin as ->. by left.
Qed.

Lemma empty_exclude_argument_excludes_nothing_witness :
  let args := {| a_source_dir := "src"; a_file_types := "html,js";
                 a_exclude := ""; a_cache_dir := CACHE_DIR;
                 a_force := false; a_verbose := false |} in
  a_exclude args = ""
  /\ r_files_to_process (scan_from_args Toy.lib Toy.rules args Toy.two_pages).1
     = ["src/a.html"; "src/b.html"; "src/node_modules/c.html"].
Proof.
  cbn zeta. split; [reflexivity|].
  rewrite (empty_exclude_argument_excludes_nothing Toy.lib Toy.rules
             {| a_source_dir := "src"; a_file_types := "html,js";
                a_exclude := ""; a_cache_dir := CACHE_DIR;
                a_force := false; a_verbose := false |} Toy.two_pages
             eq_refl).
  vm_compute. reflexivity.
Defined.

(** ** The summary printed by [main] *)



(** ** Flags that change the printed lines only *)

Section Verbosity.

Context (L : PyLib) (R : RuleSet).

Lemma process_step_verbose (fs : Files) (v1 v2 : bool) (new_files i : nat)
    (p : Path) (st1 st2 : Processed) :
  p_cache st1 = p_cache st2 -> p_strings st1 = p_strings st2 ->
  p_counts st1 = p_counts st2 -> p_clock st1 = p_clock st2 ->
  let st1' := process_step L R fs v1 new_files i p st1 in
  let st2' := process_step L R fs v2 new_files i p st2 in
  p_cache st1' = p_cache st2' /\ p_strings st1' = p_strings st2'
  /\ p_counts st1' = p_counts st2' /\ p_clock st1' = p_clock st2'.
Proof.
  intros Hc Hs Hn Ht. cbn zeta. unfold process_step.
  case_bool_decide; cbn [p_cache p_strings p_counts p_clock];
    by rewrite ?Hc, ?Hs, ?Hn, ?Ht.
Qed.

Lemma process_files_verbose (fs : Files) (v1 v2 : bool) (new_files i : nat)
    (files : list Path) (st1 st2 : Processed) :
  p_cache st1 = p_cache st2 -> p_strings st1 = p_strings st2 ->
  p_counts st1 = p_counts st2 -> p_clock st1 = p_clock st2 ->
  let st1' := process_files L R fs v1 new_files i files st1 in
  let st2' := process_files L R fs v2 new_files i files st2 in
  p_cache st1' = p_cache st2' /\ p_strings st1' = p_strings st2'
  /\ p_counts st1' = p_counts st2' /\ p_clock st1' = p_clock st2'.
Proof.
  revert i st1 st2. induction files as [|p files IH];
    intros i st1 st2 Hc Hs Hn Ht; [done|].
  cbn zeta. cbn [process_files].
  destruct (process_step_verbose fs v1 v2 new_files i p st1 st2 Hc Hs Hn Ht)
    as (Hc' & Hs' & Hn' & Ht').
  by apply IH.
Qed.

End Verbosity.

(** X20.  In the incremental scan the verbose flag changes the printed
    lines and nothing else: the verbose run and the quiet run return the
    same strings, counts, files to process and cache, and leave the same
    machine, cache file and stored timestamps included. *)
Theorem verbose_changes_the_log_only (L : PyLib) (R : RuleSet)
    (source_dir : Path) (file_types exclude_dirs : list string)
    (cache_dir : option string) (force_rescan : bool) (w : World) :
  let loud := scan_directory_incremental L R source_dir file_types
                exclude_dirs cache_dir force_rescan true w in
  let quiet := scan_directory_incremental L R source_dir file_types
                 exclude_dirs cache_dir force_rescan false w in
  r_strings loud.1 = r_strings quiet.1
  /\ r_counts loud.1 = r_counts quiet.1
  /\ r_files_to_process loud.1 = r_files_to_process quiet.1
  /\ r_cached_files loud.1 = r_cached_files quiet.1
  /\ r_cache loud.1 = r_cache quiet.1
  /\ loud.2 = quiet.2.
Proof.
  cbn zeta.
  unfold scan_directory_incremental.
  destruct (collect_files w source_dir file_types exclude_dirs)
    as [|p0 files0]; [done|].
  cbn zeta.
  set (state := if force_rescan then _ else _).
  destruct state as [st log]. cbn zeta.
  destruct (decide (0 < length (c_files_to_process st))); [|done].
  cbn zeta. cbn [fst snd r_strings r_counts r_files_to_process
                  r_cached_files r_cache].
  match goal with
  | |- context [process_files L R ?fs true ?n ?i ?files ?st1] =>
      match goal with
      | |- context [process_files L R fs false n i files ?st2] =>
          destruct (process_files_verbose L R fs true false n i files st1 st2
                      eq_refl eq_refl eq_refl eq_refl)
            as (Hc & Hs & Hn & Ht)
      end
  end.
  cbn zeta in *. rewrite Hc, Hs, Hn, Ht. done.
Qed.

(** ** The pool of the parallel scan *)

(** X21.  In the parallel scan the size of the pool, the verbose flag and
    the order in which the pool completes the work change the printed lines
    only: two runs on one machine, each with its own pool size, verbosity
    and completion order, return the same strings and counts.  When there is
    work the pool size is a positive number, the one given or else the
    smaller of the CPU count and the number of work items, and the run
    prints it with the number of work items. *)
Theorem pool_size_changes_the_log_only (L : PyLib) (R : RuleSet)
    (source_dir : Path) (file_types exclude_dirs : list string)
    (workers1 workers2 : option positive) (verbose1 verbose2 : bool)
    (schedule1 schedule2 : list (Path * string) -> list (Path * string))
    (w : World) :
  (forall items, schedule1 items ≡ₚ items) ->
  (forall items, schedule2 items ≡ₚ items) ->
  let all_files := collect_work w source_dir file_types exclude_dirs in
  let run1 := scan_directory_parallel L R source_dir file_types exclude_dirs
                workers1 verbose1 schedule1 w in
  let run2 := scan_directory_parallel L R source_dir file_types exclude_dirs
                workers2 verbose2 schedule2 w in
  let pool_size :=
    match workers1 with
    | Some n => Pos.to_nat n
    | None => Pos.to_nat (cpu_count L) `min` length all_files
    end in
  run1.1 = run2.1
  /\ (all_files <> [] ->
      0 < pool_size
      /\ "Processing " +:+ pretty (length all_files) +:+ " files with "
           +:+ pretty pool_size +:+ " workers..." ∈ run1.2).
Proof.
  intros Hs1 Hs2. cbn zeta. split.
  - rewrite !scan_parallel_aggregate.
    apply absorb_all_permutation, fmap_Permutation.
    by rewrite !completed_permutation.
  - intros Hwork. split.
    + destruct workers1 as [n|]; [apply Pos2Nat.is_pos|].
      pose proof (Pos2Nat.is_pos (cpu_count L)).
      destruct (collect_work w source_dir file_types exclude_dirs);
        [done|cbn [length]; lia].
    + unfold scan_directory_parallel.
      destruct (collect_work w source_dir file_types exclude_dirs)
        as [|item items]; [done|].
      cbn zeta. cbn [snd]. apply collect_results_log_mono. cbn [k_log].
      by left.
Qed.

Lemma pool_size_changes_the_log_only_witness :
  (forall items : list (Path * string), reverse items ≡ₚ items)
  /\ (forall items : list (Path * string), id items ≡ₚ items)
  /\ (scan_directory_parallel Toy.lib Toy.rules "src" ["html"; "js"]
        ["node_modules"] (Some 1%positive) true reverse Toy.two_pages).1
     = (scan_directory_parallel Toy.lib Toy.rules "src" ["html"; "js"]
          ["node_modules"] None false id Toy.two_pages).1.
Proof.
  assert (forall items : list (Path * string), reverse items ≡ₚ items) as H1
    by (intros items; apply reverse_Permutation).
  assert (forall items : list (Path * string), id items ≡ₚ items) as H2
    by (intros items; reflexivity).
  split; [exact H1|]. split; [exact H2|].
  exact (proj1 (pool_size_changes_the_log_only Toy.lib Toy.rules "src"
                  ["html"; "js"] ["node_modules"] (Some 1%positive) None
                  true false reverse id Toy.two_pages H1 H2)).
Defined.

(** ** The lines a run prints *)

(** X22.  The lines the incremental scan prints follow from the files it
    discovered and from which of them are cache hits, not from what the
    files to process hold: nothing when no file is discovered, else the
    force notice, the statistics, and, when there are files to process, the
    processing line, a progress line for each such file when verbose, and
    the update line.  Two machines that list the same files and agree on
    the hits (or are scanned with force-rescan) print the same lines. *)
Theorem printed_lines_follow_the_classification (L : PyLib) (R : RuleSet)
    (source_dir : Path) (file_types exclude_dirs : list string)
    (cache_dir : option string) (force_rescan verbose : bool)
    (w1 w2 : World) :
  let dir := cache_dir_or_default cache_dir in
  let all_files := collect_files w1 source_dir file_types exclude_dirs in
  let run1 := scan_directory_incremental L R source_dir file_types
                exclude_dirs cache_dir force_rescan verbose w1 in
  let run2 := scan_directory_incremental L R source_dir file_types
                exclude_dirs cache_dir force_rescan verbose w2 in
  collect_files w2 source_dir file_types exclude_dirs = all_files ->
  (force_rescan = false ->
   forall p, p ∈ all_files ->
             is_hit L (load_cache L (w_fs w1) dir) (w_fs w1) p
             = is_hit L (load_cache L (w_fs w2) dir) (w_fs w2) p) ->
  r_log run1.1
  = match all_files with
    | [] => []
    | _ :: _ => run_lines force_rescan verbose (length all_files)
                  (r_cached_files run1.1) (r_files_to_process run1.1)
    end
  /\ r_log run1.1 = r_log run2.1.
Proof.
  cbn zeta. intros Hfiles Hhits.
  pose proof (scan_log L R source_dir file_types exclude_dirs cache_dir
                force_rescan verbose w1) as Hlog1.
  pose proof (scan_log L R source_dir file_types exclude_dirs cache_dir
                force_rescan verbose w2) as Hlog2.
  pose proof (scan_cached_files L R source_dir file_types exclude_dirs
                cache_dir force_rescan verbose w1) as Hcnt1.
  pose proof (scan_cached_files L R source_dir file_types exclude_dirs
                cache_dir force_rescan verbose w2) as Hcnt2.
  destruct (scan_description L R source_dir file_types exclude_dirs
              cache_dir force_rescan verbose w1) as (Hto1 & _).
  destruct (scan_description L R source_dir file_types exclude_dirs
              cache_dir force_rescan verbose w2) as (Hto2 & _).
  cbn zeta in *. split; [exact Hlog1|].
  rewrite Hlog1, Hlog2, Hcnt1, Hcnt2, Hto1, Hto2, Hfiles.
  destruct force_rescan; [done|].
  by rewrite !(filter_pointwise _ _ _ _ (Hhits eq_refl)).
Qed.

Lemma printed_lines_follow_the_classification_witness :
  let failed := scan_directory_incremental Toy.lib Toy.rules "docs" ["txt"]
                  ["node_modules"] None false true Toy.locked_notes in
  let fine := scan_directory_incremental Toy.lib Toy.rules "docs" ["txt"]
                ["node_modules"] None false true Toy.plain_notes in
  collect_files Toy.plain_notes "docs" ["txt"] ["node_modules"]
  = collect_files Toy.locked_notes "docs" ["txt"] ["node_modules"]
  /\ extracts Toy.lib Toy.rules (w_fs Toy.locked_notes) "docs/notes.txt" = false
  /\ extracts Toy.lib Toy.rules (w_fs Toy.plain_notes) "docs/notes.txt" = true
  /\ r_log failed.1 = r_log fine.1.
Proof.
  cbn zeta.
  assert (collect_files Toy.plain_notes "docs" ["txt"] ["node_modules"]
          = collect_files Toy.locked_notes "docs" ["txt"] ["node_modules"])
    as Hfiles by (vm_compute; reflexivity).
  assert (false = false ->
          forall p,
            p ∈ collect_files Toy.locked_notes "docs" ["txt"] ["node_modules"] ->
            is_hit Toy.lib
              (load_cache Toy.lib (w_fs Toy.locked_notes)
                 (cache_dir_or_default None))
              (w_fs Toy.locked_notes) p
            = is_hit Toy.lib
                (load_cache Toy.lib (w_fs Toy.plain_notes)
                   (cache_dir_or_default None))
                (w_fs Toy.plain_notes) p) as Hhits.
  { intros _ p Hp.
    assert (p = "docs/notes.txt") as ->
      by (vm_compute in Hp; apply list_elem_of_singleton in Hp; exact Hp).
    vm_compute. reflexivity. }
  split; [exact Hfiles|].
  split; [vm_compute; reflexivity|].
  split; [vm_compute; reflexivity|].
  exact (proj2 (printed_lines_follow_the_classification Toy.lib Toy.rules
                  "docs" ["txt"] ["node_modules"] None false true
                  Toy.locked_notes Toy.plain_notes Hfiles Hhits)).
Defined.
